(** * MetricMaster: the GA4-Enhanced and GTM tool adapters

    A shallow embedding of [metricmaster/tools/fi_google_tag_manager.py] and
    [metricmaster/tools/fi_google_analytics_enhanced.py].

    The adapters are straight-line Python over three kinds of effect: the
    instance's own mutable fields, calls to external collaborators (the OAuth
    helpers of the client kit, the Google API client, the base GA4
    integration) and exceptions.  They are modelled in a state-and-exception
    monad; the external collaborators are oracles over an abstract world, and
    every call to one is recorded in a log so that statements about which
    calls are issued can be made. *)

From Stdlib Require Import String Ascii List ZArith Bool Lia DecimalString RelationClasses.
Import ListNotations.
Open Scope string_scope.
Set Warnings "-register-all".

(** ** Python values and the runtime operations the adapters use *)

Module Py.

(** The values a JSON-decoded argument object or API response holds. *)
Inductive value : Type :=
| VNone
| VBool (b : bool)
| VInt (n : Z)
| VStr (s : string)
| VList (l : list value)
| VDict (d : list (string * value)).

(** A [dict] with string keys, as an association list; a lookup takes the
    first binding of the key. *)
Definition dict : Type := list (string * value).

(** The exceptions that travel through the adapters.  [HttpError] is
    [googleapiclient.errors.HttpError] with [e.resp.status] and [str(e)];
    [RuntimeError] stands for the interpreter's own errors that derive from
    [Exception], by class name; [BaseError] for the classes that derive from
    [BaseException] without deriving from [Exception]
    ([asyncio.CancelledError], [KeyboardInterrupt], [SystemExit],
    [GeneratorExit]), which an awaited call may raise. *)
Inductive exn : Type :=
| HttpError (status : Z) (text : string)
| TransportQueryError (text : string)
| NeedsConfirmation (confirm_setup_key confirm_command confirm_explanation : string)
| RuntimeError (cls : string) (text : string)
| BaseError (cls : string) (text : string).

(** [isinstance(e, Exception)]: what an [except Exception] clause catches. *)
Definition is_exception (e : exn) : bool :=
  match e with
  | BaseError _ _ => false
  | _ => true
  end.

Inductive outcome (A : Type) : Type :=
| Ret (a : A)
| Raise (e : exn).
Arguments Ret {A} a.
Arguments Raise {A} e.

Definition NL : string := String (ascii_of_nat 10) EmptyString.
Definition DQ : string := String (ascii_of_nat 34) EmptyString.

(** [bool(v)]. *)
Definition truthy (v : value) : bool :=
  match v with
  | VNone => false
  | VBool b => b
  | VInt n => negb (Z.eqb n 0)
  | VStr s => negb (String.eqb s "")
  | VList l => match l with [] => false | _ => true end
  | VDict d => match d with [] => false | _ => true end
  end.

Fixpoint lookup (d : dict) (k : string) : option value :=
  match d with
  | [] => None
  | (k', v) :: d' => if String.eqb k' k then Some v else lookup d' k
  end.

(** [d.get(k, default)] on a dict. *)
Definition dict_get (d : dict) (k : string) (default : value) : value :=
  match lookup d k with
  | Some v => v
  | None => default
  end.

Definition type_name (v : value) : string :=
  match v with
  | VNone => "NoneType"
  | VBool _ => "bool"
  | VInt _ => "int"
  | VStr _ => "str"
  | VList _ => "list"
  | VDict _ => "dict"
  end.

Definition AttributeError {A} (v : value) (attr : string) : outcome A :=
  Raise (RuntimeError "AttributeError"
           ("'" ++ type_name v ++ "' object has no attribute '" ++ attr ++ "'")).

(** [v.get(k, default)] on an arbitrary value: only a dict has [get]. *)
Definition py_get (v : value) (k : string) (default : value) : outcome value :=
  match v with
  | VDict d => Ret (dict_get d k default)
  | _ => AttributeError v "get"
  end.

(** A [str] is held as its UTF-8 encoding, one [ascii] per byte, as the
    source files spell their literals.  A character (code point) is a lead
    byte and the continuation bytes, of the form [10xxxxxx], after it. *)
Definition is_continuation (c : ascii) : bool :=
  match c with
  | Ascii _ _ _ _ _ _ b6 b7 => b7 && negb b6
  end.

(** The continuation bytes [s] starts with, and the characters after them. *)
Fixpoint code_points (s : string) : string * list string :=
  match s with
  | EmptyString => (EmptyString, [])
  | String c s' =>
      let (cont, rest) := code_points s' in
      if is_continuation c then (String c cont, rest)
      else (EmptyString, String c cont :: rest)
  end.

(** The one-character strings of [s], as iterating a [str] yields them. *)
Definition chars (s : string) : list value :=
  let (cont, rest) := code_points s in
  map VStr (match cont with
            | EmptyString => rest
            | _ => cont :: rest
            end).

(** [v[0]]. *)
Definition py_index0 (v : value) : outcome value :=
  match v with
  | VList (x :: _) => Ret x
  | VList [] => Raise (RuntimeError "IndexError" "list index out of range")
  | VStr s =>
      match chars s with
      | x :: _ => Ret x
      | [] => Raise (RuntimeError "IndexError" "string index out of range")
      end
  | VDict _ => Raise (RuntimeError "KeyError" "0")
  | _ => Raise (RuntimeError "TypeError"
                  ("'" ++ type_name v ++ "' object is not subscriptable"))
  end.

(** The elements a [for] loop over [v] visits. *)
Definition py_iter (v : value) : outcome (list value) :=
  match v with
  | VList l => Ret l
  | VDict d => Ret (map (fun kv => VStr (fst kv)) d)
  | VStr s => Ret (chars s)
  | _ => Raise (RuntimeError "TypeError"
                  ("'" ++ type_name v ++ "' object is not iterable"))
  end.

(** [v == s] for a string literal [s]. *)
Definition eq_str (v : value) (s : string) : bool :=
  match v with
  | VStr s' => String.eqb s' s
  | _ => false
  end.

(** [sub in s] on strings: [sub] occurs in [s] as a contiguous run. *)
Fixpoint contains (sub s : string) : bool :=
  if prefix sub s then true
  else match s with
       | EmptyString => false
       | String _ s' => contains sub s'
       end.

(** [needle in v] for a string literal [needle]. *)
Definition py_in (needle : string) (v : value) : outcome bool :=
  match v with
  | VStr s => Ret (contains needle s)
  | VList l => Ret (existsb (fun x => eq_str x needle) l)
  | VDict d => Ret (existsb (fun kv => String.eqb (fst kv) needle) d)
  | _ => Raise (RuntimeError "TypeError"
                  ("argument of type '" ++ type_name v ++ "' is not iterable"))
  end.

(** [str(n)] for an integer. *)
Definition str_of_Z (n : Z) : string := NilZero.string_of_int (Z.to_int n).

Definition str_of_nat (n : nat) : string := str_of_Z (Z.of_nat n).

(** What the interpreter alone decides: [repr] of a list or a dict, and
    [str] of the client kit's confirmation exception. *)
Record runtime : Type := {
  repr : value -> string;
  str_confirmation : string -> string -> string -> string
}.

(** [str(v)], as an f-string field formats [v]. *)
Definition py_str (rt : runtime) (v : value) : string :=
  match v with
  | VNone => "None"
  | VBool true => "True"
  | VBool false => "False"
  | VInt n => str_of_Z n
  | VStr s => s
  | _ => repr rt v
  end.

(** [str(e)]. *)
Definition exn_str (rt : runtime) (e : exn) : string :=
  match e with
  | HttpError _ t => t
  | TransportQueryError t => t
  | NeedsConfirmation k c x => str_confirmation rt k c x
  | RuntimeError _ t => t
  | BaseError _ t => t
  end.

(** [sep.join(v)]: every element must be a [str]. *)
Fixpoint strs_of (i : nat) (l : list value) : outcome (list string) :=
  match l with
  | [] => Ret []
  | VStr s :: l' =>
      match strs_of (S i) l' with
      | Ret ss => Ret (s :: ss)
      | Raise e => Raise e
      end
  | x :: _ =>
      Raise (RuntimeError "TypeError"
               ("sequence item " ++ str_of_nat i ++ ": expected str instance, "
                  ++ type_name x ++ " found"))
  end.

Definition py_join (sep : string) (v : value) : outcome string :=
  match py_iter v with
  | Raise _ => Raise (RuntimeError "TypeError" "can only join an iterable")
  | Ret l =>
      match strs_of 0 l with
      | Ret ss => Ret (String.concat sep ss)
      | Raise e => Raise e
      end
  end.

(** [ckit_cloudtool.FCloudtoolCall], by the one field the adapters read. *)
Record toolcall : Type := {
  confirmed_by_human : bool
}.

(** [if args_error:] on the sanitizer's optional message. *)
Definition has_error (args_error : option string) : bool :=
  match args_error with
  | Some err => negb (String.eqb err "")
  | None => false
  end.

Definition error_text (args_error : option string) : string :=
  match args_error with
  | Some err => err
  | None => ""
  end.

(** [not op or needle in op]. *)
Definition empty_or_contains (needle : string) (op : value) : outcome bool :=
  if negb (truthy op) then Ret true else py_in needle op.

(** *** The monad: a state [S] threaded through, and exceptions *)

Definition M (S A : Type) : Type := S -> outcome A * S.

Definition ret {S A} (a : A) : M S A := fun st => (Ret a, st).

Definition raise {S A} (e : exn) : M S A := fun st => (Raise e, st).

Definition bind {S A B} (m : M S A) (k : A -> M S B) : M S B :=
  fun st =>
    match m st with
    | (Ret a, st') => k a st'
    | (Raise e, st') => (Raise e, st')
    end.

(** A pure computation that may raise, run inside the monad. *)
Definition lift {S A} (o : outcome A) : M S A := fun st => (o, st).

(** [try: m  except <exceptions h is defined on> as e: h e]. *)
Definition try_except {S A} (m : M S A) (h : exn -> option (M S A)) : M S A :=
  fun st =>
    match m st with
    | (Ret a, st') => (Ret a, st')
    | (Raise e, st') =>
        match h e with
        | Some k => k st'
        | None => (Raise e, st')
        end
    end.

(** [m] ends in a state [R]-related to the one it started in, whether it
    returns or raises. *)
Definition preserves {S} (R : S -> S -> Prop) {A} (m : M S A) : Prop :=
  forall st, R st (snd (m st)).

End Py.

Export Py.

Notation "x <- m ;; k" := (bind m (fun x => k))
  (at level 61, m at next level, right associativity).
Notation "m ;;; k" := (bind m (fun _ => k))
  (at level 61, right associativity).

(** ** The GTM adapter: [fi_google_tag_manager.py] *)

Module GTM.

Definition HELP : string :=
  String.concat DQ [
"
Help:

google_tag_manager(op="; "status"; ")
    Show connection status and available operations.

# Account & Container Operations
google_tag_manager(op="; "listAccounts"; ")
    List all GTM accounts you have access to.

google_tag_manager(op="; "listContainers"; ", args={"; "accountId"; ": "; "123456"; "})
    List all containers in an account.

google_tag_manager(op="; "getContainer"; ", args={"; "accountId"; ": "; "123456"; ", "; "containerId"; ": "; "789"; "})
    Get container details including container snippet code.

google_tag_manager(op="; "createContainer"; ", args={
    "; "accountId"; ": "; "123456"; ",
    "; "containerName"; ": "; "My Website"; ",
    "; "usageContext"; ": ["; "web"; "]  # Options: web, android, ios, amp
})
    Create a new GTM container.

# Tag Operations
google_tag_manager(op="; "listTags"; ", args={"; "accountId"; ": "; "123456"; ", "; "containerId"; ": "; "789"; ", "; "workspaceId"; ": "; "10"; "})
    List all tags in a workspace (workspaceId defaults to default workspace).

google_tag_manager(op="; "createTag"; ", args={
    "; "accountId"; ": "; "123456"; ",
    "; "containerId"; ": "; "789"; ",
    "; "workspaceId"; ": "; "10"; ",
    "; "tagName"; ": "; "GA4 Config"; ",
    "; "tagType"; ": "; "gaawe"; ",  # Google Analytics: GA4 Event
    "; "parameters"; ": [
        {"; "key"; ": "; "measurementId"; ", "; "type"; ": "; "template"; ", "; "value"; ": "; "G-XXXXXXXXXX"; "}
    ],
    "; "firingTriggerId"; ": ["; "2147479553"; "]  # All Pages trigger
})
    Create a new tag.

# Trigger Operations
google_tag_manager(op="; "listTriggers"; ", args={"; "accountId"; ": "; "123456"; ", "; "containerId"; ": "; "789"; ", "; "workspaceId"; ": "; "10"; "})
    List all triggers in a workspace.

google_tag_manager(op="; "createTrigger"; ", args={
    "; "accountId"; ": "; "123456"; ",
    "; "containerId"; ": "; "789"; ",
    "; "workspaceId"; ": "; "10"; ",
    "; "triggerName"; ": "; "Form Submit"; ",
    "; "triggerType"; ": "; "formSubmission"; ",
    "; "filters"; ": []
})
    Create a new trigger.

# Variable Operations
google_tag_manager(op="; "listVariables"; ", args={"; "accountId"; ": "; "123456"; ", "; "containerId"; ": "; "789"; ", "; "workspaceId"; ": "; "10"; "})
    List all variables in a workspace.

google_tag_manager(op="; "createVariable"; ", args={
    "; "accountId"; ": "; "123456"; ",
    "; "containerId"; ": "; "789"; ",
    "; "workspaceId"; ": "; "10"; ",
    "; "variableName"; ": "; "GA4 Measurement ID"; ",
    "; "variableType"; ": "; "c"; ",  # Constant
    "; "value"; ": "; "G-XXXXXXXXXX"; "
})
    Create a new variable.

# Version & Publishing
google_tag_manager(op="; "createVersion"; ", args={
    "; "accountId"; ": "; "123456"; ",
    "; "containerId"; ": "; "789"; ",
    "; "workspaceId"; ": "; "10"; ",
    "; "versionName"; ": "; "Initial Setup"; ",
    "; "versionNotes"; ": "; "Setup GA4 tracking"; "
})
    Create a container version (draft).

google_tag_manager(op="; "publishVersion"; ", args={
    "; "accountId"; ": "; "123456"; ",
    "; "containerId"; ": "; "789"; ",
    "; "versionId"; ": "; "5"; "
})
    Publish a container version to production.

# GA4 Integration
google_tag_manager(op="; "linkGA4"; ", args={
    "; "accountId"; ": "; "123456"; ",
    "; "containerId"; ": "; "789"; ",
    "; "workspaceId"; ": "; "10"; ",
    "; "measurementId"; ": "; "G-XXXXXXXXXX"; "
})
    Create GA4 configuration tag and link it to GTM.

# Common Usage Examples:

# 1. Get container code snippet
google_tag_manager(op="; "getContainer"; ", args={
    "; "accountId"; ": "; "123456"; ",
    "; "containerId"; ": "; "789"; "
})

# 2. Setup GA4 tracking
google_tag_manager(op="; "linkGA4"; ", args={
    "; "accountId"; ": "; "123456"; ",
    "; "containerId"; ": "; "789"; ",
    "; "measurementId"; ": "; "G-XXXXXXXXXX"; "
})

# 3. Create custom event tag
google_tag_manager(op="; "createTag"; ", args={
    "; "accountId"; ": "; "123456"; ",
    "; "containerId"; ": "; "789"; ",
    "; "tagName"; ": "; "Button Click Event"; ",
    "; "tagType"; ": "; "gaawe"; ",
    "; "parameters"; ": [
        {"; "key"; ": "; "eventName"; ", "; "type"; ": "; "template"; ", "; "value"; ": "; "button_click"; "}
    ],
    "; "firingTriggerId"; ": ["; "5"; "]
})
"
].

Definition CROSS : string := "‚ùå".
Definition CHECK : string := "‚úÖ".
Definition PACKAGE : string := "üì¶".
Definition BULLET : string := "‚Ä¢".
Definition WRENCH : string := "üîß".
Definition LABEL : string := "üè∑Ô∏è".
Definition ZAP : string := "‚ö°".
Definition CHART : string := "üìä".

(** The marker glyphs above are spelled byte for byte as the source file
    spells them. *)

(** [token_data]: what [get_external_auth_token] hands back.  Timestamps are
    in whole seconds. *)
Record token : Type := {
  access_token : string;
  expires_at : Z
}.

(** The requests the adapter builds on [self.service] and runs with
    [.execute()], by resource and verb, with their keyword arguments. *)
Inductive api_call : Type :=
| AccountsList
| ContainersList (parent : string)
| ContainersGet (path : string)
| ContainersCreate (parent : string) (body : dict)
| WorkspacesList (parent : string)
| TagsList (parent : string)
| TagsCreate (parent : string) (body : dict)
| TriggersList (parent : string)
| TriggersCreate (parent : string) (body : dict)
| VariablesList (parent : string)
| VariablesCreate (parent : string) (body : dict)
| WorkspacesCreateVersion (path : string) (body : dict)
| VersionsPublish (path : string).

(** What leaves the adapter, in the order it leaves. *)
Inductive event : Type :=
| EvGetToken
| EvStartAuthFlow
| EvBuild (access : string)
| EvApi (c : api_call).

(** The collaborators, as oracles over a world [W] the adapter cannot see
    into: the persona of the run context, the client kit's argument
    sanitizer and OAuth helpers, the clock, the discovery builder and the
    GTM REST API behind a built service. *)
Record env (W : Type) : Type := {
  rt : runtime;
  owner_fuser_id : string;
  ws_id : string;
  sanitize_args : dict -> dict * option string;
  time_time : W -> Z * W;
  get_external_auth_token : W -> outcome (option token) * W;
  start_external_auth_flow : W -> outcome string * W;
  build : string -> W -> outcome unit * W;
  execute : string -> api_call -> W -> outcome dict * W
}.
Arguments rt {W} e.
Arguments owner_fuser_id {W} e.
Arguments ws_id {W} e.
Arguments sanitize_args {W} e _.
Arguments time_time {W} e _.
Arguments get_external_auth_token {W} e _.
Arguments start_external_auth_flow {W} e _.
Arguments build {W} e _ _.
Arguments execute {W} e _ _ _.

(** An [IntegrationGoogleTagManager] instance: its two mutable fields (the
    service is identified by the access token it was built from), the world
    it talks to and the log of what it has sent there. *)
Record state (W : Type) : Type := {
  token_data : option token;
  service : option string;
  world : W;
  log : list event
}.
Arguments token_data {W} s.
Arguments service {W} s.
Arguments world {W} s.
Arguments log {W} s.
Arguments Build_state {W} _ _ _ _.

(** [__init__]. *)
Definition init {W} (w : W) : state W :=
  {| token_data := None; service := None; world := w; log := [] |}.

Definition is_api (ev : event) : bool :=
  match ev with EvApi _ => true | _ => false end.

Definition is_workspaces_list (ev : event) : bool :=
  match ev with EvApi (WorkspacesList _) => true | _ => false end.

Definition is_tags_create (ev : event) : bool :=
  match ev with EvApi (TagsCreate _ _) => true | _ => false end.

(** From [st] to [st'] the log has only grown, and by no event that [p]
    selects. *)
Definition quiet {W} (p : event -> bool) (st st' : state W) : Prop :=
  exists added, log st' = (log st ++ added)%list /\ filter p added = [].

(** The instance's two credential fields are the same before and after. *)
Definition same_credentials {W} (st st' : state W) : Prop :=
  token_data st' = token_data st /\ service st' = service st.

Section Adapter.
Context {W : Type} (E : env W).

(** One call out to the world, logged. *)
Definition call {A} (ev : event) (f : W -> outcome A * W) : M (state W) A :=
  fun st =>
    let (r, w) := f (world st) in
    (r, {| token_data := token_data st; service := service st;
           world := w; log := log st ++ [ev] |}).

Definition now : M (state W) Z :=
  fun st =>
    let (t, w) := time_time E (world st) in
    (Ret t, {| token_data := token_data st; service := service st;
               world := w; log := log st |}).

Definition set_token_data (t : option token) : M (state W) unit :=
  fun st => (Ret tt, {| token_data := t; service := service st;
                        world := world st; log := log st |}).

Definition set_service (s : option string) : M (state W) unit :=
  fun st => (Ret tt, {| token_data := token_data st; service := s;
                        world := world st; log := log st |}).

(** [self.service.<resource>()...<verb>(...).execute()]: with no service
    built the attribute access on [None] fails before anything is sent. *)
Definition api (c : api_call) : M (state W) dict :=
  fun st =>
    match service st with
    | None => (AttributeError VNone "accounts", st)
    | Some s => call (EvApi c) (execute E s c) st
    end.

Definition fmt (v : value) : string := py_str (rt E) v.

(** The [try] of [_ensure_service]: the token fetched and stored, or [None]
    when the fetch raised [TransportQueryError]. *)
Definition fetch_token : M (state W) (option (option token)) :=
  try_except
    (td <- call EvGetToken (get_external_auth_token E) ;;
     set_token_data td ;;;
     ret (Some td))
    (fun e => match e with
              | TransportQueryError _ => Some (ret None)
              | _ => None
              end).

Definition refresh_service : M (state W) bool :=
  fetched <- fetch_token ;;
  match fetched with
  | None => ret false
  | Some None => ret false
  | Some (Some tok) =>
      call (EvBuild (access_token tok)) (build E (access_token tok)) ;;;
      set_service (Some (access_token tok)) ;;;
      ret true
  end.

(** [_ensure_service]. *)
Definition _ensure_service : M (state W) bool :=
  fun st =>
    match service st, token_data st with
    | Some _, Some tok =>
        (t <- now ;;
         if Z.ltb t (expires_at tok - 60) then ret true else refresh_service) st
    | _, _ => refresh_service st
    end.

(** The gate every mutating handler opens with. *)
Definition require_confirmation (tc : toolcall) (key command explanation : string)
  : M (state W) unit :=
  if confirmed_by_human tc then ret tt
  else raise (NeedsConfirmation key command explanation).

Definition container_path (account_id container_id : value) : string :=
  "accounts/" ++ fmt account_id ++ "/containers/" ++ fmt container_id.

Definition workspace_path (account_id container_id workspace_id : value) : string :=
  container_path account_id container_id ++ "/workspaces/" ++ fmt workspace_id.

(** The block each workspace-scoped handler repeats:
    [if not workspace_id: workspaces = ...workspaces().list(parent=...).execute();
     workspace_id = workspaces.get("workspace", [{}])[0].get("workspaceId", "")]. *)
Definition resolve_workspace (account_id container_id workspace_id : value)
  : M (state W) value :=
  if truthy workspace_id then ret workspace_id
  else
    workspaces <- api (WorkspacesList (container_path account_id container_id)) ;;
    first <- lift (py_index0 (dict_get workspaces "workspace" (VList [VDict []]))) ;;
    lift (py_get first "workspaceId" (VStr "")).

(** A [for] loop whose body appends lines to [output]. *)
Fixpoint for_lines (items : list value) (body : value -> outcome (list string))
  : outcome (list string) :=
  match items with
  | [] => Ret []
  | x :: rest =>
      match body x with
      | Raise e => Raise e
      | Ret ls =>
          match for_lines rest body with
          | Raise e => Raise e
          | Ret ls' => Ret (ls ++ ls')%list
          end
      end
  end.

(** The listing loop of tags, triggers and variables:
    [f"<bullet> {name} (ID: {id}, Type: {type})"]. *)
Definition item_line (id_key : string) (x : value) : outcome (list string) :=
  match py_get x "name" (VStr "Unknown") with
  | Raise e => Raise e
  | Ret name =>
      match py_get x id_key (VStr "") with
      | Raise e => Raise e
      | Ret id =>
          match py_get x "type" (VStr "") with
          | Raise e => Raise e
          | Ret ty =>
              Ret [BULLET ++ " " ++ fmt name ++ " (ID: " ++ fmt id
                     ++ ", Type: " ++ fmt ty ++ ")"]
          end
      end
  end.

Definition _list_accounts (args : dict) : M (state W) string :=
  accounts <- api AccountsList ;;
  if negb (truthy (dict_get accounts "account" VNone)) then
    ret (PACKAGE ++ " No Google Tag Manager accounts found.")
  else
    items <- lift (py_iter (dict_get accounts "account" (VList []))) ;;
    lines <- lift (for_lines items (fun account =>
      match py_get account "name" (VStr "Unknown") with
      | Raise e => Raise e
      | Ret account_name =>
          match py_get account "accountId" (VStr "") with
          | Raise e => Raise e
          | Ret account_id =>
              Ret [BULLET ++ " " ++ fmt account_name ++ " (ID: " ++ fmt account_id ++ ")"]
          end
      end)) ;;
    ret (String.concat NL ((PACKAGE ++ " Google Tag Manager Accounts:" ++ NL) :: lines)).

Definition _list_containers (args : dict) : M (state W) string :=
  let account_id := dict_get args "accountId" (VStr "") in
  if negb (truthy account_id) then
    ret (CROSS ++ " Missing required parameter: 'accountId'")
  else
    containers <- api (ContainersList ("accounts/" ++ fmt account_id)) ;;
    if negb (truthy (dict_get containers "container" VNone)) then
      ret (PACKAGE ++ " No containers found in account " ++ fmt account_id)
    else
      items <- lift (py_iter (dict_get containers "container" (VList []))) ;;
      lines <- lift (for_lines items (fun container =>
        match py_get container "name" (VStr "Unknown") with
        | Raise e => Raise e
        | Ret container_name =>
        match py_get container "containerId" (VStr "") with
        | Raise e => Raise e
        | Ret container_id =>
        match py_get container "publicId" (VStr "") with
        | Raise e => Raise e
        | Ret public_id =>
        match py_get container "usageContext" (VList []) with
        | Raise e => Raise e
        | Ret uc =>
        match py_join ", " uc with
        | Raise e => Raise e
        | Ret usage_context =>
            Ret [BULLET ++ " " ++ fmt container_name;
                 "  ID: " ++ fmt container_id;
                 "  Public ID: " ++ fmt public_id;
                 "  Type: " ++ usage_context ++ NL]
        end end end end end)) ;;
      ret (String.concat NL
             ((PACKAGE ++ " Containers in Account " ++ fmt account_id ++ ":" ++ NL) :: lines)).

Definition _get_container (args : dict) : M (state W) string :=
  let account_id := dict_get args "accountId" (VStr "") in
  let container_id := dict_get args "containerId" (VStr "") in
  if negb (truthy account_id) || negb (truthy container_id) then
    ret (CROSS ++ " Missing required parameters: 'accountId' and 'containerId'")
  else
    try_except
      (container <- api (ContainersGet (container_path account_id container_id)) ;;
       usage_context <- lift (py_join ", " (dict_get container "usageContext" (VList []))) ;;
       let public_id := fmt (dict_get container "publicId" (VStr "")) in
       ret (String.concat NL [
         PACKAGE ++ " Container Details:" ++ NL;
         "Name: " ++ fmt (dict_get container "name" (VStr "Unknown"));
         "Container ID: " ++ fmt (dict_get container "containerId" (VStr ""));
         "Public ID: " ++ public_id;
         "Usage Context: " ++ usage_context;
         "Time Zone: " ++ fmt (dict_get container "timeZoneId" (VStr "Unknown"));
         NL ++ WRENCH ++ " Container Snippet Code:";
         NL ++ "Add this to your website's <head> section:";
         "```html";
         "<!-- Google Tag Manager -->";
         "<script>(function(w,d,s,l,i){w[l]=w[l]||[];w[l].push({'gtm.start':";
         "new Date().getTime(),event:'gtm.js'});var f=d.getElementsByTagName(s)[0],";
         "j=d.createElement(s),dl=l!='dataLayer'?'&l='+l:'';j.async=true;j.src=";
         "'https://www.googletagmanager.com/gtm.js?id='+i+dl;f.parentNode.insertBefore(j,f);";
         "})(window,document,'script','dataLayer','" ++ public_id ++ "');</script>";
         "<!-- End Google Tag Manager -->";
         "```";
         NL ++ "Add this immediately after opening <body> tag:";
         "```html";
         "<!-- Google Tag Manager (noscript) -->";
         "<noscript><iframe src=" ++ DQ ++ "https://www.googletagmanager.com/ns.html?id="
           ++ public_id ++ DQ;
         "height=" ++ DQ ++ "0" ++ DQ ++ " width=" ++ DQ ++ "0" ++ DQ ++ " style=" ++ DQ
           ++ "display:none;visibility:hidden" ++ DQ ++ "></iframe></noscript>";
         "<!-- End Google Tag Manager (noscript) -->";
         "```"]))
      (fun e => match e with
                | HttpError 404 _ =>
                    Some (ret (CROSS ++ " Container not found: " ++ fmt account_id
                                 ++ "/" ++ fmt container_id))
                | _ => None
                end).

Definition _create_container (tc : toolcall) (args : dict) : M (state W) string :=
  require_confirmation tc "gtm_write"
    ("create container: " ++ fmt (dict_get args "containerName" (VStr "")))
    "This will create a new GTM container in your account" ;;;
  let account_id := dict_get args "accountId" (VStr "") in
  let container_name := dict_get args "containerName" (VStr "") in
  let usage_context := dict_get args "usageContext" (VList [VStr "web"]) in
  if negb (truthy account_id) || negb (truthy container_name) then
    ret (CROSS ++ " Missing required parameters: 'accountId' and 'containerName'")
  else
    container <- api (ContainersCreate ("accounts/" ++ fmt account_id)
                        [("name", container_name); ("usageContext", usage_context)]) ;;
    ret (CHECK ++ " Created container: " ++ fmt (dict_get container "name" VNone)
           ++ " (ID: " ++ fmt (dict_get container "containerId" VNone) ++ ")").

(** The shared shape of [_list_tags], [_list_triggers] and [_list_variables]. *)
Definition list_items (args : dict) (req : value -> value -> value -> api_call)
    (glyph noun_lc noun_uc key id_key : string) : M (state W) string :=
  let account_id := dict_get args "accountId" (VStr "") in
  let container_id := dict_get args "containerId" (VStr "") in
  let workspace_id := dict_get args "workspaceId" (VStr "") in
  if negb (truthy account_id) || negb (truthy container_id) then
    ret (CROSS ++ " Missing required parameters: 'accountId' and 'containerId'")
  else
    workspace_id <- resolve_workspace account_id container_id workspace_id ;;
    found <- api (req account_id container_id workspace_id) ;;
    if negb (truthy (dict_get found key VNone)) then
      ret (glyph ++ " No " ++ noun_lc ++ " found in workspace " ++ fmt workspace_id)
    else
      items <- lift (py_iter (dict_get found key (VList []))) ;;
      lines <- lift (for_lines items (item_line id_key)) ;;
      ret (String.concat NL
             ((glyph ++ " " ++ noun_uc ++ " in Workspace " ++ fmt workspace_id ++ ":" ++ NL)
                :: lines)).

Definition _list_tags (args : dict) : M (state W) string :=
  list_items args (fun a c w => TagsList (workspace_path a c w))
    LABEL "tags" "Tags" "tag" "tagId".

Definition _list_triggers (args : dict) : M (state W) string :=
  list_items args (fun a c w => TriggersList (workspace_path a c w))
    ZAP "triggers" "Triggers" "trigger" "triggerId".

Definition _list_variables (args : dict) : M (state W) string :=
  list_items args (fun a c w => VariablesList (workspace_path a c w))
    CHART "variables" "Variables" "variable" "variableId".

Definition _create_tag (tc : toolcall) (args : dict) : M (state W) string :=
  require_confirmation tc "gtm_write"
    ("create tag: " ++ fmt (dict_get args "tagName" (VStr "")))
    "This will create a new tag in GTM" ;;;
  let account_id := dict_get args "accountId" (VStr "") in
  let container_id := dict_get args "containerId" (VStr "") in
  let workspace_id := dict_get args "workspaceId" (VStr "") in
  let tag_name := dict_get args "tagName" (VStr "") in
  let tag_type := dict_get args "tagType" (VStr "") in
  let parameters := dict_get args "parameters" (VList []) in
  let firing_trigger_id := dict_get args "firingTriggerId" (VList []) in
  if negb (truthy account_id) || negb (truthy container_id)
     || negb (truthy tag_name) || negb (truthy tag_type) then
    ret (CROSS ++ " Missing required parameters: 'accountId', 'containerId', 'tagName', 'tagType'")
  else
    workspace_id <- resolve_workspace account_id container_id workspace_id ;;
    tag <- api (TagsCreate (workspace_path account_id container_id workspace_id)
                  [("name", tag_name); ("type", tag_type);
                   ("parameter", parameters); ("firingTriggerId", firing_trigger_id)]) ;;
    ret (CHECK ++ " Created tag: " ++ fmt (dict_get tag "name" VNone)
           ++ " (ID: " ++ fmt (dict_get tag "tagId" VNone) ++ ")").

Definition _create_trigger (tc : toolcall) (args : dict) : M (state W) string :=
  require_confirmation tc "gtm_write"
    ("create trigger: " ++ fmt (dict_get args "triggerName" (VStr "")))
    "This will create a new trigger in GTM" ;;;
  let account_id := dict_get args "accountId" (VStr "") in
  let container_id := dict_get args "containerId" (VStr "") in
  let workspace_id := dict_get args "workspaceId" (VStr "") in
  let trigger_name := dict_get args "triggerName" (VStr "") in
  let trigger_type := dict_get args "triggerType" (VStr "") in
  let filters := dict_get args "filters" (VList []) in
  if negb (truthy account_id) || negb (truthy container_id)
     || negb (truthy trigger_name) || negb (truthy trigger_type) then
    ret (CROSS ++ " Missing required parameters: 'accountId', 'containerId', 'triggerName', 'triggerType'")
  else
    workspace_id <- resolve_workspace account_id container_id workspace_id ;;
    trigger <- api (TriggersCreate (workspace_path account_id container_id workspace_id)
                      [("name", trigger_name); ("type", trigger_type); ("filter", filters)]) ;;
    ret (CHECK ++ " Created trigger: " ++ fmt (dict_get trigger "name" VNone)
           ++ " (ID: " ++ fmt (dict_get trigger "triggerId" VNone) ++ ")").

Definition _create_variable (tc : toolcall) (args : dict) : M (state W) string :=
  require_confirmation tc "gtm_write"
    ("create variable: " ++ fmt (dict_get args "variableName" (VStr "")))
    "This will create a new variable in GTM" ;;;
  let account_id := dict_get args "accountId" (VStr "") in
  let container_id := dict_get args "containerId" (VStr "") in
  let workspace_id := dict_get args "workspaceId" (VStr "") in
  let variable_name := dict_get args "variableName" (VStr "") in
  let variable_type := dict_get args "variableType" (VStr "") in
  let value := dict_get args "value" (VStr "") in
  if negb (truthy account_id) || negb (truthy container_id)
     || negb (truthy variable_name) || negb (truthy variable_type) then
    ret (CROSS ++ " Missing required parameters: 'accountId', 'containerId', 'variableName', 'variableType'")
  else
    workspace_id <- resolve_workspace account_id container_id workspace_id ;;
    variable <- api (VariablesCreate (workspace_path account_id container_id workspace_id)
                       [("name", variable_name); ("type", variable_type);
                        ("parameter",
                         if truthy value
                         then VList [VDict [("key", VStr "value"); ("type", VStr "template");
                                            ("value", value)]]
                         else VList [])]) ;;
    ret (CHECK ++ " Created variable: " ++ fmt (dict_get variable "name" VNone)
           ++ " (ID: " ++ fmt (dict_get variable "variableId" VNone) ++ ")").

Definition _create_version (tc : toolcall) (args : dict) : M (state W) string :=
  require_confirmation tc "gtm_write"
    ("create version: " ++ fmt (dict_get args "versionName" (VStr "")))
    "This will create a new container version" ;;;
  let account_id := dict_get args "accountId" (VStr "") in
  let container_id := dict_get args "containerId" (VStr "") in
  let workspace_id := dict_get args "workspaceId" (VStr "") in
  let version_name := dict_get args "versionName" (VStr "") in
  let version_notes := dict_get args "versionNotes" (VStr "") in
  if negb (truthy account_id) || negb (truthy container_id) then
    ret (CROSS ++ " Missing required parameters: 'accountId' and 'containerId'")
  else
    workspace_id <- resolve_workspace account_id container_id workspace_id ;;
    version <- api (WorkspacesCreateVersion
                      (workspace_path account_id container_id workspace_id)
                      [("name", version_name); ("notes", version_notes)]) ;;
    let container_version := dict_get version "containerVersion" (VDict []) in
    name <- lift (py_get container_version "name" VNone) ;;
    id <- lift (py_get container_version "containerVersionId" VNone) ;;
    ret (CHECK ++ " Created version: " ++ fmt name ++ " (ID: " ++ fmt id ++ ")").

Definition _publish_version (tc : toolcall) (args : dict) : M (state W) string :=
  require_confirmation tc "gtm_publish"
    ("publish version " ++ fmt (dict_get args "versionId" (VStr "")))
    "This will publish the container version to PRODUCTION" ;;;
  let account_id := dict_get args "accountId" (VStr "") in
  let container_id := dict_get args "containerId" (VStr "") in
  let version_id := dict_get args "versionId" (VStr "") in
  if negb (truthy account_id) || negb (truthy container_id) || negb (truthy version_id) then
    ret (CROSS ++ " Missing required parameters: 'accountId', 'containerId', 'versionId'")
  else
    published <- api (VersionsPublish (container_path account_id container_id
                                         ++ "/versions/" ++ fmt version_id)) ;;
    name <- lift (py_get (dict_get published "containerVersion" (VDict [])) "name" VNone) ;;
    ret (CHECK ++ " Published version to production: " ++ fmt name).

(** The search loop of [_link_ga4]: the [triggerId] of the first trigger
    whose [type] is ["pageview"], [None] when the loop finds none. *)
Fixpoint find_pageview (triggers : list value) : outcome value :=
  match triggers with
  | [] => Ret VNone
  | trigger :: rest =>
      match py_get trigger "type" VNone with
      | Raise e => Raise e
      | Ret ty =>
          if eq_str ty "pageview" then py_get trigger "triggerId" VNone
          else find_pageview rest
      end
  end.

(** A trigger of the kind the loop looks for. *)
Definition is_pageview (trigger : dict) : bool :=
  eq_str (dict_get trigger "type" VNone) "pageview".

Definition ga4_tag_body (measurement_id all_pages_trigger_id : value) : dict :=
  [("name", VStr "GA4 Configuration");
   ("type", VStr "gaawe");
   ("parameter", VList [VDict [("key", VStr "measurementId"); ("type", VStr "template");
                               ("value", measurement_id)]]);
   ("firingTriggerId", VList [all_pages_trigger_id])].

Definition _link_ga4 (tc : toolcall) (args : dict) : M (state W) string :=
  require_confirmation tc "gtm_write"
    ("link GA4 measurement ID: " ++ fmt (dict_get args "measurementId" (VStr "")))
    "This will create GA4 configuration tag in GTM" ;;;
  let account_id := dict_get args "accountId" (VStr "") in
  let container_id := dict_get args "containerId" (VStr "") in
  let workspace_id := dict_get args "workspaceId" (VStr "") in
  let measurement_id := dict_get args "measurementId" (VStr "") in
  if negb (truthy account_id) || negb (truthy container_id) || negb (truthy measurement_id) then
    ret (CROSS ++ " Missing required parameters: 'accountId', 'containerId', 'measurementId'")
  else
    workspace_id <- resolve_workspace account_id container_id workspace_id ;;
    triggers <- api (TriggersList (workspace_path account_id container_id workspace_id)) ;;
    items <- lift (py_iter (dict_get triggers "trigger" (VList []))) ;;
    all_pages_trigger_id <- lift (find_pageview items) ;;
    if negb (truthy all_pages_trigger_id) then
      ret (CROSS ++ " Could not find 'All Pages' trigger. Create a pageview trigger first.")
    else
      tag <- api (TagsCreate (workspace_path account_id container_id workspace_id)
                    (ga4_tag_body measurement_id all_pages_trigger_id)) ;;
      ret (CHECK ++ " Created GA4 configuration tag: " ++ fmt (dict_get tag "name" VNone)
             ++ " (ID: " ++ fmt (dict_get tag "tagId" VNone) ++ ")" ++ NL ++ NL
             ++ "GA4 is now linked to GTM. Create a version and publish to make it live.").

(** The [if]/[elif] chain inside the dispatcher's [try]. *)
Definition dispatch (tc : toolcall) (op : value) (args : dict) : M (state W) string :=
  if eq_str op "listAccounts" then _list_accounts args
  else if eq_str op "listContainers" then _list_containers args
  else if eq_str op "getContainer" then _get_container args
  else if eq_str op "createContainer" then _create_container tc args
  else if eq_str op "listTags" then _list_tags args
  else if eq_str op "createTag" then _create_tag tc args
  else if eq_str op "listTriggers" then _list_triggers args
  else if eq_str op "createTrigger" then _create_trigger tc args
  else if eq_str op "listVariables" then _list_variables args
  else if eq_str op "createVariable" then _create_variable tc args
  else if eq_str op "createVersion" then _create_version tc args
  else if eq_str op "publishVersion" then _publish_version tc args
  else if eq_str op "linkGA4" then _link_ga4 tc args
  else ret (CROSS ++ " Unknown operation: " ++ fmt op ++ NL ++ NL
              ++ "Try google_tag_manager(op='help') for usage.").

(** The operation names [dispatch] tells apart, those among them whose
    handler opens with the confirmation gate, and those whose handler reads
    an optional ["workspaceId"]. *)
Definition known_operations : list string :=
  ["listAccounts"; "listContainers"; "getContainer"; "createContainer";
   "listTags"; "createTag"; "listTriggers"; "createTrigger";
   "listVariables"; "createVariable"; "createVersion"; "publishVersion"; "linkGA4"].

Definition mutating_operations : list string :=
  ["createContainer"; "createTag"; "createTrigger"; "createVariable";
   "createVersion"; "publishVersion"; "linkGA4"].

Definition workspace_operations : list string :=
  ["listTags"; "createTag"; "listTriggers"; "createTrigger";
   "listVariables"; "createVariable"; "createVersion"; "linkGA4"].

(** The parameters a workspace-scoped handler refuses to go on without. *)
Definition required_parameters (op : string) : list string :=
  if String.eqb op "createTag" then ["accountId"; "containerId"; "tagName"; "tagType"]
  else if String.eqb op "createTrigger"
       then ["accountId"; "containerId"; "triggerName"; "triggerType"]
  else if String.eqb op "createVariable"
       then ["accountId"; "containerId"; "variableName"; "variableType"]
  else if String.eqb op "linkGA4" then ["accountId"; "containerId"; "measurementId"]
  else ["accountId"; "containerId"].

(** Every parameter of [names] is present in [args] and truthy. *)
Definition all_given (args : dict) (names : list string) : bool :=
  forallb (fun name => truthy (dict_get args name (VStr ""))) names.

(** The resource path a request is addressed to. *)
Definition target (c : api_call) : string :=
  match c with
  | AccountsList => "accounts"
  | ContainersList p | ContainersGet p | ContainersCreate p _
  | WorkspacesList p | TagsList p | TagsCreate p _
  | TriggersList p | TriggersCreate p _
  | VariablesList p | VariablesCreate p _
  | WorkspacesCreateVersion p _ | VersionsPublish p => p
  end.

(** The dispatcher's [except googleapiclient.errors.HttpError as e]. *)
Definition on_http_error (e : exn) : option (M (state W) string) :=
  match e with
  | HttpError status text =>
      Some (if Z.eqb status 401 || Z.eqb status 403 then
              set_token_data None ;;;
              set_service None ;;;
              auth_url <- call EvStartAuthFlow (start_external_auth_flow E) ;;
              ret (CROSS ++ " Google Tag Manager authentication error: " ++ str_of_Z status
                     ++ NL ++ NL ++ "Please authorize at:" ++ NL ++ auth_url
                     ++ NL ++ NL ++ "Then retry.")
            else
              ret (CROSS ++ " " ++ "Google Tag Manager API error: " ++ str_of_Z status
                     ++ " - " ++ text))
  | _ => None
  end.

Definition status_report (authenticated : bool) : M (state W) string :=
  let r := "Google Tag Manager integration status:" ++ NL
           ++ "  Authenticated: " ++ (if authenticated then CHECK ++ " Yes" else CROSS ++ " No") ++ NL
           ++ "  User: " ++ owner_fuser_id E ++ NL
           ++ "  Workspace: " ++ ws_id E ++ NL in
  if negb authenticated then
    try_except
      (auth_url <- call EvStartAuthFlow (start_external_auth_flow E) ;;
       ret (r ++ NL ++ CROSS ++ " Not authenticated. Ask user to authorize at:" ++ NL
              ++ auth_url ++ NL))
      (fun e => match e with
                | TransportQueryError t =>
                    Some (ret (r ++ NL ++ CROSS ++ " Error initiating OAuth: " ++ t ++ NL))
                | _ => None
                end)
  else ret r.

Definition authorization_prompt : M (state W) string :=
  try_except
    (auth_url <- call EvStartAuthFlow (start_external_auth_flow E) ;;
     ret (CROSS ++ " Not authenticated. Ask user to authorize at:" ++ NL ++ auth_url
            ++ NL ++ NL ++ "Then retry this operation."))
    (fun e => match e with
              | TransportQueryError t => Some (ret (CROSS ++ " Failed to initiate OAuth: " ++ t))
              | _ => None
              end).

(** The dispatcher past argument sanitizing. *)
Definition serve (tc : toolcall) (op : value) (args : dict) : M (state W) string :=
  print_help <- lift (empty_or_contains "help" op) ;;
  print_status <- lift (empty_or_contains "status" op) ;;
  authenticated <- _ensure_service ;;
  if print_status then status_report authenticated
  else if print_help then ret HELP
  else if negb authenticated then authorization_prompt
  else try_except (dispatch tc op args) on_http_error.

Definition called_by_model (tc : toolcall) (model_produced_args : option dict)
  : M (state W) string :=
  match model_produced_args with
  | None => ret HELP
  | Some [] => ret HELP
  | Some mpa =>
      let op := dict_get mpa "op" (VStr "") in
      let (args, args_error) := sanitize_args E mpa in
      if has_error args_error then ret (error_text args_error)
      else serve tc op args
  end.

End Adapter.

(** *** Vocabulary for statements about the handlers *)

(** The requests that change something at Google: every [create], the
    version snapshot and [publish]. *)
Definition is_mutating_request (ev : event) : bool :=
  match ev with
  | EvApi (ContainersCreate _ _) | EvApi (TagsCreate _ _)
  | EvApi (TriggersCreate _ _) | EvApi (VariablesCreate _ _)
  | EvApi (WorkspacesCreateVersion _ _) | EvApi (VersionsPublish _) => true
  | _ => false
  end.

(** Per validated operation: the parameters its handler insists on and the
    text (after the cross mark) it answers with when one is missing. *)
Definition validation : list (string * (list string * string)) :=
  [("listContainers", (["accountId"], " Missing required parameter: 'accountId'"));
   ("getContainer", (["accountId"; "containerId"],
      " Missing required parameters: 'accountId' and 'containerId'"));
   ("createContainer", (["accountId"; "containerName"],
      " Missing required parameters: 'accountId' and 'containerName'"));
   ("listTags", (["accountId"; "containerId"],
      " Missing required parameters: 'accountId' and 'containerId'"));
   ("createTag", (["accountId"; "containerId"; "tagName"; "tagType"],
      " Missing required parameters: 'accountId', 'containerId', 'tagName', 'tagType'"));
   ("listTriggers", (["accountId"; "containerId"],
      " Missing required parameters: 'accountId' and 'containerId'"));
   ("createTrigger", (["accountId"; "containerId"; "triggerName"; "triggerType"],
      " Missing required parameters: 'accountId', 'containerId', 'triggerName', 'triggerType'"));
   ("listVariables", (["accountId"; "containerId"],
      " Missing required parameters: 'accountId' and 'containerId'"));
   ("createVariable", (["accountId"; "containerId"; "variableName"; "variableType"],
      " Missing required parameters: 'accountId', 'containerId', 'variableName', 'variableType'"));
   ("createVersion", (["accountId"; "containerId"],
      " Missing required parameters: 'accountId' and 'containerId'"));
   ("publishVersion", (["accountId"; "containerId"; "versionId"],
      " Missing required parameters: 'accountId', 'containerId', 'versionId'"));
   ("linkGA4", (["accountId"; "containerId"; "measurementId"],
      " Missing required parameters: 'accountId', 'containerId', 'measurementId'"))].

(** The three listing operations: the request, the response key, the ID
    key, the glyph and the two spellings of the noun. *)
Record listing : Type := {
  l_request : string -> api_call;
  l_key : string;
  l_id_key : string;
  l_glyph : string;
  l_noun_lc : string;
  l_noun_uc : string
}.

Definition listings : list (string * listing) :=
  [("listTags", {| l_request := TagsList; l_key := "tag"; l_id_key := "tagId";
                   l_glyph := LABEL; l_noun_lc := "tags"; l_noun_uc := "Tags" |});
   ("listTriggers", {| l_request := TriggersList; l_key := "trigger";
                       l_id_key := "triggerId"; l_glyph := ZAP;
                       l_noun_lc := "triggers"; l_noun_uc := "Triggers" |});
   ("listVariables", {| l_request := VariablesList; l_key := "variable";
                        l_id_key := "variableId"; l_glyph := CHART;
                        l_noun_lc := "variables"; l_noun_uc := "Variables" |})].

(** The bullet line of one listed item. *)
Definition item_text {W} (E : env W) (id_key : string) (item : dict) : string :=
  BULLET ++ " " ++ fmt E (dict_get item "name" (VStr "Unknown"))
    ++ " (ID: " ++ fmt E (dict_get item id_key (VStr ""))
    ++ ", Type: " ++ fmt E (dict_get item "type" (VStr "")) ++ ")".

(** The first three lines of the status report. *)
Definition status_head {W} (E : env W) (authenticated : bool) : string :=
  "Google Tag Manager integration status:" ++ NL
    ++ "  Authenticated: " ++ (if authenticated then CHECK ++ " Yes" else CROSS ++ " No") ++ NL
    ++ "  User: " ++ owner_fuser_id E ++ NL
    ++ "  Workspace: " ++ ws_id E ++ NL.

(** [st] after one more logged call that left the world as [w]. *)
Definition logged {W} (st : state W) (ev : event) (w : W) : state W :=
  {| token_data := token_data st; service := service st; world := w;
     log := (log st ++ [ev])%list |}.

(** The required parameters of an operation, read off [validation]; none
    for an operation that is not validated. *)
Definition required_for (op : string) : list string :=
  match find (fun entry => String.eqb (fst entry) op) validation with
  | Some (_, (required, _)) => required
  | None => []
  end.

(** The operations that talk to the API once: all but [linkGA4]. *)
Definition single_request_operations : list string :=
  ["listAccounts"; "listContainers"; "getContainer"; "createContainer";
   "listTags"; "createTag"; "listTriggers"; "createTrigger";
   "listVariables"; "createVariable"; "createVersion"; "publishVersion"].

End GTM.

(** ** The GA4-Enhanced adapter: [fi_google_analytics_enhanced.py] *)

Module GAE.

Definition HELP : string :=
  String.concat DQ [
"
Enhanced Google Analytics Help:

google_analytics_enhanced(op="; "status"; ")
    Show connection status.

# Event Tracking Setup
google_analytics_enhanced(op="; "getEventConfig"; ", args={
    "; "propertyId"; ": "; "123456"; ",
    "; "eventName"; ": "; "purchase"; "
})
    Get configuration for a specific event.

google_analytics_enhanced(op="; "listEvents"; ", args={
    "; "propertyId"; ": "; "123456"; ",
    "; "dateRange"; ": "; "last7days"; "
})
    List all events tracked in the property.

google_analytics_enhanced(op="; "getEventReport"; ", args={
    "; "propertyId"; ": "; "123456"; ",
    "; "eventName"; ": "; "purchase"; ",
    "; "dateRange"; ": "; "last30days"; ",
    "; "dimensions"; ": ["; "date"; ", "; "eventName"; "],
    "; "metrics"; ": ["; "eventCount"; ", "; "eventValue"; "]
})
    Get detailed event analytics.

# Conversion Tracking
google_analytics_enhanced(op="; "getConversions"; ", args={
    "; "propertyId"; ": "; "123456"; ",
    "; "dateRange"; ": "; "last30days"; ",
    "; "dimensions"; ": ["; "sessionSource"; ", "; "sessionMedium"; "]
})
    Get conversion metrics with breakdown.

# E-commerce Tracking
google_analytics_enhanced(op="; "getEcommerceReport"; ", args={
    "; "propertyId"; ": "; "123456"; ",
    "; "dateRange"; ": "; "last30days"; ",
    "; "dimensions"; ": ["; "itemName"; ", "; "itemCategory"; "]
})
    Get e-commerce performance metrics.

# User Journey & Funnels
google_analytics_enhanced(op="; "getUserJourney"; ", args={
    "; "propertyId"; ": "; "123456"; ",
    "; "dateRange"; ": "; "last7days"; ",
    "; "startPage"; ": "; "/"; ",
    "; "endPage"; ": "; "/checkout/complete"; "
})
    Analyze user journey from start to end page.

google_analytics_enhanced(op="; "getFunnelReport"; ", args={
    "; "propertyId"; ": "; "123456"; ",
    "; "funnelSteps"; ": [
        {"; "name"; ": "; "Home"; ", "; "page"; ": "; "/"; "},
        {"; "name"; ": "; "Product"; ", "; "page"; ": "; "/product"; "},
        {"; "name"; ": "; "Cart"; ", "; "page"; ": "; "/cart"; "},
        {"; "name"; ": "; "Checkout"; ", "; "page"; ": "; "/checkout"; "}
    ],
    "; "dateRange"; ": "; "last30days"; "
})
    Analyze conversion funnel with drop-off rates.

# Custom Reports
google_analytics_enhanced(op="; "customQuery"; ", args={
    "; "propertyId"; ": "; "123456"; ",
    "; "dateRange"; ": "; "last30days"; ",
    "; "metrics"; ": ["; "sessions"; ", "; "conversions"; "],
    "; "dimensions"; ": ["; "deviceCategory"; ", "; "browser"; "],
    "; "filters"; ": [
        {"; "field"; ": "; "country"; ", "; "operator"; ": "; "EQUALS"; ", "; "value"; ": "; "United States"; "}
    ],
    "; "orderBy"; ": {"; "metric"; ": "; "sessions"; ", "; "desc"; ": True},
    "; "limit"; ": 50
})
    Execute a custom analytics query with filters.

# Recommended Events for Different Industries:

E-commerce:
- page_view, view_item, add_to_cart, remove_from_cart
- begin_checkout, add_payment_info, add_shipping_info
- purchase, refund

Lead Generation:
- page_view, generate_lead, form_submit, sign_up
- contact_submit, download_brochure

Content/Media:
- page_view, video_start, video_progress, video_complete
- file_download, search, share

SaaS:
- page_view, sign_up, login, trial_start
- upgrade, feature_usage, subscription_cancel
"
].

Definition CROSS : string := "âŒ".
Definition CHECK : string := "âœ…".
Definition WARN : string := "âš ï¸".
Definition SEARCH : string := "ğŸ”".
Definition CHART : string := "ğŸ“Š".

(** What the adapter asks of the base GA4 integration, in order. *)
Inductive event : Type :=
| EvEnsureServices
| EvGetReport (base_args : dict)
| EvBaseCalledByModel (model_produced_args : dict).

(** The adapter's collaborators: the persona, the client kit's sanitizer,
    and the base integration ([self.base]) as oracles over its own hidden
    state [B], where its credentials and services live. *)
Record env (B : Type) : Type := {
  rt : runtime;
  owner_fuser_id : string;
  sanitize_args : dict -> dict * option string;
  base_ensure_services : B -> outcome bool * B;
  base_get_report : dict -> B -> outcome string * B;
  base_called_by_model : toolcall -> dict -> B -> outcome string * B
}.
Arguments rt {B} e.
Arguments owner_fuser_id {B} e.
Arguments sanitize_args {B} e _.
Arguments base_ensure_services {B} e _.
Arguments base_get_report {B} e _ _.
Arguments base_called_by_model {B} e _ _ _.

(** An [IntegrationGoogleAnalyticsEnhanced] instance holds no mutable field
    of its own: only the base integration and the log of calls into it. *)
Record state (B : Type) : Type := {
  base : B;
  log : list event
}.
Arguments base {B} s.
Arguments log {B} s.
Arguments Build_state {B} _ _.

Definition is_report (ev : event) : bool :=
  match ev with EvGetReport _ => true | _ => false end.

(** The state the dispatcher is in once the base integration has answered
    [_ensure_services] and is left as [b]. *)
Definition asked {B} (st : state B) (b : B) : state B :=
  {| base := b; log := (log st ++ [EvEnsureServices])%list |}.

Section Adapter.
Context {B : Type} (E : env B).

Definition call {A} (ev : event) (f : B -> outcome A * B) : M (state B) A :=
  fun st =>
    let (r, b) := f (base st) in
    (r, {| base := b; log := log st ++ [ev] |}).

Definition _get_report (base_args : dict) : M (state B) string :=
  call (EvGetReport base_args) (base_get_report E base_args).

Definition fmt (v : value) : string := py_str (rt E) v.

Definition strs (l : list string) : value := VList (map VStr l).

Definition order_by (metric : string) : value :=
  VDict [("metric", VStr metric); ("desc", VBool true)].

(** [event_name in result], [result] a string: the left operand must be
    one too. *)
Definition in_report (event_name : value) (result : string) : outcome bool :=
  match event_name with
  | VStr s => Ret (contains s result)
  | _ => Raise (RuntimeError "TypeError"
                  ("'in <string>' requires string as left operand, not "
                     ++ type_name event_name))
  end.

(** The report request [_get_event_config] issues. *)
Definition event_config_base_args (property_id : value) : dict :=
  [("propertyId", property_id);
   ("dateRange", VStr "last7days");
   ("metrics", strs ["eventCount"]);
   ("dimensions", strs ["eventName"])].

Definition _get_event_config (args : dict) : M (state B) string :=
  let property_id := dict_get args "propertyId" (VStr "") in
  let event_name := dict_get args "eventName" (VStr "") in
  if negb (truthy property_id) || negb (truthy event_name) then
    ret (CROSS ++ " Missing required parameters: 'propertyId' and 'eventName'")
  else
    let base_args := event_config_base_args property_id in
    result <- _get_report base_args ;;
    tracked <- lift (in_report event_name result) ;;
    if tracked then
      ret (CHECK ++ " Event '" ++ fmt event_name ++ "' is being tracked." ++ NL ++ NL ++ result)
    else
      ret (WARN ++ " Event '" ++ fmt event_name
             ++ "' not found in recent data. It may not be tracked yet or has no data in the last 7 days.").

Definition _list_events (args : dict) : M (state B) string :=
  let property_id := dict_get args "propertyId" (VStr "") in
  let date_range := dict_get args "dateRange" (VStr "last7days") in
  if negb (truthy property_id) then
    ret (CROSS ++ " Missing required parameter: 'propertyId'")
  else
    _get_report [("propertyId", property_id);
                 ("dateRange", date_range);
                 ("metrics", strs ["eventCount"; "eventValue"]);
                 ("dimensions", strs ["eventName"]);
                 ("orderBy", order_by "eventCount");
                 ("limit", VInt 50)].

Definition _get_event_report (args : dict) : M (state B) string :=
  let property_id := dict_get args "propertyId" (VStr "") in
  let event_name := dict_get args "eventName" (VStr "") in
  if negb (truthy property_id) then
    ret (CROSS ++ " Missing required parameter: 'propertyId'")
  else
    _get_report [("propertyId", property_id);
                 ("dateRange", dict_get args "dateRange" (VStr "last30days"));
                 ("metrics", dict_get args "metrics" (strs ["eventCount"; "eventValue"]));
                 ("dimensions", dict_get args "dimensions" (strs ["date"; "eventName"]));
                 ("orderBy", order_by "eventCount")].

Definition _get_conversions (args : dict) : M (state B) string :=
  let property_id := dict_get args "propertyId" (VStr "") in
  if negb (truthy property_id) then
    ret (CROSS ++ " Missing required parameter: 'propertyId'")
  else
    _get_report [("propertyId", property_id);
                 ("dateRange", dict_get args "dateRange" (VStr "last30days"));
                 ("metrics", strs ["conversions"; "totalRevenue"; "sessions"]);
                 ("dimensions",
                  dict_get args "dimensions" (strs ["sessionSource"; "sessionMedium"]));
                 ("orderBy", order_by "conversions");
                 ("limit", VInt 20)].

Definition _get_ecommerce_report (args : dict) : M (state B) string :=
  let property_id := dict_get args "propertyId" (VStr "") in
  if negb (truthy property_id) then
    ret (CROSS ++ " Missing required parameter: 'propertyId'")
  else
    _get_report [("propertyId", property_id);
                 ("dateRange", dict_get args "dateRange" (VStr "last30days"));
                 ("metrics", strs ["itemRevenue"; "itemsPurchased"; "itemsViewed"]);
                 ("dimensions", dict_get args "dimensions" (strs ["itemName"; "itemCategory"]));
                 ("orderBy", order_by "itemRevenue");
                 ("limit", VInt 30)].

Definition _get_user_journey (args : dict) : M (state B) string :=
  let property_id := dict_get args "propertyId" (VStr "") in
  let start_page := dict_get args "startPage" (VStr "/") in
  let end_page := dict_get args "endPage" (VStr "") in
  if negb (truthy property_id) then
    ret (CROSS ++ " Missing required parameter: 'propertyId'")
  else
    result <- _get_report [("propertyId", property_id);
                           ("dateRange", dict_get args "dateRange" (VStr "last7days"));
                           ("metrics", strs ["screenPageViews"; "sessions"]);
                           ("dimensions", strs ["pagePath"; "pageTitle"]);
                           ("orderBy", order_by "screenPageViews");
                           ("limit", VInt 100)] ;;
    ret (SEARCH ++ " User Journey Analysis" ++ NL ++ NL ++ "Pages visited between '"
           ++ fmt start_page ++ "' and '" ++ fmt end_page ++ "':" ++ NL ++ NL ++ result
           ++ NL ++ NL
           ++ "Note: Full path analysis requires custom implementation with GA4 Data API.").

(** The report request every funnel step issues. *)
Definition funnel_base_args (args : dict) : dict :=
  [("propertyId", dict_get args "propertyId" (VStr ""));
   ("dateRange", dict_get args "dateRange" (VStr "last30days"));
   ("metrics", strs ["screenPageViews"; "sessions"]);
   ("dimensions", strs ["pagePath"])].

(** The line of step [i]: [f"\n{i}. {step_name} ({step_page})"] without its
    leading newline. *)
Definition step_line (i : nat) (step_name step_page : value) : string :=
  str_of_nat i ++ ". " ++ fmt step_name ++ " (" ++ fmt step_page ++ ")".

(** [for i, step in enumerate(funnel_steps, i): ...], yielding what the body
    appends to [output]. *)
Fixpoint funnel_loop (args : dict) (i : nat) (steps : list value)
  : M (state B) (list string) :=
  match steps with
  | [] => ret []
  | step :: rest =>
      step_name <- lift (py_get step "name" (VStr ("Step " ++ str_of_nat i))) ;;
      step_page <- lift (py_get step "page" (VStr "")) ;;
      step_result <- _get_report (funnel_base_args args) ;;
      more <- funnel_loop args (S i) rest ;;
      ret ((NL ++ step_line i step_name step_page)
             :: "   Users: [analyzing...]" :: more)
  end.


Definition FUNNEL_HEADER : string := CHART ++ " Funnel Analysis:" ++ NL.

Definition FUNNEL_NOTE : string :=
  "Note: Full funnel analysis with drop-off rates requires GA4 Funnel Exploration API.".

Definition _get_funnel_report (args : dict) : M (state B) string :=
  let property_id := dict_get args "propertyId" (VStr "") in
  let funnel_steps := dict_get args "funnelSteps" (VList []) in
  if negb (truthy property_id) || negb (truthy funnel_steps) then
    ret (CROSS ++ " Missing required parameters: 'propertyId' and 'funnelSteps'")
  else
    steps <- lift (py_iter funnel_steps) ;;
    lines <- funnel_loop args 1 steps ;;
    ret (String.concat NL (FUNNEL_HEADER :: (lines ++ [(NL ++ NL ++ FUNNEL_NOTE)%string])%list)).

Definition _custom_query (args : dict) : M (state B) string :=
  let property_id := dict_get args "propertyId" (VStr "") in
  if negb (truthy property_id) then
    ret (CROSS ++ " Missing required parameter: 'propertyId'")
  else
    let custom := truthy (dict_get args "startDate" VNone)
                  && truthy (dict_get args "endDate" VNone) in
    let base_args :=
      ([("propertyId", property_id);
        ("dateRange", if custom then VStr "custom"
                      else dict_get args "dateRange" (VStr "last30days"));
        ("metrics", dict_get args "metrics" (strs ["sessions"]));
        ("dimensions", dict_get args "dimensions" (VList []));
        ("orderBy", dict_get args "orderBy" VNone);
        ("limit", dict_get args "limit" (VInt 100))]
       ++ (if custom then [("startDate", dict_get args "startDate" VNone);
                           ("endDate", dict_get args "endDate" VNone)]
           else []))%list in
    result <- _get_report base_args ;;
    let filters := dict_get args "filters" (VList []) in
    if truthy filters then
      ret (result ++ NL ++ NL ++ "Note: Filters applied: " ++ fmt filters)
    else ret result.

(** The [if]/[elif] chain inside the dispatcher's [try]. *)
Definition dispatch (op : value) (args : dict) : M (state B) string :=
  if eq_str op "getEventConfig" then _get_event_config args
  else if eq_str op "listEvents" then _list_events args
  else if eq_str op "getEventReport" then _get_event_report args
  else if eq_str op "getConversions" then _get_conversions args
  else if eq_str op "getEcommerceReport" then _get_ecommerce_report args
  else if eq_str op "getUserJourney" then _get_user_journey args
  else if eq_str op "getFunnelReport" then _get_funnel_report args
  else if eq_str op "customQuery" then _custom_query args
  else ret (CROSS ++ " Unknown operation: " ++ fmt op ++ NL ++ NL
              ++ "Try google_analytics_enhanced(op='help') for usage.").

(** The operation names [dispatch] tells apart. *)
Definition known_operations : list string :=
  ["getEventConfig"; "listEvents"; "getEventReport"; "getConversions";
   "getEcommerceReport"; "getUserJourney"; "getFunnelReport"; "customQuery"].

(** The dispatcher's [except Exception as e]: an exception that is not an
    [Exception] is not caught. *)
Definition on_exception (e : exn) : option (M (state B) string) :=
  if is_exception e
  then Some (ret (CROSS ++ " Error: " ++ exn_str (rt E) e))
  else None.

(** The dispatcher past argument sanitizing. *)
Definition serve (tc : toolcall) (mpa : dict) (op : value) (args : dict)
  : M (state B) string :=
  print_help <- lift (empty_or_contains "help" op) ;;
  print_status <- lift (empty_or_contains "status" op) ;;
  authenticated <- call EvEnsureServices (base_ensure_services E) ;;
  if print_status then
    let r := "Google Analytics Enhanced integration status:" ++ NL
             ++ "  Authenticated: "
             ++ (if authenticated then CHECK ++ " Yes" else CROSS ++ " No") ++ NL
             ++ "  User: " ++ owner_fuser_id E ++ NL in
    if negb authenticated then
      call (EvBaseCalledByModel mpa) (base_called_by_model E tc mpa)
    else ret r
  else if print_help then ret HELP
  else if negb authenticated then
    call (EvBaseCalledByModel mpa) (base_called_by_model E tc mpa)
  else try_except (dispatch op args) on_exception.

Definition called_by_model (tc : toolcall) (model_produced_args : option dict)
  : M (state B) string :=
  match model_produced_args with
  | None => ret HELP
  | Some [] => ret HELP
  | Some mpa =>
      let op := dict_get mpa "op" (VStr "") in
      let (args, args_error) := sanitize_args E mpa in
      if has_error args_error then ret (error_text args_error)
      else serve tc mpa op args
  end.

End Adapter.

(** *** Vocabulary for statements about the handlers *)

(** Every parameter of [names] is present in [args] and truthy. *)
Definition all_given (args : dict) (names : list string) : bool :=
  forallb (fun name => truthy (dict_get args name (VStr ""))) names.

(** Per operation: the parameters its handler insists on and the text
    (after the cross mark) it answers with when one is missing. *)
Definition validation : list (string * (list string * string)) :=
  [("getEventConfig", (["propertyId"; "eventName"],
      " Missing required parameters: 'propertyId' and 'eventName'"));
   ("listEvents", (["propertyId"], " Missing required parameter: 'propertyId'"));
   ("getEventReport", (["propertyId"], " Missing required parameter: 'propertyId'"));
   ("getConversions", (["propertyId"], " Missing required parameter: 'propertyId'"));
   ("getEcommerceReport", (["propertyId"], " Missing required parameter: 'propertyId'"));
   ("getUserJourney", (["propertyId"], " Missing required parameter: 'propertyId'"));
   ("getFunnelReport", (["propertyId"; "funnelSteps"],
      " Missing required parameters: 'propertyId' and 'funnelSteps'"));
   ("customQuery", (["propertyId"], " Missing required parameter: 'propertyId'"))].

(** The operations that hand the base report back as it is. *)
Definition pass_through_operations : list string :=
  ["listEvents"; "getEventReport"; "getConversions"; "getEcommerceReport"].

(** [st] after one more logged call that left the base as [b]. *)
Definition logged {B} (st : state B) (ev : event) (b : B) : state B :=
  {| base := b; log := (log st ++ [ev])%list |}.

(** The base integration after [n] successive [_get_report] calls with the
    request [base_args], the first of them made in [b]: where the last call
    leaves it when every one of them returned, [None] as soon as one
    raises. *)
Fixpoint after_reports {B} (E : env B) (base_args : dict) (n : nat) (b : B)
  : option B :=
  match n with
  | O => Some b
  | S n' =>
      match base_get_report E base_args b with
      | (Ret _, b1) => after_reports E base_args n' b1
      | (Raise _, _) => None
      end
  end.

End GAE.

(** ** Stub collaborators, for running the adapters on concrete calls *)

Module Stub.

Definition rt0 : runtime :=
  {| repr := fun _ => "[...]"; str_confirmation := fun _ command _ => command |}.

(** A sanitizer that hands over the ["args"] object and never complains. *)
Definition sanitize0 (mpa : dict) : dict * option string :=
  (match dict_get mpa "args" (VDict []) with VDict d => d | _ => [] end, None).

Definition token0 : GTM.token :=
  {| GTM.access_token := "ya29.stub"; GTM.expires_at := 4000 |}.

(** A GTM world without state: the clock stands at 0, the OAuth helpers and
    the API answer as told. *)
Definition gtm (tok : outcome (option GTM.token)) (flow : outcome string)
    (respond : GTM.api_call -> outcome dict) : GTM.env unit :=
  {| GTM.rt := rt0;
     GTM.owner_fuser_id := "user-1";
     GTM.ws_id := "ws-1";
     GTM.sanitize_args := sanitize0;
     GTM.time_time := fun w => (0%Z, w);
     GTM.get_external_auth_token := fun w => (tok, w);
     GTM.start_external_auth_flow := fun w => (flow, w);
     GTM.build := fun _ w => (Ret tt, w);
     GTM.execute := fun _ c w => (respond c, w) |}.

(** An instance whose service is built and whose token is fresh at time 0. *)
Definition gtm_ready : GTM.state unit :=
  {| GTM.token_data := Some token0; GTM.service := Some "ya29.stub";
     GTM.world := tt; GTM.log := [] |}.

(** An API with one workspace ["7"] and the given triggers in it. *)
Definition respond_triggers (triggers : list value) (c : GTM.api_call) : outcome dict :=
  match c with
  | GTM.WorkspacesList _ =>
      Ret [("workspace", VList [VDict [("workspaceId", VStr "7")];
                                VDict [("workspaceId", VStr "8")]])]
  | GTM.TriggersList _ => Ret [("trigger", VList triggers)]
  | GTM.TagsCreate _ body =>
      Ret [("name", dict_get body "name" VNone); ("tagId", VStr "42")]
  | _ => Ret []
  end.

(** An API that refuses every request with the given HTTP status. *)
Definition respond_status (status : Z) (c : GTM.api_call) : outcome dict :=
  Raise (HttpError status "denied").

(** A base GA4 integration whose hidden state is the validity of its cached
    credential; it answers reports as told and prompts when asked. *)
Definition gae (report : dict -> outcome string) : GAE.env bool :=
  {| GAE.rt := rt0;
     GAE.owner_fuser_id := "user-1";
     GAE.sanitize_args := sanitize0;
     GAE.base_ensure_services := fun b => (Ret b, b);
     GAE.base_get_report := fun a b => (report a, b);
     GAE.base_called_by_model := fun _ _ b => (Ret "Please authorize Google Analytics", b) |}.

Definition gae_ready : GAE.state bool := {| GAE.base := true; GAE.log := [] |}.

Definition unconfirmed : toolcall := {| confirmed_by_human := false |}.
Definition confirmed : toolcall := {| confirmed_by_human := true |}.

Definition request (op : string) (args : dict) : option dict :=
  Some [("op", VStr op); ("args", VDict args)].

(** A GTM world whose sanitizer rejects every argument object. *)
Definition gtm_rejecting : GTM.env unit :=
  {| GTM.rt := rt0;
     GTM.owner_fuser_id := "user-1";
     GTM.ws_id := "ws-1";
     GTM.sanitize_args := fun _ => ([], Some "args must be an object");
     GTM.time_time := fun w => (0%Z, w);
     GTM.get_external_auth_token := fun w => (Ret None, w);
     GTM.start_external_auth_flow := fun w => (Ret "https://auth", w);
     GTM.build := fun _ w => (Ret tt, w);
     GTM.execute := fun _ _ w => (Ret [], w) |}.

Definition gae_rejecting : GAE.env bool :=
  {| GAE.rt := rt0;
     GAE.owner_fuser_id := "user-1";
     GAE.sanitize_args := fun _ => ([], Some "args must be an object");
     GAE.base_ensure_services := fun b => (Ret b, b);
     GAE.base_get_report := fun _ b => (Ret "", b);
     GAE.base_called_by_model := fun _ _ b => (Ret "Please authorize Google Analytics", b) |}.

(** A GTM world whose clock reads [t]. *)
Definition gtm_at (t : Z) (tok : outcome (option GTM.token)) : GTM.env unit :=
  {| GTM.rt := rt0;
     GTM.owner_fuser_id := "user-1";
     GTM.ws_id := "ws-1";
     GTM.sanitize_args := sanitize0;
     GTM.time_time := fun w => (t, w);
     GTM.get_external_auth_token := fun w => (tok, w);
     GTM.start_external_auth_flow := fun w => (Ret "https://auth", w);
     GTM.build := fun _ w => (Ret tt, w);
     GTM.execute := fun _ _ w => (Ret [], w) |}.

(** An API with no workspace in any container. *)
Definition respond_no_workspace (c : GTM.api_call) : outcome dict :=
  match c with
  | GTM.WorkspacesList _ => Ret [("workspace", VList [])]
  | _ => Ret []
  end.

(** An API with two tags in every workspace. *)
Definition respond_tags (c : GTM.api_call) : outcome dict :=
  match c with
  | GTM.TagsList _ =>
      Ret [("tag", VList [VDict [("name", VStr "GA4"); ("tagId", VStr "1");
                                 ("type", VStr "gaawe")];
                          VDict [("tagId", VStr "2")]])]
  | _ => Ret []
  end.

Definition gae_unauthenticated : GAE.state bool := {| GAE.base := false; GAE.log := [] |}.

(** A base integration that counts the reports it has been asked for and
    answers each with its number. *)
Definition gae_counting : GAE.env nat :=
  {| GAE.rt := rt0;
     GAE.owner_fuser_id := "user-1";
     GAE.sanitize_args := sanitize0;
     GAE.base_ensure_services := fun n => (Ret true, n);
     GAE.base_get_report := fun _ n => (Ret ("report " ++ str_of_nat n), S n);
     GAE.base_called_by_model :=
       fun _ _ n => (Ret "Please authorize Google Analytics", n) |}.

Definition gae_fresh : GAE.state nat := {| GAE.base := 0; GAE.log := [] |}.

End Stub.

(** * Properties *)

(** ** Strings: what [in] and [join] guarantee *)

Section Strings.



Lemma prefix_iff (sub s : string) :
  prefix sub s = true <-> exists post, s = sub ++ post.
Proof.
  revert s; induction sub as [|c sub IH]; intros s.
  - destruct s; simpl; split; intros _; eauto.
  - destruct s as [|d s]; simpl.
    + split; [discriminate | intros [post H]; discriminate].
    + destruct (ascii_dec c d) as [->|ne].
      * rewrite IH. split; intros [post H]; exists post; congruence.
      * split; [discriminate | intros [post H]; congruence].
Qed.

(** [contains] is Python's substring test: it holds exactly when the
    needle occurs somewhere in the haystack. *)
Lemma contains_iff (sub s : string) :
  contains sub s = true <-> exists pre post, s = pre ++ sub ++ post.
Proof.
  induction s as [|c s IH]; cbn [contains].
  - destruct (prefix sub "") eqn:P.
    + split; [intros _ | reflexivity].
      apply prefix_iff in P. destruct P as [post P]. exists "", post. exact P.
    + split; [discriminate|].
      intros (pre & post & H). destruct pre; cbn [append] in H.
      * assert (prefix sub "" = true) by (apply prefix_iff; eauto). congruence.
      * discriminate.
  - destruct (prefix sub (String c s)) eqn:P.
    + split; [intros _ | reflexivity].
      apply prefix_iff in P. destruct P as [post P]. exists "", post. exact P.
    + rewrite IH. split.
      * intros (pre & post & ->). exists (String c pre), post. reflexivity.
      * intros (pre & post & H). destruct pre as [|d pre]; cbn [append] in H.
        -- assert (prefix sub (String c s) = true) by (apply prefix_iff; eauto).
           congruence.
        -- injection H as _ ->. eauto.
Qed.

Lemma contains_false_iff (sub s : string) :
  contains sub s = false <-> ~ exists pre post, s = pre ++ sub ++ post.
Proof.
  rewrite <- contains_iff. destruct (contains sub s); split; congruence.
Qed.


End Strings.

(** ** The monad: how a relation between start and end states composes *)

Section Preservation.
Context {S : Type} (R : S -> S -> Prop) `{!PreOrder R}.

Lemma preserves_ret {A} (a : A) : preserves R (ret a).
Proof. intros st. reflexivity. Qed.

Lemma preserves_raise {A} (e : exn) : preserves R (@raise S A e).
Proof. intros st. reflexivity. Qed.

Lemma preserves_lift {A} (o : outcome A) : preserves R (lift o).
Proof. intros st. reflexivity. Qed.

Lemma preserves_bind {A B} (m : M S A) (k : A -> M S B) :
  preserves R m -> (forall a, preserves R (k a)) -> preserves R (bind m k).
Proof.
  intros Hm Hk st. unfold bind. specialize (Hm st).
  destruct (m st) as [[a|e] st1]; simpl in *.
  - etransitivity; [exact Hm | apply Hk].
  - exact Hm.
Qed.

Lemma preserves_try_except {A} (m : M S A) (h : exn -> option (M S A)) :
  preserves R m -> (forall e k, h e = Some k -> preserves R k) ->
  preserves R (try_except m h).
Proof.
  intros Hm Hh st. unfold try_except. specialize (Hm st).
  destruct (m st) as [[a|e] st1]; simpl in *.
  - exact Hm.
  - destruct (h e) as [k|] eqn:He; simpl.
    + etransitivity; [exact Hm | eapply Hh; exact He].
    + exact Hm.
Qed.

End Preservation.

Lemma bind_Ret {S A B} (m : M S A) (k : A -> M S B) st a st1 :
  m st = (Ret a, st1) -> bind m k st = k a st1.
Proof. intros H. unfold bind. now rewrite H. Qed.

Lemma bind_Raise {S A B} (m : M S A) (k : A -> M S B) st e st1 :
  m st = (Raise e, st1) -> bind m k st = (Raise e, st1).
Proof. intros H. unfold bind. now rewrite H. Qed.

Lemma empty_or_contains_str (needle op : string) :
  op <> "" -> empty_or_contains needle (VStr op) = Ret (contains needle op).
Proof.
  intros H. unfold empty_or_contains. simpl.
  destruct (String.eqb_spec op ""); [contradiction | reflexivity].
Qed.

(** Breaks a preservation goal down along the structure of the program. *)
Ltac preserve_step :=
  match goal with
  | |- preserves _ (ret _) => apply preserves_ret; exact _
  | |- preserves _ (raise _) => apply preserves_raise; exact _
  | |- preserves _ (lift _) => apply preserves_lift; exact _
  | |- preserves _ (bind _ _) => apply preserves_bind; [exact _ | | intros ?]
  | |- preserves _ (try_except _ _) =>
      apply preserves_try_except; [exact _ | | intros [] ? ?]
  | |- preserves _ (if ?b then _ else _) => destruct b
  | |- preserves _ (match ?x with _ => _ end) => destruct x
  | H : Some _ = Some _ |- _ => injection H as <-
  | H : None = Some _ |- _ => discriminate H
  | H : (if ?b then _ else _) = Some _ |- _ => destruct b
  | H : match ?x with _ => _ end = Some _ |- _ => destruct x
  end.

(** ** The GTM adapter *)

Section GtmFacts.
Context {W : Type} (E : GTM.env W).

#[global] Instance quiet_preorder p : PreOrder (@GTM.quiet W p).
Proof.
  split.
  - intros st. exists []. now rewrite app_nil_r.
  - intros a b c (l1 & H1 & F1) (l2 & H2 & F2). exists (l1 ++ l2)%list. split.
    + now rewrite H2, H1, app_assoc.
    + now rewrite filter_app, F1, F2.
Qed.

#[global] Instance same_credentials_preorder : PreOrder (@GTM.same_credentials W).
Proof.
  split.
  - intros st. split; reflexivity.
  - intros a b c [] []. split; congruence.
Qed.

Lemma quiet_call {A} p ev (f : W -> outcome A * W) :
  p ev = false -> preserves (@GTM.quiet W p) (GTM.call ev f).
Proof.
  intros H st. unfold GTM.call. destruct (f (GTM.world st)); simpl.
  exists [ev]. split; [reflexivity | simpl; now rewrite H].
Qed.

Lemma quiet_api p c :
  p (GTM.EvApi c) = false -> preserves (@GTM.quiet W p) (GTM.api E c).
Proof.
  intros H st. unfold GTM.api. destruct (GTM.service st).
  - apply quiet_call. exact H.
  - reflexivity.
Qed.

Lemma quiet_now p : preserves (@GTM.quiet W p) (GTM.now E).
Proof.
  intros st. unfold GTM.now. destruct (GTM.time_time E _). simpl.
  exists []. now rewrite app_nil_r.
Qed.

Lemma quiet_set_token_data p t : preserves (@GTM.quiet W p) (GTM.set_token_data t).
Proof. intros st. exists []. simpl. now rewrite app_nil_r. Qed.

Lemma quiet_set_service p s : preserves (@GTM.quiet W p) (GTM.set_service s).
Proof. intros st. exists []. simpl. now rewrite app_nil_r. Qed.

(** What a quiet run leaves of the log under [p]. *)
Lemma quiet_filter p (st st' : GTM.state W) :
  GTM.quiet p st st' -> filter p (GTM.log st') = filter p (GTM.log st).
Proof.
  intros (added & -> & F). now rewrite filter_app, F, app_nil_r.
Qed.

Lemma same_credentials_call {A} ev (f : W -> outcome A * W) :
  preserves (@GTM.same_credentials W) (GTM.call ev f).
Proof.
  intros st. unfold GTM.call. destruct (f (GTM.world st)). split; reflexivity.
Qed.

Lemma same_credentials_api c : preserves (@GTM.same_credentials W) (GTM.api E c).
Proof.
  intros st. unfold GTM.api. destruct (GTM.service st).
  - apply same_credentials_call.
  - reflexivity.
Qed.

(** Authentication talks to the OAuth helper and the discovery builder only. *)
Lemma quiet_ensure_service : preserves (@GTM.quiet W GTM.is_api) (GTM._ensure_service E).
Proof.
  assert (Hr : preserves (@GTM.quiet W GTM.is_api) (GTM.refresh_service E)).
  { unfold GTM.refresh_service, GTM.fetch_token.
    repeat first [ apply quiet_call; reflexivity
                 | apply quiet_set_token_data | apply quiet_set_service
                 | preserve_step ]. }
  intros st. unfold GTM._ensure_service.
  destruct (GTM.service st); [destruct (GTM.token_data st)|]; try apply Hr.
  revert st. apply preserves_bind; [exact _ | apply quiet_now |].
  intros t0. destruct (Z.ltb _ _); [apply preserves_ret; exact _ | exact Hr].
Qed.

Lemma quiet_status_report b : preserves (@GTM.quiet W GTM.is_api) (GTM.status_report E b).
Proof.
  unfold GTM.status_report.
  repeat first [ apply quiet_call; reflexivity | preserve_step ].
Qed.

Lemma quiet_authorization_prompt :
  preserves (@GTM.quiet W GTM.is_api) (GTM.authorization_prompt E).
Proof.
  unfold GTM.authorization_prompt.
  repeat first [ apply quiet_call; reflexivity | preserve_step ].
Qed.

End GtmFacts.

Section GtmDispatcher.
Context {W : Type} (E : GTM.env W).

Local Opaque GTM.HELP.

Lemma gtm_nonempty_call (mpa : dict) (op : string) (tc : toolcall) :
  dict_get mpa "op" (VStr "") = VStr op -> op <> "" ->
  GTM.called_by_model E tc (Some mpa)
  = let (args, args_error) := GTM.sanitize_args E mpa in
    if has_error args_error then ret (error_text args_error)
    else GTM.serve E tc (VStr op) args.
Proof.
  intros Hop Hne. destruct mpa as [|kv mpa].
  - cbv in Hop. congruence.
  - unfold GTM.called_by_model. now rewrite Hop.
Qed.

(** Past sanitizing and authentication, an operation string that asks for
    neither help nor status reaches the [try] block. *)
Lemma gtm_reaches_dispatch tc mpa op args err st st1 :
  dict_get mpa "op" (VStr "") = VStr op -> op <> "" ->
  contains "help" op = false -> contains "status" op = false ->
  GTM.sanitize_args E mpa = (args, err) -> has_error err = false ->
  GTM._ensure_service E st = (Ret true, st1) ->
  GTM.called_by_model E tc (Some mpa) st
  = try_except (GTM.dispatch E tc (VStr op) args) (GTM.on_http_error E) st1.
Proof.
  intros Hop Hne Hh Hs Hsan Herr Hauth.
  rewrite (gtm_nonempty_call _ _ _ Hop Hne), Hsan, Herr.
  unfold GTM.serve. rewrite !empty_or_contains_str, Hh, Hs by assumption.
  unfold lift at 1 2. unfold bind at 1 2.
  now rewrite (bind_Ret _ _ _ _ _ Hauth).
Qed.

Lemma gtm_dispatch_unknown tc op args :
  ~ In op GTM.known_operations ->
  GTM.dispatch E tc (VStr op) args
  = ret (GTM.CROSS ++ " Unknown operation: " ++ op ++ NL ++ NL
           ++ "Try google_tag_manager(op='help') for usage.").
Proof.
  intros H. unfold GTM.dispatch, eq_str.
  repeat match goal with
         | |- context [String.eqb op ?s] =>
             destruct (String.eqb_spec op s) as [->|_];
             [exfalso; apply H; simpl; tauto|]
         end.
  reflexivity.
Qed.

Lemma gtm_unknown_operation tc mpa op args err st st1 :
  dict_get mpa "op" (VStr "") = VStr op -> op <> "" ->
  contains "help" op = false -> contains "status" op = false ->
  ~ In op GTM.known_operations ->
  GTM.sanitize_args E mpa = (args, err) -> has_error err = false ->
  GTM._ensure_service E st = (Ret true, st1) ->
  GTM.called_by_model E tc (Some mpa) st
  = (Ret (GTM.CROSS ++ " Unknown operation: " ++ op ++ NL ++ NL
            ++ "Try google_tag_manager(op='help') for usage."), st1).
Proof.
  intros Hop Hne Hh Hs Hk Hsan Herr Hauth.
  rewrite (gtm_reaches_dispatch tc _ _ _ _ _ _ Hop Hne Hh Hs Hsan Herr Hauth).
  now rewrite gtm_dispatch_unknown.
Qed.

Lemma gtm_help tc mpa op args err st (authenticated : bool) st1 :
  dict_get mpa "op" (VStr "") = VStr op ->
  contains "help" op = true -> contains "status" op = false ->
  GTM.sanitize_args E mpa = (args, err) -> has_error err = false ->
  GTM._ensure_service E st = (Ret authenticated, st1) ->
  GTM.called_by_model E tc (Some mpa) st = (Ret GTM.HELP, st1).
Proof.
  intros Hop Hh Hs Hsan Herr Hauth.
  assert (Hne : op <> "") by (intros ->; discriminate Hh).
  rewrite (gtm_nonempty_call _ _ _ Hop Hne), Hsan, Herr.
  unfold GTM.serve. rewrite !empty_or_contains_str, Hh, Hs by assumption.
  unfold lift at 1 2. unfold bind at 1 2.
  now rewrite (bind_Ret _ _ _ _ _ Hauth).
Qed.

End GtmDispatcher.

(** *** The confirmation gate *)

Section GtmGate.
Context {W : Type} (E : GTM.env W).

Lemma gate_closed {A} tc key command explanation (k : M (GTM.state W) A) st :
  confirmed_by_human tc = false ->
  (GTM.require_confirmation tc key command explanation ;;; k) st
  = (Raise (NeedsConfirmation key command explanation), st).
Proof.
  intros H. unfold GTM.require_confirmation, bind. now rewrite H.
Qed.

Lemma gate_open {A} tc key command explanation (k : M (GTM.state W) A) :
  confirmed_by_human tc = true ->
  (GTM.require_confirmation tc key command explanation ;;; k) = k.
Proof.
  intros H. unfold GTM.require_confirmation, bind. now rewrite H.
Qed.

Lemma gtm_dispatch_unconfirmed tc op args st :
  confirmed_by_human tc = false -> In op GTM.mutating_operations ->
  exists key command explanation,
    GTM.dispatch E tc (VStr op) args st
    = (Raise (NeedsConfirmation key command explanation), st).
Proof.
  intros Hc Hin. simpl in Hin.
  repeat destruct Hin as [<-|Hin]; try contradiction;
    do 3 eexists;
    cbv [GTM.dispatch eq_str String.eqb Ascii.eqb Bool.eqb];
    apply gate_closed; exact Hc.
Qed.

Lemma quiet_on_http_error e k :
  GTM.on_http_error E e = Some k -> preserves (@GTM.quiet W GTM.is_api) k.
Proof.
  destruct e; simpl; intros H; try discriminate. injection H as <-.
  repeat first [ apply quiet_call; reflexivity
               | apply quiet_set_token_data | apply quiet_set_service
               | preserve_step ].
Qed.

(** An unconfirmed call to a mutating operation sends nothing to the GTM
    API, wherever in the dispatcher it ends. *)
Lemma gtm_unconfirmed_quiet tc mpa op :
  confirmed_by_human tc = false ->
  dict_get mpa "op" (VStr "") = VStr op -> In op GTM.mutating_operations ->
  preserves (@GTM.quiet W GTM.is_api) (GTM.called_by_model E tc (Some mpa)).
Proof.
  intros Hc Hop Hin. unfold GTM.called_by_model.
  destruct mpa as [|kv mpa]; [apply preserves_ret; exact _|].
  rewrite Hop. destruct (GTM.sanitize_args E (kv :: mpa)) as [args err].
  destruct (has_error err); [apply preserves_ret; exact _|].
  unfold GTM.serve.
  repeat first [ apply quiet_ensure_service | apply quiet_status_report
               | apply quiet_authorization_prompt
               | apply preserves_try_except; [exact _ | | apply quiet_on_http_error]
               | preserve_step ].
  intros st. destruct (gtm_dispatch_unconfirmed tc op args st Hc Hin)
    as (key & command & explanation & ->). reflexivity.
Qed.

(** *** HTTP errors out of a handler *)

Lemma on_http_error_unauthorized status text st :
  status = 401%Z \/ status = 403%Z ->
  exists k, GTM.on_http_error E (HttpError status text) = Some k
    /\ GTM.token_data (snd (k st)) = None
    /\ GTM.service (snd (k st)) = None
    /\ forall auth_url w,
         GTM.start_external_auth_flow E (GTM.world st) = (Ret auth_url, w) ->
         k st = (Ret (GTM.CROSS ++ " Google Tag Manager authentication error: "
                        ++ str_of_Z status ++ NL ++ NL ++ "Please authorize at:" ++ NL
                        ++ auth_url ++ NL ++ NL ++ "Then retry."),
                 {| GTM.token_data := None; GTM.service := None; GTM.world := w;
                    GTM.log := (GTM.log st ++ [GTM.EvStartAuthFlow])%list |}).
Proof.
  intros Hs. eexists. split.
  - unfold GTM.on_http_error.
    replace (Z.eqb status 401 || Z.eqb status 403) with true
      by (destruct Hs as [-> | ->]; reflexivity).
    reflexivity.
  - unfold bind, GTM.set_token_data, GTM.set_service, GTM.call; simpl.
    destruct (GTM.start_external_auth_flow E (GTM.world st)) as [[u|e] w1] eqn:F;
      simpl; repeat split; intros auth_url w [= <- <-]; reflexivity.
Qed.

Lemma on_http_error_other status text :
  status <> 401%Z -> status <> 403%Z ->
  GTM.on_http_error E (HttpError status text)
  = Some (ret (GTM.CROSS ++ " " ++ "Google Tag Manager API error: " ++ str_of_Z status
                 ++ " - " ++ text)).
Proof.
  intros H1 H3. unfold GTM.on_http_error.
  destruct (Z.eqb_spec status 401); [contradiction|].
  destruct (Z.eqb_spec status 403); [contradiction|]. reflexivity.
Qed.

(** With no service cached, [_ensure_service] starts by asking the OAuth
    helper for a token. *)
Lemma ensure_service_reauthenticates st :
  GTM.service st = None ->
  exists later,
    GTM.log (snd (GTM._ensure_service E st)) = (GTM.log st ++ GTM.EvGetToken :: later)%list.
Proof.
  intros Hs. unfold GTM._ensure_service. rewrite Hs.
  unfold GTM.refresh_service, GTM.fetch_token.
  unfold try_except, bind, GTM.call, GTM.set_token_data, GTM.set_service, ret; simpl.
  destruct (GTM.get_external_auth_token E (GTM.world st)) as [[[tok|]|e] w1]; simpl.
  - destruct (GTM.build E (GTM.access_token tok) w1) as [[[]|e] w2]; simpl;
      eexists; rewrite <- app_assoc; reflexivity.
  - exists []. reflexivity.
  - exists []. destruct e; reflexivity.
Qed.

End GtmGate.

(** *** What the handlers leave alone *)

Section GtmHandlers.
Context {W : Type} (E : GTM.env W).

Ltac handler_preserves lemma :=
  cbv zeta;
  repeat first [ apply lemma | preserve_step ].

Ltac unfold_handlers :=
  unfold GTM.dispatch, GTM._list_accounts, GTM._list_containers, GTM._get_container,
    GTM._create_container, GTM._list_tags, GTM._list_triggers, GTM._list_variables,
    GTM.list_items, GTM._create_tag, GTM._create_trigger, GTM._create_variable,
    GTM._create_version, GTM._publish_version, GTM._link_ga4,
    GTM.resolve_workspace, GTM.require_confirmation.

(** No handler touches [token_data] or [service]. *)
Lemma same_credentials_dispatch tc op args :
  preserves (@GTM.same_credentials W) (GTM.dispatch E tc op args).
Proof.
  unfold_handlers. handler_preserves (same_credentials_api E).
Qed.

Lemma service_after_dispatch tc op args st :
  GTM.service (snd (GTM.dispatch E tc op args st)) = GTM.service st
  /\ GTM.token_data (snd (GTM.dispatch E tc op args st)) = GTM.token_data st.
Proof.
  destruct (same_credentials_dispatch tc op args st) as [Ht Hs]. now split.
Qed.

End GtmHandlers.

(** *** Workspace resolution *)

Section GtmWorkspace.
Context {W : Type} (E : GTM.env W).

Lemma resolve_supplied a c w st :
  truthy w = true -> GTM.resolve_workspace E a c w st = (Ret w, st).
Proof. intros H. unfold GTM.resolve_workspace. now rewrite H. Qed.

(** A request followed by quiet code: the request is the next event. *)
Lemma api_then {A} p c' (K : dict -> M (GTM.state W) A) st svc :
  GTM.service st = Some svc ->
  (forall r, preserves (@GTM.quiet W p) (K r)) ->
  exists later,
    GTM.log (snd ((r <- GTM.api E c' ;; K r) st))
    = (GTM.log st ++ GTM.EvApi c' :: later)%list
    /\ filter p later = [].
Proof.
  intros Hs HK. unfold bind, GTM.api, GTM.call. rewrite Hs.
  destruct (GTM.execute E svc c' (GTM.world st)) as [[r|e] w1]; simpl.
  - match goal with |- context [K r ?s] => destruct (HK r s) as (added & H & F) end.
    exists added. simpl in H. rewrite H, <- app_assoc. now split.
  - exists []. now split.
Qed.


Ltac quiet_ws :=
  cbv zeta;
  repeat first [ apply (quiet_api E); reflexivity | preserve_step ].

Ltac given H :=
  cbv [GTM.required_parameters GTM.all_given forallb String.eqb Ascii.eqb Bool.eqb] in H;
  repeat match type of H with
         | (_ && _)%bool = true => let H1 := fresh "Hg" in
                                   apply andb_prop in H; destruct H as [H1 H]
         end.

(** Each workspace-scoped operation, confirmed and given its required
    parameters, has that shape. *)
Lemma gtm_workspace_shape tc op args :
  In op GTM.workspace_operations ->
  confirmed_by_human tc = true ->
  GTM.all_given args (GTM.required_parameters op) = true ->
  exists C K,
    GTM.dispatch E tc (VStr op) args
    = (wid <- GTM.resolve_workspace E (dict_get args "accountId" (VStr ""))
                (dict_get args "containerId" (VStr ""))
                (dict_get args "workspaceId" (VStr "")) ;;
       r <- GTM.api E (C wid) ;; K wid r)
    /\ (forall wid, GTM.is_workspaces_list (GTM.EvApi (C wid)) = false)
    /\ (forall wid r, preserves (@GTM.quiet W GTM.is_workspaces_list) (K wid r))
    /\ (forall wid, GTM.target (C wid)
                    = GTM.workspace_path E (dict_get args "accountId" (VStr ""))
                        (dict_get args "containerId" (VStr "")) wid).
Proof.
  intros Hin Hc Hg. simpl in Hin.
  repeat destruct Hin as [<-|Hin]; try contradiction; given Hg;
    cbv [GTM.dispatch eq_str String.eqb Ascii.eqb Bool.eqb];
    unfold GTM._list_tags, GTM._list_triggers, GTM._list_variables, GTM.list_items,
      GTM._create_tag, GTM._create_trigger, GTM._create_variable,
      GTM._create_version, GTM._link_ga4;
    rewrite ?gate_open by exact Hc;
    cbv zeta;
    repeat match goal with
           | H : truthy _ = true |- _ => rewrite H; clear H
           end;
    cbn [negb orb];
    do 2 eexists; (split; [reflexivity|]);
    (split; [reflexivity|]); (split; [|reflexivity]);
    intros wid r; quiet_ws.
Qed.

End GtmWorkspace.

(** *** Linking GA4 *)

Section GtmLinkGA4.
Context {W : Type} (E : GTM.env W).

Lemma find_pageview_none (ts : list dict) :
  forallb (fun t => negb (GTM.is_pageview t)) ts = true ->
  GTM.find_pageview (map VDict ts) = Ret VNone.
Proof.
  induction ts as [|t ts IH]; simpl; [reflexivity|].
  intros H. apply andb_prop in H. destruct H as [Ht Hts].
  unfold GTM.is_pageview in Ht. destruct (eq_str _ _); [discriminate | auto].
Qed.

Lemma find_pageview_first (before : list dict) t after :
  forallb (fun t => negb (GTM.is_pageview t)) before = true ->
  GTM.is_pageview t = true ->
  GTM.find_pageview (map VDict (before ++ t :: after))
  = Ret (dict_get t "triggerId" VNone).
Proof.
  intros Hb Ht. induction before as [|b before IH]; simpl.
  - unfold GTM.is_pageview in Ht. now rewrite Ht.
  - simpl in Hb. apply andb_prop in Hb. destruct Hb as [Hb Hbs].
    unfold GTM.is_pageview in Hb. destruct (eq_str _ _); [discriminate | auto].
Qed.

Lemma quiet_resolve_workspace p a c w :
  (forall parent, p (GTM.EvApi (GTM.WorkspacesList parent)) = false) ->
  preserves (@GTM.quiet W p) (GTM.resolve_workspace E a c w).
Proof.
  intros H. unfold GTM.resolve_workspace.
  repeat first [ apply (quiet_api E); apply H | preserve_step ].
Qed.

(** [_link_ga4] up to the search for the firing trigger: with the workspace
    resolved to [wid] and the trigger listing answered by [triggers], what
    is left is decided by [found], the result of the search. *)
Lemma link_ga4_after_listing tc args st wid st1 svc triggers w2 ts :
  confirmed_by_human tc = true ->
  GTM.all_given args ["accountId"; "containerId"; "measurementId"] = true ->
  let a := dict_get args "accountId" (VStr "") in
  let c := dict_get args "containerId" (VStr "") in
  let m := dict_get args "measurementId" (VStr "") in
  GTM.resolve_workspace E a c (dict_get args "workspaceId" (VStr "")) st = (Ret wid, st1) ->
  GTM.service st1 = Some svc ->
  GTM.execute E svc (GTM.TriggersList (GTM.workspace_path E a c wid)) (GTM.world st1)
  = (Ret triggers, w2) ->
  dict_get triggers "trigger" (VList []) = VList (map VDict ts) ->
  forall found, GTM.find_pageview (map VDict ts) = Ret found ->
  GTM._link_ga4 E tc args st
  = (if negb (truthy found) then
       ret (GTM.CROSS ++ " Could not find 'All Pages' trigger. Create a pageview trigger first.")
     else
       tag <- GTM.api E (GTM.TagsCreate (GTM.workspace_path E a c wid)
                           (GTM.ga4_tag_body m found)) ;;
       ret (GTM.CHECK ++ " Created GA4 configuration tag: " ++ GTM.fmt E (dict_get tag "name" VNone)
              ++ " (ID: " ++ GTM.fmt E (dict_get tag "tagId" VNone) ++ ")" ++ NL ++ NL
              ++ "GA4 is now linked to GTM. Create a version and publish to make it live."))
      {| GTM.token_data := GTM.token_data st1; GTM.service := GTM.service st1;
         GTM.world := w2;
         GTM.log := (GTM.log st1 ++ [GTM.EvApi (GTM.TriggersList
                                                  (GTM.workspace_path E a c wid))])%list |}.
Proof.
  intros Hc Hg a c m Hr Hs X D found F. subst a c m.
  cbv [GTM.all_given forallb] in Hg.
  apply andb_prop in Hg. destruct Hg as [Ha Hg].
  apply andb_prop in Hg. destruct Hg as [Hcn Hg].
  apply andb_prop in Hg. destruct Hg as [Hm _].
  unfold GTM._link_ga4. rewrite gate_open by exact Hc. cbv zeta.
  rewrite Ha, Hcn, Hm. cbn [negb orb].
  unfold bind at 1. rewrite Hr.
  unfold bind at 1. unfold GTM.api at 1. rewrite Hs. unfold GTM.call at 1. rewrite X.
  rewrite D. unfold bind at 1, lift at 1. cbn [py_iter].
  unfold bind at 1, lift at 1. rewrite F, ?Hs. reflexivity.
Qed.

End GtmLinkGA4.

(** ** The GA4-Enhanced adapter *)

Section GaeFacts.
Context {B : Type} (E : GAE.env B).

Local Opaque GAE.HELP.

Lemma gae_nonempty_call (mpa : dict) (op : string) (tc : toolcall) :
  dict_get mpa "op" (VStr "") = VStr op -> op <> "" ->
  GAE.called_by_model E tc (Some mpa)
  = let (args, args_error) := GAE.sanitize_args E mpa in
    if has_error args_error then ret (error_text args_error)
    else GAE.serve E tc mpa (VStr op) args.
Proof.
  intros Hop Hne. destruct mpa as [|kv mpa].
  - cbv in Hop. congruence.
  - unfold GAE.called_by_model. now rewrite Hop.
Qed.

Lemma gae_reaches_dispatch tc mpa op args err st b1 :
  dict_get mpa "op" (VStr "") = VStr op -> op <> "" ->
  contains "help" op = false -> contains "status" op = false ->
  GAE.sanitize_args E mpa = (args, err) -> has_error err = false ->
  GAE.base_ensure_services E (GAE.base st) = (Ret true, b1) ->
  GAE.called_by_model E tc (Some mpa) st
  = try_except (GAE.dispatch E (VStr op) args) (GAE.on_exception E) (GAE.asked st b1).
Proof.
  intros Hop Hne Hh Hs Hsan Herr Hauth.
  rewrite (gae_nonempty_call _ _ _ Hop Hne), Hsan, Herr.
  unfold GAE.serve. rewrite !empty_or_contains_str, Hh, Hs by assumption.
  unfold lift at 1 2. unfold bind at 1 2. unfold bind at 1, GAE.call at 1.
  now rewrite Hauth.
Qed.

Lemma gae_dispatch_unknown op args :
  ~ In op GAE.known_operations ->
  GAE.dispatch E (VStr op) args
  = ret (GAE.CROSS ++ " Unknown operation: " ++ op ++ NL ++ NL
           ++ "Try google_analytics_enhanced(op='help') for usage.").
Proof.
  intros H. unfold GAE.dispatch, eq_str.
  repeat match goal with
         | |- context [String.eqb op ?s] =>
             destruct (String.eqb_spec op s) as [->|_];
             [exfalso; apply H; simpl; tauto|]
         end.
  reflexivity.
Qed.

Lemma gae_unknown_operation tc mpa op args err st b1 :
  dict_get mpa "op" (VStr "") = VStr op -> op <> "" ->
  contains "help" op = false -> contains "status" op = false ->
  ~ In op GAE.known_operations ->
  GAE.sanitize_args E mpa = (args, err) -> has_error err = false ->
  GAE.base_ensure_services E (GAE.base st) = (Ret true, b1) ->
  GAE.called_by_model E tc (Some mpa) st
  = (Ret (GAE.CROSS ++ " Unknown operation: " ++ op ++ NL ++ NL
            ++ "Try google_analytics_enhanced(op='help') for usage."), GAE.asked st b1).
Proof.
  intros Hop Hne Hh Hs Hk Hsan Herr Hauth.
  rewrite (gae_reaches_dispatch tc _ _ _ _ _ _ Hop Hne Hh Hs Hsan Herr Hauth).
  now rewrite gae_dispatch_unknown.
Qed.

Lemma gae_help tc mpa op args err st (authenticated : bool) b1 :
  dict_get mpa "op" (VStr "") = VStr op ->
  contains "help" op = true -> contains "status" op = false ->
  GAE.sanitize_args E mpa = (args, err) -> has_error err = false ->
  GAE.base_ensure_services E (GAE.base st) = (Ret authenticated, b1) ->
  GAE.called_by_model E tc (Some mpa) st = (Ret GAE.HELP, GAE.asked st b1).
Proof.
  intros Hop Hh Hs Hsan Herr Hauth.
  assert (Hne : op <> "") by (intros ->; discriminate Hh).
  rewrite (gae_nonempty_call _ _ _ Hop Hne), Hsan, Herr.
  unfold GAE.serve. rewrite !empty_or_contains_str, Hh, Hs by assumption.
  unfold lift at 1 2. unfold bind at 1 2. unfold bind at 1, GAE.call at 1.
  now rewrite Hauth.
Qed.

(** An [Exception] a handler raises, the dispatcher hands back as a string
    and does nothing more. *)
Lemma gae_exception_is_returned op args st1 e st2 :
  is_exception e = true ->
  GAE.dispatch E op args st1 = (Raise e, st2) ->
  try_except (GAE.dispatch E op args) (GAE.on_exception E) st1
  = (Ret (GAE.CROSS ++ " Error: " ++ exn_str (GAE.rt E) e), st2).
Proof.
  intros He H. unfold try_except, GAE.on_exception. now rewrite H, He.
Qed.

(** What is not an [Exception] goes through the dispatcher as it is. *)
Lemma gae_base_error_propagates op args st1 e st2 :
  is_exception e = false ->
  GAE.dispatch E op args st1 = (Raise e, st2) ->
  try_except (GAE.dispatch E op args) (GAE.on_exception E) st1 = (Raise e, st2).
Proof.
  intros He H. unfold try_except, GAE.on_exception. now rewrite H, He.
Qed.

End GaeFacts.

(** *** The funnel report and the event lookup *)

Section GaeReports.
Context {B : Type} (E : GAE.env B).






Lemma get_event_config_runs args name result st b' :
  truthy (dict_get args "propertyId" (VStr "")) = true ->
  dict_get args "eventName" (VStr "") = VStr name -> name <> "" ->
  GAE.base_get_report E
    (GAE.event_config_base_args (dict_get args "propertyId" (VStr ""))) (GAE.base st)
  = (Ret result, b') ->
  GAE._get_event_config E args st
  = (Ret (if contains name result
          then GAE.CHECK ++ " Event '" ++ name ++ "' is being tracked." ++ NL ++ NL ++ result
          else GAE.WARN ++ " Event '" ++ name
               ++ "' not found in recent data. It may not be tracked yet or has no data in the last 7 days."),
     {| GAE.base := b';
        GAE.log := (GAE.log st
                      ++ [GAE.EvGetReport
                            (GAE.event_config_base_args
                               (dict_get args "propertyId" (VStr "")))])%list |}).
Proof.
  intros Hp He Hne Hrep. unfold GAE._get_event_config. cbv zeta.
  rewrite Hp, He.
  replace (truthy (VStr name)) with true
    by (simpl; destruct (String.eqb_spec name ""); [contradiction | reflexivity]).
  cbn [negb orb]. unfold bind at 1, GAE._get_report at 1, GAE.call at 1.
  rewrite Hrep. unfold bind at 1, lift at 1. cbn [GAE.in_report].
  destruct (contains name result); reflexivity.
Qed.

End GaeReports.

(** ** The adapters on concrete calls *)

(** The help texts name the operations, as [tests/test_tools.py] asks. *)
Example gtm_help_content :
  contains "google_tag_manager" GTM.HELP = true
  /\ contains "listAccounts" GTM.HELP = true
  /\ contains "createContainer" GTM.HELP = true
  /\ contains "linkGA4" GTM.HELP = true
  /\ contains "publishVersion" GTM.HELP = true.
Proof. repeat split; vm_compute; reflexivity. Qed.

Example ga_enhanced_help_content :
  contains "google_analytics_enhanced" GAE.HELP = true
  /\ contains "listEvents" GAE.HELP = true
  /\ contains "getConversions" GAE.HELP = true
  /\ contains "getEcommerceReport" GAE.HELP = true
  /\ contains "getFunnelReport" GAE.HELP = true.
Proof. repeat split; vm_compute; reflexivity. Qed.

(** [getContainer] against an API that knows one container: the public ID
    shows up in the script snippet and in the noscript snippet. *)
Example get_container_snippets :
  exists out,
    fst (GTM.called_by_model
           (Stub.gtm (Ret None) (Ret "https://auth")
              (fun _ => Ret [("name", VStr "Test"); ("containerId", VStr "2");
                             ("publicId", VStr "GTM-XXXX")]))
           Stub.unconfirmed
           (Stub.request "getContainer" [("accountId", VStr "1"); ("containerId", VStr "2")])
           Stub.gtm_ready)
    = Ret out
    /\ contains "'script','dataLayer','GTM-XXXX');</script>" out = true
    /\ contains "ns.html?id=GTM-XXXX" out = true.
Proof. eexists. repeat split; vm_compute; reflexivity. Qed.

(** An unauthenticated instance answers an operation with the authorization
    prompt and does not run it. *)
Example unauthenticated_call_is_prompted :
  GTM.called_by_model
    (Stub.gtm (Ret None) (Ret "https://auth") (Stub.respond_triggers []))
    Stub.confirmed (Stub.request "listAccounts" []) (GTM.init tt)
  = (Ret (GTM.CROSS ++ " Not authenticated. Ask user to authorize at:" ++ NL
            ++ "https://auth" ++ NL ++ NL ++ "Then retry this operation."),
     {| GTM.token_data := None; GTM.service := None; GTM.world := tt;
        GTM.log := [GTM.EvGetToken; GTM.EvStartAuthFlow] |}).
Proof. reflexivity. Qed.

(** A confirmed [linkGA4] fires on the first pageview trigger, here the
    second trigger of the workspace. *)
Example link_ga4_uses_first_pageview_trigger :
  GTM.log (snd (GTM._link_ga4
                  (Stub.gtm (Ret None) (Ret "https://auth")
                     (Stub.respond_triggers
                        [VDict [("type", VStr "click"); ("triggerId", VStr "3")];
                         VDict [("type", VStr "pageview"); ("triggerId", VStr "5")];
                         VDict [("type", VStr "pageview"); ("triggerId", VStr "9")]]))
                  Stub.confirmed
                  [("accountId", VStr "1"); ("containerId", VStr "2");
                   ("measurementId", VStr "G-1")]
                  Stub.gtm_ready))
  = [GTM.EvApi (GTM.WorkspacesList "accounts/1/containers/2");
     GTM.EvApi (GTM.TriggersList "accounts/1/containers/2/workspaces/7");
     GTM.EvApi (GTM.TagsCreate "accounts/1/containers/2/workspaces/7"
                  (GTM.ga4_tag_body (VStr "G-1") (VStr "5")))].
Proof. reflexivity. Qed.

(** ** The claims *)

(** C8.  Called with an absent or an empty argument object, either adapter
    returns its full help text verbatim and leaves its state as it was, the
    log of outgoing calls included: no authentication is attempted and no
    API call is made. *)
Theorem C8_empty_arguments_return_help :
  forall (W B : Type) (G : GTM.env W) (A : GAE.env B) (tc : toolcall)
         (gst : GTM.state W) (ast : GAE.state B),
    GTM.called_by_model G tc None gst = (Ret GTM.HELP, gst)
    /\ GTM.called_by_model G tc (Some []) gst = (Ret GTM.HELP, gst)
    /\ GAE.called_by_model A tc None ast = (Ret GAE.HELP, ast)
    /\ GAE.called_by_model A tc (Some []) ast = (Ret GAE.HELP, ast).
Proof. intros. repeat split. Qed.

(** C6, as the code has it.  For a call whose argument object passes the
    sanitizer and whose operation string contains "help" and does not contain
    "status", either dispatcher returns the full help text, once the
    authentication check has returned (with either answer). *)
Theorem C6_help_unless_status :
  forall (W B : Type) (G : GTM.env W) (A : GAE.env B) (tc : toolcall)
         (mpa : dict) (op : string),
    dict_get mpa "op" (VStr "") = VStr op ->
    contains "help" op = true -> contains "status" op = false ->
    (forall args err gst (authenticated : bool) gst1,
        GTM.sanitize_args G mpa = (args, err) -> has_error err = false ->
        GTM._ensure_service G gst = (Ret authenticated, gst1) ->
        GTM.called_by_model G tc (Some mpa) gst = (Ret GTM.HELP, gst1))
    /\ (forall args err ast (authenticated : bool) b1,
        GAE.sanitize_args A mpa = (args, err) -> has_error err = false ->
        GAE.base_ensure_services A (GAE.base ast) = (Ret authenticated, b1) ->
        GAE.called_by_model A tc (Some mpa) ast = (Ret GAE.HELP, GAE.asked ast b1)).
Proof.
  intros W B G A tc mpa op Hop Hh Hs. split; intros.
  - eapply gtm_help; eassumption.
  - eapply gae_help; eassumption.
Qed.

Lemma C6_help_witness :
  GTM.called_by_model (Stub.gtm (Ret None) (Ret "https://auth") (Stub.respond_triggers []))
    Stub.unconfirmed (Stub.request "help" []) Stub.gtm_ready
  = (Ret GTM.HELP, Stub.gtm_ready)
  /\ GAE.called_by_model (Stub.gae (fun _ => Ret "")) Stub.unconfirmed
       (Stub.request "help" []) Stub.gae_ready
     = (Ret GAE.HELP, GAE.asked Stub.gae_ready true).
Proof.
  destruct (C6_help_unless_status unit bool
              (Stub.gtm (Ret None) (Ret "https://auth") (Stub.respond_triggers []))
              (Stub.gae (fun _ => Ret "")) Stub.unconfirmed
              [("op", VStr "help"); ("args", VDict [])] "help"
              eq_refl eq_refl eq_refl) as [HG HA].
  split.
  - apply (HG [] None Stub.gtm_ready true Stub.gtm_ready); reflexivity.
  - apply (HA [] None Stub.gae_ready true true); reflexivity.
Defined.

(** C6 as stated fails: an operation string that contains "help" and
    "status" gets the status report, not the help text. *)
Lemma C6_help_with_status_counterexample :
  contains "help" "help status" = true
  /\ GTM.called_by_model (Stub.gtm (Ret None) (Ret "https://auth") (Stub.respond_triggers []))
       Stub.unconfirmed (Stub.request "help status" []) Stub.gtm_ready
     = (Ret ("Google Tag Manager integration status:" ++ NL
               ++ "  Authenticated: " ++ GTM.CHECK ++ " Yes" ++ NL
               ++ "  User: user-1" ++ NL ++ "  Workspace: ws-1" ++ NL),
        Stub.gtm_ready)
  /\ String.eqb ("Google Tag Manager integration status:" ++ NL
                   ++ "  Authenticated: " ++ GTM.CHECK ++ " Yes" ++ NL
                   ++ "  User: user-1" ++ NL ++ "  Workspace: ws-1" ++ NL)
       GTM.HELP = false
  /\ GAE.called_by_model (Stub.gae (fun _ => Ret "")) Stub.unconfirmed
       (Stub.request "help status" []) Stub.gae_ready
     = (Ret ("Google Analytics Enhanced integration status:" ++ NL
               ++ "  Authenticated: " ++ GAE.CHECK ++ " Yes" ++ NL
               ++ "  User: user-1" ++ NL),
        GAE.asked Stub.gae_ready true)
  /\ String.eqb ("Google Analytics Enhanced integration status:" ++ NL
                   ++ "  Authenticated: " ++ GAE.CHECK ++ " Yes" ++ NL
                   ++ "  User: user-1" ++ NL)
       GAE.HELP = false.
Proof. repeat split; vm_compute; reflexivity. Qed.

(** C4.  An authenticated call (one that passed the sanitizer and for which
    the authentication check returned [True]) whose operation string is
    non-empty, contains neither "help" nor "status" and is none of the
    adapter's operation names returns the "Unknown operation" message, which
    points at [op='help']; it returns, it does not raise, and it sends
    nothing after the authentication check. *)
Theorem C4_unknown_operation :
  forall (W B : Type) (G : GTM.env W) (A : GAE.env B) (tc : toolcall)
         (mpa : dict) (op : string),
    dict_get mpa "op" (VStr "") = VStr op -> op <> "" ->
    contains "help" op = false -> contains "status" op = false ->
    (~ In op GTM.known_operations ->
     forall args err gst gst1,
       GTM.sanitize_args G mpa = (args, err) -> has_error err = false ->
       GTM._ensure_service G gst = (Ret true, gst1) ->
       GTM.called_by_model G tc (Some mpa) gst
       = (Ret (GTM.CROSS ++ " Unknown operation: " ++ op ++ NL ++ NL
                 ++ "Try google_tag_manager(op='help') for usage."), gst1))
    /\ (~ In op GAE.known_operations ->
        forall args err ast b1,
          GAE.sanitize_args A mpa = (args, err) -> has_error err = false ->
          GAE.base_ensure_services A (GAE.base ast) = (Ret true, b1) ->
          GAE.called_by_model A tc (Some mpa) ast
          = (Ret (GAE.CROSS ++ " Unknown operation: " ++ op ++ NL ++ NL
                    ++ "Try google_analytics_enhanced(op='help') for usage."),
             GAE.asked ast b1)).
Proof.
  intros W B G A tc mpa op Hop Hne Hh Hs. split; intros Hk; intros.
  - eapply gtm_unknown_operation; eassumption.
  - eapply gae_unknown_operation; eassumption.
Qed.

Lemma not_in_by_eqb (op : string) (names : list string) :
  existsb (String.eqb op) names = false -> ~ In op names.
Proof.
  intros H Hin. assert (X : existsb (String.eqb op) names = true).
  { apply existsb_exists. exists op. split; [exact Hin | apply String.eqb_refl]. }
  congruence.
Qed.

Lemma C4_unknown_operation_witness :
  GTM.called_by_model (Stub.gtm (Ret None) (Ret "https://auth") (Stub.respond_triggers []))
    Stub.unconfirmed (Stub.request "frobnicate" []) Stub.gtm_ready
  = (Ret (GTM.CROSS ++ " Unknown operation: frobnicate" ++ NL ++ NL
            ++ "Try google_tag_manager(op='help') for usage."), Stub.gtm_ready)
  /\ GAE.called_by_model (Stub.gae (fun _ => Ret "")) Stub.unconfirmed
       (Stub.request "frobnicate" []) Stub.gae_ready
     = (Ret (GAE.CROSS ++ " Unknown operation: frobnicate" ++ NL ++ NL
               ++ "Try google_analytics_enhanced(op='help') for usage."),
        GAE.asked Stub.gae_ready true).
Proof.
  assert (Hne : "frobnicate" <> "") by discriminate.
  destruct (C4_unknown_operation unit bool
              (Stub.gtm (Ret None) (Ret "https://auth") (Stub.respond_triggers []))
              (Stub.gae (fun _ => Ret "")) Stub.unconfirmed
              [("op", VStr "frobnicate"); ("args", VDict [])] "frobnicate"
              eq_refl Hne eq_refl eq_refl) as [HG HA].
  split.
  - apply (HG (not_in_by_eqb "frobnicate" GTM.known_operations eq_refl) [] None Stub.gtm_ready Stub.gtm_ready);
      reflexivity.
  - apply (HA (not_in_by_eqb "frobnicate" GAE.known_operations eq_refl) [] None Stub.gae_ready true); reflexivity.
Defined.

(** C1.  With the confirmed-by-human flag unset, each of the seven mutating
    GTM handlers raises [NeedsConfirmation] (setup key, command description,
    explanation) whatever its arguments are, so before any argument is
    validated, and in the state it was entered in, so before anything is
    sent.  Through the dispatcher, such a call adds no GTM API request to the
    log wherever it ends, and once authenticated it ends in that signal. *)
Theorem C1_confirmation_gate :
  forall (W : Type) (E : GTM.env W) (tc : toolcall),
    confirmed_by_human tc = false ->
    (forall args st,
        GTM._create_container E tc args st
        = (Raise (NeedsConfirmation "gtm_write"
                    ("create container: " ++ GTM.fmt E (dict_get args "containerName" (VStr "")))
                    "This will create a new GTM container in your account"), st)
        /\ GTM._create_tag E tc args st
           = (Raise (NeedsConfirmation "gtm_write"
                       ("create tag: " ++ GTM.fmt E (dict_get args "tagName" (VStr "")))
                       "This will create a new tag in GTM"), st)
        /\ GTM._create_trigger E tc args st
           = (Raise (NeedsConfirmation "gtm_write"
                       ("create trigger: " ++ GTM.fmt E (dict_get args "triggerName" (VStr "")))
                       "This will create a new trigger in GTM"), st)
        /\ GTM._create_variable E tc args st
           = (Raise (NeedsConfirmation "gtm_write"
                       ("create variable: " ++ GTM.fmt E (dict_get args "variableName" (VStr "")))
                       "This will create a new variable in GTM"), st)
        /\ GTM._create_version E tc args st
           = (Raise (NeedsConfirmation "gtm_write"
                       ("create version: " ++ GTM.fmt E (dict_get args "versionName" (VStr "")))
                       "This will create a new container version"), st)
        /\ GTM._publish_version E tc args st
           = (Raise (NeedsConfirmation "gtm_publish"
                       ("publish version " ++ GTM.fmt E (dict_get args "versionId" (VStr "")))
                       "This will publish the container version to PRODUCTION"), st)
        /\ GTM._link_ga4 E tc args st
           = (Raise (NeedsConfirmation "gtm_write"
                       ("link GA4 measurement ID: "
                          ++ GTM.fmt E (dict_get args "measurementId" (VStr "")))
                       "This will create GA4 configuration tag in GTM"), st))
    /\ (forall mpa op,
          dict_get mpa "op" (VStr "") = VStr op -> In op GTM.mutating_operations ->
          (forall st, GTM.quiet GTM.is_api st (snd (GTM.called_by_model E tc (Some mpa) st)))
          /\ (forall args err st st1,
                GTM.sanitize_args E mpa = (args, err) -> has_error err = false ->
                GTM._ensure_service E st = (Ret true, st1) ->
                exists key command explanation,
                  GTM.called_by_model E tc (Some mpa) st
                  = (Raise (NeedsConfirmation key command explanation), st1))).
Proof.
  intros W E tc Hc. split.
  - intros args st. repeat split; apply gate_closed; exact Hc.
  - intros mpa op Hop Hin. split.
    + apply gtm_unconfirmed_quiet with (op := op); assumption.
    + intros args err st st1 Hsan Herr Hauth.
      assert (R : GTM.called_by_model E tc (Some mpa) st
                  = try_except (GTM.dispatch E tc (VStr op) args) (GTM.on_http_error E) st1).
      { simpl in Hin.
        repeat destruct Hin as [<-|Hin]; try contradiction;
          (eapply gtm_reaches_dispatch; try eassumption;
           [discriminate | reflexivity | reflexivity]). }
      destruct (gtm_dispatch_unconfirmed E tc op args st1 Hc Hin)
        as (key & command & explanation & D).
      exists key, command, explanation. rewrite R. unfold try_except. now rewrite D.
Qed.

Lemma C1_confirmation_gate_witness :
  GTM._publish_version
    (Stub.gtm (Ret None) (Ret "https://auth") (Stub.respond_triggers []))
    Stub.unconfirmed [] Stub.gtm_ready
  = (Raise (NeedsConfirmation "gtm_publish" "publish version "
              "This will publish the container version to PRODUCTION"), Stub.gtm_ready)
  /\ GTM.log (snd (GTM.called_by_model
                     (Stub.gtm (Ret None) (Ret "https://auth") (Stub.respond_triggers []))
                     Stub.unconfirmed
                     (Stub.request "createTag" [("tagName", VStr "GA4 Config")])
                     (GTM.init tt)))
     = [GTM.EvGetToken; GTM.EvStartAuthFlow].
Proof.
  destruct (C1_confirmation_gate unit
              (Stub.gtm (Ret None) (Ret "https://auth") (Stub.respond_triggers []))
              Stub.unconfirmed eq_refl) as [Hh _].
  split.
  - apply (proj1 (proj2 (proj2 (proj2 (proj2 (proj2 (Hh [] Stub.gtm_ready))))))).
  - reflexivity.
Defined.

(** C3.  In the GTM dispatcher, when the dispatched handler raises an HTTP
    error: on status 401 or 403 the cached token and service are both set to
    [None], so that the next [_ensure_service] starts by fetching a token
    again, and, the authorization flow having produced a URL, the
    authentication-error string with that URL is returned; on any other
    status the "Google Tag Manager API error" string is returned in the very
    state the handler failed in: the cached token and service are those the
    handler ran with, and nothing more is sent. *)
Theorem C3_gtm_http_errors :
  forall (W : Type) (E : GTM.env W) (tc : toolcall) (mpa : dict) (op : string)
         (args : dict) (err : option string) (st st1 st2 : GTM.state W)
         (status : Z) (text : string),
    dict_get mpa "op" (VStr "") = VStr op -> op <> "" ->
    contains "help" op = false -> contains "status" op = false ->
    GTM.sanitize_args E mpa = (args, err) -> has_error err = false ->
    GTM._ensure_service E st = (Ret true, st1) ->
    GTM.dispatch E tc (VStr op) args st1 = (Raise (HttpError status text), st2) ->
    let run := GTM.called_by_model E tc (Some mpa) st in
    (status = 401%Z \/ status = 403%Z ->
       GTM.token_data (snd run) = None
       /\ GTM.service (snd run) = None
       /\ (forall auth_url w,
             GTM.start_external_auth_flow E (GTM.world st2) = (Ret auth_url, w) ->
             run = (Ret (GTM.CROSS ++ " Google Tag Manager authentication error: "
                           ++ str_of_Z status ++ NL ++ NL ++ "Please authorize at:" ++ NL
                           ++ auth_url ++ NL ++ NL ++ "Then retry."),
                    {| GTM.token_data := None; GTM.service := None; GTM.world := w;
                       GTM.log := (GTM.log st2 ++ [GTM.EvStartAuthFlow])%list |}))
       /\ (exists later,
             GTM.log (snd (GTM._ensure_service E (snd run)))
             = (GTM.log (snd run) ++ GTM.EvGetToken :: later)%list))
    /\ (status <> 401%Z -> status <> 403%Z ->
          run = (Ret (GTM.CROSS ++ " Google Tag Manager API error: " ++ str_of_Z status
                        ++ " - " ++ text), st2)
          /\ GTM.token_data st2 = GTM.token_data st1
          /\ GTM.service st2 = GTM.service st1).
Proof.
  intros W E tc mpa op args err st st1 st2 status text
         Hop Hne Hh Hs Hsan Herr Hauth D run.
  assert (R : run = try_except (GTM.dispatch E tc (VStr op) args) (GTM.on_http_error E) st1)
    by (eapply gtm_reaches_dispatch; eassumption).
  unfold try_except in R. rewrite D in R. split.
  - intros Hst.
    destruct (on_http_error_unauthorized E status text st2 Hst) as (k & Hk & Ht & Hv & Hu).
    rewrite Hk in R. rewrite R. repeat split; try assumption.
    apply ensure_service_reauthenticates. exact Hv.
  - intros H1 H3. rewrite (on_http_error_other E status text H1 H3) in R.
    split; [exact R|].
    pose proof (service_after_dispatch E tc (VStr op) args st1) as [Hv Ht].
    rewrite D in Hv, Ht. now split.
Qed.

Lemma C3_gtm_http_errors_witness :
  GTM.called_by_model (Stub.gtm (Ret None) (Ret "https://auth") (Stub.respond_status 403))
    Stub.confirmed (Stub.request "listAccounts" []) Stub.gtm_ready
  = (Ret (GTM.CROSS ++ " Google Tag Manager authentication error: 403" ++ NL ++ NL
            ++ "Please authorize at:" ++ NL ++ "https://auth" ++ NL ++ NL ++ "Then retry."),
     {| GTM.token_data := None; GTM.service := None; GTM.world := tt;
        GTM.log := [GTM.EvApi GTM.AccountsList; GTM.EvStartAuthFlow] |}).
Proof.
  assert (Hne : "listAccounts" <> "") by discriminate.
  refine (proj1 (proj2 (proj2 (proj1
    (C3_gtm_http_errors unit
       (Stub.gtm (Ret None) (Ret "https://auth") (Stub.respond_status 403))
       Stub.confirmed [("op", VStr "listAccounts"); ("args", VDict [])] "listAccounts"
       [] None Stub.gtm_ready Stub.gtm_ready
       {| GTM.token_data := Some Stub.token0; GTM.service := Some "ya29.stub";
          GTM.world := tt; GTM.log := [GTM.EvApi GTM.AccountsList] |}
       403%Z "denied" eq_refl Hne eq_refl eq_refl eq_refl eq_refl eq_refl eq_refl)
    (or_intror eq_refl)))) "https://auth" tt eq_refl).
Defined.

(** C2, as the code has it.  In the GA4-Enhanced dispatcher, an API error
    with HTTP status 401 or 403 that a handler raises is caught and
    returned as the string "Error: " followed by [str(e)], in the very
    state the handler failed in: the adapter asks the base integration for
    nothing more (no authorization prompt) and, holding no credential of
    its own, invalidates none. *)
Theorem C2_gae_errors_are_returned :
  forall (B : Type) (E : GAE.env B) (tc : toolcall) (mpa : dict) (op : string)
         (args : dict) (err : option string) (st : GAE.state B) (b1 : B)
         (status : Z) (text : string) (st2 : GAE.state B),
    dict_get mpa "op" (VStr "") = VStr op -> op <> "" ->
    contains "help" op = false -> contains "status" op = false ->
    GAE.sanitize_args E mpa = (args, err) -> has_error err = false ->
    GAE.base_ensure_services E (GAE.base st) = (Ret true, b1) ->
    status = 401%Z \/ status = 403%Z ->
    GAE.dispatch E (VStr op) args (GAE.asked st b1)
    = (Raise (HttpError status text), st2) ->
    GAE.called_by_model E tc (Some mpa) st
    = (Ret (GAE.CROSS ++ " Error: " ++ exn_str (GAE.rt E) (HttpError status text)),
       st2).
Proof.
  intros B E tc mpa op args err st b1 status text st2
         Hop Hne Hh Hs Hsan Herr Hauth _ D.
  rewrite (gae_reaches_dispatch E tc _ _ _ _ _ _ Hop Hne Hh Hs Hsan Herr Hauth).
  now apply gae_exception_is_returned.
Qed.

(** C2 as stated fails: a report call refused with status 401 comes back as
    an "Error:" string; the base integration's credential state is what it
    was, and the base is never asked for its authorization prompt. *)
Lemma C2_unauthorized_report_counterexample :
  GAE.called_by_model (Stub.gae (fun _ => Raise (HttpError 401 "unauthorized")))
    Stub.confirmed (Stub.request "getConversions" [("propertyId", VStr "1")]) Stub.gae_ready
  = (Ret (GAE.CROSS ++ " Error: unauthorized"),
     {| GAE.base := true;
        GAE.log := [GAE.EvEnsureServices;
                    GAE.EvGetReport
                      [("propertyId", VStr "1");
                       ("dateRange", VStr "last30days");
                       ("metrics", VList [VStr "conversions"; VStr "totalRevenue";
                                          VStr "sessions"]);
                       ("dimensions", VList [VStr "sessionSource"; VStr "sessionMedium"]);
                       ("orderBy", VDict [("metric", VStr "conversions");
                                          ("desc", VBool true)]);
                       ("limit", VInt 20)]] |})
  /\ String.eqb (GAE.CROSS ++ " Error: unauthorized") "Please authorize Google Analytics"
     = false.
Proof. split; vm_compute; reflexivity. Qed.

Lemma C2_gae_errors_witness :
  GAE.called_by_model (Stub.gae (fun _ => Raise (HttpError 403 "forbidden")))
    Stub.confirmed (Stub.request "listEvents" [("propertyId", VStr "1")]) Stub.gae_ready
  = (Ret (GAE.CROSS ++ " Error: forbidden"),
     {| GAE.base := true;
        GAE.log := [GAE.EvEnsureServices;
                    GAE.EvGetReport
                      [("propertyId", VStr "1");
                       ("dateRange", VStr "last7days");
                       ("metrics", VList [VStr "eventCount"; VStr "eventValue"]);
                       ("dimensions", VList [VStr "eventName"]);
                       ("orderBy", VDict [("metric", VStr "eventCount");
                                          ("desc", VBool true)]);
                       ("limit", VInt 50)]] |}).
Proof.
  assert (Hne : "listEvents" <> "") by discriminate.
  exact (C2_gae_errors_are_returned bool
           (Stub.gae (fun _ => Raise (HttpError 403 "forbidden"))) Stub.confirmed
           [("op", VStr "listEvents"); ("args", VDict [("propertyId", VStr "1")])]
           "listEvents" [("propertyId", VStr "1")] None Stub.gae_ready true
           403%Z "forbidden" _
           eq_refl Hne eq_refl eq_refl eq_refl eq_refl eq_refl
           (or_intror eq_refl) eq_refl).
Defined.



(** C9.  [linkGA4], confirmed, given its required parameters, with the
    workspace resolved and the trigger listing answered: if no trigger of the
    workspace has type "pageview", it returns the "Could not find" string and
    sends no tag-creation request; the tag-creation request it sends when the
    first pageview trigger carries an ID names exactly that ID as its firing
    trigger; and a run that sends a tag-creation request had a pageview
    trigger to go by. *)
Theorem C9_link_ga4_needs_pageview_trigger :
  forall (W : Type) (E : GTM.env W) (tc : toolcall) (args : dict)
         (st : GTM.state W) (wid : value) (st1 : GTM.state W) (svc : string)
         (triggers : dict) (w2 : W) (ts : list dict),
    confirmed_by_human tc = true ->
    GTM.all_given args ["accountId"; "containerId"; "measurementId"] = true ->
    let a := dict_get args "accountId" (VStr "") in
    let c := dict_get args "containerId" (VStr "") in
    let m := dict_get args "measurementId" (VStr "") in
    GTM.resolve_workspace E a c (dict_get args "workspaceId" (VStr "")) st = (Ret wid, st1) ->
    GTM.service st1 = Some svc ->
    GTM.execute E svc (GTM.TriggersList (GTM.workspace_path E a c wid)) (GTM.world st1)
    = (Ret triggers, w2) ->
    dict_get triggers "trigger" (VList []) = VList (map VDict ts) ->
    let listed :=
      {| GTM.token_data := GTM.token_data st1; GTM.service := GTM.service st1;
         GTM.world := w2;
         GTM.log := (GTM.log st1
                       ++ [GTM.EvApi (GTM.TriggersList (GTM.workspace_path E a c wid))])%list |} in
    let run := GTM._link_ga4 E tc args st in
    (forallb (fun t => negb (GTM.is_pageview t)) ts = true ->
       run = (Ret (GTM.CROSS
                     ++ " Could not find 'All Pages' trigger. Create a pageview trigger first."),
              listed)
       /\ GTM.quiet GTM.is_tags_create st (snd run))
    /\ (forall before t after,
          ts = (before ++ t :: after)%list ->
          forallb (fun t => negb (GTM.is_pageview t)) before = true ->
          GTM.is_pageview t = true ->
          truthy (dict_get t "triggerId" VNone) = true ->
          GTM.log (snd run)
          = (GTM.log listed
               ++ [GTM.EvApi (GTM.TagsCreate (GTM.workspace_path E a c wid)
                                (GTM.ga4_tag_body m (dict_get t "triggerId" VNone)))])%list
          /\ dict_get (GTM.ga4_tag_body m (dict_get t "triggerId" VNone))
               "firingTriggerId" VNone
             = VList [dict_get t "triggerId" VNone])
    /\ (existsb GTM.is_pageview ts = true \/ GTM.quiet GTM.is_tags_create st (snd run)).
Proof.
  intros W E tc args st wid st1 svc triggers w2 ts Hc Hg a c m Hr Hs X D listed run.
  assert (Q1 : GTM.quiet GTM.is_tags_create st listed).
  { pose proof (quiet_resolve_workspace E GTM.is_tags_create a c
                  (dict_get args "workspaceId" (VStr "")) (fun _ => eq_refl) st) as Q.
    rewrite Hr in Q. destruct Q as (added & HL & F). simpl in HL.
    exists (added ++ [GTM.EvApi (GTM.TriggersList (GTM.workspace_path E a c wid))])%list.
    subst listed. cbn [GTM.log]. rewrite HL, app_assoc. split; [reflexivity|].
    rewrite filter_app, F. reflexivity. }
  assert (None_case : forallb (fun t => negb (GTM.is_pageview t)) ts = true ->
            run = (Ret (GTM.CROSS
                     ++ " Could not find 'All Pages' trigger. Create a pageview trigger first."),
                   listed)).
  { intros Hn. subst run.
    rewrite (link_ga4_after_listing E tc args st wid st1 svc triggers w2 ts
               Hc Hg Hr Hs X D VNone (find_pageview_none ts Hn)).
    reflexivity. }
  split; [|split].
  - intros Hn. split; [exact (None_case Hn)|]. rewrite (None_case Hn). exact Q1.
  - intros before t after -> Hb Ht Hid. split; [|reflexivity]. subst run.
    rewrite (link_ga4_after_listing E tc args st wid st1 svc triggers w2 _
               Hc Hg Hr Hs X D _ (find_pageview_first before t after Hb Ht)).
    rewrite Hid. cbn [negb]. unfold bind, GTM.api. cbn [GTM.service]. rewrite Hs.
    unfold GTM.call. cbn [GTM.world].
    match goal with
    | |- context [GTM.execute E svc ?rq ?wd] =>
        destruct (GTM.execute E svc rq wd) as [[tag|e] w3]
    end; reflexivity.
  - destruct (existsb GTM.is_pageview ts) eqn:Ex; [left; reflexivity | right].
    assert (Hn : forallb (fun t => negb (GTM.is_pageview t)) ts = true).
    { clear -Ex. induction ts as [|t ts IH]; [reflexivity|]. simpl in *.
      apply orb_false_elim in Ex. destruct Ex as [-> Ex]. simpl. auto. }
    rewrite (None_case Hn). exact Q1.
Qed.

Lemma C9_link_ga4_witness :
  GTM._link_ga4
    (Stub.gtm (Ret None) (Ret "https://auth")
       (Stub.respond_triggers [VDict [("type", VStr "click"); ("triggerId", VStr "3")]]))
    Stub.confirmed
    [("accountId", VStr "1"); ("containerId", VStr "2"); ("measurementId", VStr "G-1")]
    Stub.gtm_ready
  = (Ret (GTM.CROSS ++ " Could not find 'All Pages' trigger. Create a pageview trigger first."),
     {| GTM.token_data := Some Stub.token0; GTM.service := Some "ya29.stub";
        GTM.world := tt;
        GTM.log := [GTM.EvApi (GTM.WorkspacesList "accounts/1/containers/2");
                    GTM.EvApi (GTM.TriggersList "accounts/1/containers/2/workspaces/7")] |}).
Proof.
  exact (proj1 (proj1 (C9_link_ga4_needs_pageview_trigger unit
           (Stub.gtm (Ret None) (Ret "https://auth")
              (Stub.respond_triggers [VDict [("type", VStr "click"); ("triggerId", VStr "3")]]))
           Stub.confirmed
           [("accountId", VStr "1"); ("containerId", VStr "2"); ("measurementId", VStr "G-1")]
           Stub.gtm_ready (VStr "7")
           {| GTM.token_data := Some Stub.token0; GTM.service := Some "ya29.stub";
              GTM.world := tt;
              GTM.log := [GTM.EvApi (GTM.WorkspacesList "accounts/1/containers/2")] |}
           "ya29.stub"
           [("trigger", VList [VDict [("type", VStr "click"); ("triggerId", VStr "3")]])]
           tt [[("type", VStr "click"); ("triggerId", VStr "3")]]
           eq_refl eq_refl eq_refl eq_refl eq_refl eq_refl) eq_refl)).
Defined.



(** C10.  [getEventConfig], given a propertyId and a non-empty event name,
    the base report having returned [result]: it reports the event as
    tracked exactly when the name occurs in [result] as a substring,
    anywhere, and as not found otherwise. *)
Theorem C10_event_config_substring_test :
  forall (B : Type) (E : GAE.env B) (args : dict) (name result : string)
         (st : GAE.state B) (b' : B),
    truthy (dict_get args "propertyId" (VStr "")) = true ->
    dict_get args "eventName" (VStr "") = VStr name -> name <> "" ->
    GAE.base_get_report E
      (GAE.event_config_base_args (dict_get args "propertyId" (VStr ""))) (GAE.base st)
    = (Ret result, b') ->
    let after :=
      {| GAE.base := b';
         GAE.log := (GAE.log st
                       ++ [GAE.EvGetReport
                             (GAE.event_config_base_args
                                (dict_get args "propertyId" (VStr "")))])%list |} in
    ((exists pre post, result = pre ++ name ++ post) ->
       GAE._get_event_config E args st
       = (Ret (GAE.CHECK ++ " Event '" ++ name ++ "' is being tracked." ++ NL ++ NL ++ result),
          after))
    /\ ((~ exists pre post, result = pre ++ name ++ post) ->
          GAE._get_event_config E args st
          = (Ret (GAE.WARN ++ " Event '" ++ name
                    ++ "' not found in recent data. It may not be tracked yet or has no data in the last 7 days."),
             after)).
Proof.
  intros B E args name result st b' Hp He Hne Hrep after.
  pose proof (get_event_config_runs E args name result st b' Hp He Hne Hrep) as R.
  split; intros H.
  - apply contains_iff in H. now rewrite H in R.
  - apply contains_false_iff in H. now rewrite H in R.
Qed.

(** An event named "view" is reported as tracked on the strength of
    "page_view" alone. *)
Lemma C10_view_in_page_view_witness :
  GAE._get_event_config (Stub.gae (fun _ => Ret "page_view  1204"))
    [("propertyId", VStr "1"); ("eventName", VStr "view")] Stub.gae_ready
  = (Ret (GAE.CHECK ++ " Event 'view' is being tracked." ++ NL ++ NL ++ "page_view  1204"),
     {| GAE.base := true;
        GAE.log := [GAE.EvGetReport (GAE.event_config_base_args (VStr "1"))] |}).
Proof.
  assert (Hne : "view" <> "") by discriminate.
  exact (proj1 (C10_event_config_substring_test bool
                  (Stub.gae (fun _ => Ret "page_view  1204"))
                  [("propertyId", VStr "1"); ("eventName", VStr "view")]
                  "view" "page_view  1204" Stub.gae_ready true
                  eq_refl eq_refl Hne eq_refl)
               (ex_intro _ "page_" (ex_intro _ "  1204" eq_refl))).
Defined.

(** ** Further properties of the GTM adapter *)

(** *** Authentication *)

Section GtmAuthentication.
Context {W : Type} (E : GTM.env W).

Lemma ensure_service_uncached st :
  GTM.service st = None \/ GTM.token_data st = None ->
  GTM._ensure_service E st = GTM.refresh_service E st.
Proof.
  intros [H|H]; unfold GTM._ensure_service; rewrite H;
    [reflexivity | now destruct (GTM.service st)].
Qed.

Lemma refresh_service_true st st1 :
  GTM.refresh_service E st = (Ret true, st1) ->
  exists tok,
    GTM.token_data st1 = Some tok /\ GTM.service st1 = Some (GTM.access_token tok).
Proof.
  unfold GTM.refresh_service, GTM.fetch_token, try_except, bind, GTM.call,
    GTM.set_token_data, GTM.set_service, ret; simpl.
  destruct (GTM.get_external_auth_token E (GTM.world st)) as [[[tok|]|e] w1]; simpl.
  - destruct (GTM.build E (GTM.access_token tok) w1) as [[[]|e] w2]; simpl;
      intros [= <-]. exists tok. now split.
  - intros [=].
  - destruct e; simpl; intros [=].
Qed.

(** X1.  Whenever [_ensure_service] answers [True], a token and a service
    are cached, so every request a handler then builds is really sent: the
    attribute access on [self.service] cannot fail for want of a service. *)
Theorem ensure_service_true_has_service :
  forall st st1,
    GTM._ensure_service E st = (Ret true, st1) ->
    exists tok svc,
      GTM.token_data st1 = Some tok /\ GTM.service st1 = Some svc
      /\ forall c,
           GTM.api E c st1
           = (fst (GTM.execute E svc c (GTM.world st1)),
              GTM.logged st1 (GTM.EvApi c) (snd (GTM.execute E svc c (GTM.world st1)))).
Proof.
  intros st st1 H.
  assert (Hc : exists tok svc, GTM.token_data st1 = Some tok /\ GTM.service st1 = Some svc).
  { unfold GTM._ensure_service in H.
    destruct (GTM.service st) as [s|] eqn:Hs; [destruct (GTM.token_data st) as [tok|] eqn:Ht|].
    - unfold bind, GTM.now in H. destruct (GTM.time_time E (GTM.world st)) as [t w].
      destruct (Z.ltb t (GTM.expires_at tok - 60)).
      + injection H as <-. exists tok, s. now split.
      + apply refresh_service_true in H. destruct H as (tok' & H1 & H2). eauto.
    - apply refresh_service_true in H. destruct H as (tok' & H1 & H2). eauto.
    - apply refresh_service_true in H. destruct H as (tok' & H1 & H2). eauto. }
  destruct Hc as (tok & svc & Ht & Hs). exists tok, svc. repeat split; try assumption.
  intros c. unfold GTM.api. rewrite Hs. unfold GTM.call, GTM.logged.
  now destruct (GTM.execute E svc c (GTM.world st1)).
Qed.

Lemma refresh_logs_fetch st :
  exists later,
    GTM.log (snd (GTM.refresh_service E st)) = (GTM.log st ++ GTM.EvGetToken :: later)%list.
Proof.
  unfold GTM.refresh_service, GTM.fetch_token.
  unfold try_except, bind, GTM.call, GTM.set_token_data, GTM.set_service, ret; simpl.
  destruct (GTM.get_external_auth_token E (GTM.world st)) as [[[tok|]|e] w1]; simpl.
  - destruct (GTM.build E (GTM.access_token tok) w1) as [[[]|e] w2]; simpl;
      eexists; rewrite <- app_assoc; reflexivity.
  - exists []. reflexivity.
  - exists []. destruct e; reflexivity.
Qed.

(** X2.  The cache has a margin of sixty seconds: with a service and a
    token cached, a clock reading below [expires_at - 60] answers [True]
    without a word to the OAuth helper and leaves token and service as they
    are; at or past that mark the token is fetched again. *)
Theorem ensure_service_sixty_second_margin :
  forall st svc tok t w,
    GTM.service st = Some svc -> GTM.token_data st = Some tok ->
    GTM.time_time E (GTM.world st) = (t, w) ->
    ((t < GTM.expires_at tok - 60)%Z ->
       GTM._ensure_service E st
       = (Ret true, {| GTM.token_data := Some tok; GTM.service := Some svc;
                       GTM.world := w; GTM.log := GTM.log st |}))
    /\ ((GTM.expires_at tok - 60 <= t)%Z ->
          exists later,
            GTM.log (snd (GTM._ensure_service E st))
            = (GTM.log st ++ GTM.EvGetToken :: later)%list).
Proof.
  intros st svc tok t w Hs Ht Hc. unfold GTM._ensure_service. rewrite Hs, Ht.
  unfold bind, GTM.now. rewrite Hc, Hs, Ht. split; intros H.
  - apply Z.ltb_lt in H. now rewrite H.
  - apply Z.ltb_ge in H. rewrite H.
    match goal with
    | |- context [GTM.refresh_service E ?s] => destruct (refresh_logs_fetch s) as [l Hl]
    end.
    exists l. exact Hl.
Qed.


(** X3.  A fetch that fails is an answer, not an error: on an instance
    without a cached service, [TransportQueryError] from the OAuth helper
    makes [_ensure_service] answer [False] with token and service untouched,
    and a helper that has no token makes it answer [False] with the cached
    token dropped; in both cases nothing is built and only the fetch is
    logged.  Any other exception of the helper propagates. *)
Theorem ensure_service_failed_fetch :
  forall st,
    GTM.service st = None ->
    (forall text w,
        GTM.get_external_auth_token E (GTM.world st) = (Raise (TransportQueryError text), w) ->
        GTM._ensure_service E st = (Ret false, GTM.logged st GTM.EvGetToken w))
    /\ (forall w,
          GTM.get_external_auth_token E (GTM.world st) = (Ret None, w) ->
          GTM._ensure_service E st
          = (Ret false, {| GTM.token_data := None; GTM.service := None; GTM.world := w;
                           GTM.log := (GTM.log st ++ [GTM.EvGetToken])%list |}))
    /\ (forall e w,
          GTM.get_external_auth_token E (GTM.world st) = (Raise e, w) ->
          (forall text, e <> TransportQueryError text) ->
          GTM._ensure_service E st = (Raise e, GTM.logged st GTM.EvGetToken w)).
Proof.
  intros st Hs. rewrite (ensure_service_uncached st (or_introl Hs)).
  unfold GTM.refresh_service, GTM.fetch_token, try_except, bind, GTM.call,
    GTM.set_token_data, ret, GTM.logged.
  repeat split.
  - intros text w ->. reflexivity.
  - intros w ->. simpl. now rewrite Hs.
  - intros e w -> Hne. destruct e; try reflexivity. now destruct (Hne text).
Qed.


End GtmAuthentication.

Lemma ensure_service_margin_witness :
  GTM._ensure_service (Stub.gtm_at 3939 (Ret None)) Stub.gtm_ready = (Ret true, Stub.gtm_ready)
  /\ exists later,
       GTM.log (snd (GTM._ensure_service (Stub.gtm_at 3940 (Ret None)) Stub.gtm_ready))
       = GTM.EvGetToken :: later.
Proof.
  split.
  - apply (proj1 (ensure_service_sixty_second_margin (Stub.gtm_at 3939 (Ret None)) Stub.gtm_ready "ya29.stub" Stub.token0
                    3939%Z tt eq_refl eq_refl eq_refl)).
    reflexivity.
  - exists []. reflexivity.
Defined.

Lemma ensure_service_failed_fetch_witness :
  GTM._ensure_service
    (Stub.gtm (Raise (TransportQueryError "gateway down")) (Ret "https://auth")
       (Stub.respond_triggers []))
    (GTM.init tt)
  = (Ret false, {| GTM.token_data := None; GTM.service := None; GTM.world := tt;
                   GTM.log := [GTM.EvGetToken] |}).
Proof.
  exact (proj1 (ensure_service_failed_fetch
                  (Stub.gtm (Raise (TransportQueryError "gateway down")) (Ret "https://auth")
                     (Stub.respond_triggers []))
                  (GTM.init tt) eq_refl)
               "gateway down" tt eq_refl).
Defined.

Lemma ensure_service_true_witness :
  exists tok svc,
    GTM.token_data Stub.gtm_ready = Some tok /\ GTM.service Stub.gtm_ready = Some svc
    /\ forall c,
         GTM.api (Stub.gtm_at 0 (Ret None)) c Stub.gtm_ready
         = (fst (GTM.execute (Stub.gtm_at 0 (Ret None)) svc c (GTM.world Stub.gtm_ready)),
            GTM.logged Stub.gtm_ready (GTM.EvApi c)
              (snd (GTM.execute (Stub.gtm_at 0 (Ret None)) svc c (GTM.world Stub.gtm_ready)))).
Proof.
  exact (ensure_service_true_has_service (Stub.gtm_at 0 (Ret None))
           Stub.gtm_ready Stub.gtm_ready eq_refl).
Defined.

(** *** The dispatcher before the handlers *)

Section GtmFrontDoor.
Context {W : Type} (E : GTM.env W).

Local Opaque GTM.HELP.

(** X4.  A call that is not authenticated never reaches its handler: for an
    operation string asking for neither help nor status, when
    [_ensure_service] answers [False] the dispatcher starts the
    authorization flow and returns the prompt with the URL it got, or, the
    flow failing with [TransportQueryError], the "Failed to initiate OAuth"
    string; either way it returns, and the flow is all that is sent. *)
Theorem unauthenticated_call_gets_prompt :
  forall tc mpa op args err st st1,
    dict_get mpa "op" (VStr "") = VStr op -> op <> "" ->
    contains "help" op = false -> contains "status" op = false ->
    GTM.sanitize_args E mpa = (args, err) -> has_error err = false ->
    GTM._ensure_service E st = (Ret false, st1) ->
    (forall auth_url w,
        GTM.start_external_auth_flow E (GTM.world st1) = (Ret auth_url, w) ->
        GTM.called_by_model E tc (Some mpa) st
        = (Ret (GTM.CROSS ++ " Not authenticated. Ask user to authorize at:" ++ NL
                  ++ auth_url ++ NL ++ NL ++ "Then retry this operation."),
           GTM.logged st1 GTM.EvStartAuthFlow w))
    /\ (forall text w,
          GTM.start_external_auth_flow E (GTM.world st1)
          = (Raise (TransportQueryError text), w) ->
          GTM.called_by_model E tc (Some mpa) st
          = (Ret (GTM.CROSS ++ " Failed to initiate OAuth: " ++ text),
             GTM.logged st1 GTM.EvStartAuthFlow w)).
Proof.
  intros tc mpa op args err st st1 Hop Hne Hh Hs Hsan Herr Hauth.
  assert (R : GTM.called_by_model E tc (Some mpa) st = GTM.authorization_prompt E st1).
  { rewrite (gtm_nonempty_call E _ _ _ Hop Hne), Hsan, Herr.
    unfold GTM.serve. rewrite !empty_or_contains_str, Hh, Hs by assumption.
    unfold lift at 1 2. unfold bind at 1 2.
    now rewrite (bind_Ret _ _ _ _ _ Hauth). }
  rewrite R. unfold GTM.authorization_prompt, try_except, bind, GTM.call, GTM.logged.
  split; intros x w ->; reflexivity.
Qed.

(** X5.  An operation string that contains "status", or no operation at all
    beside other arguments, gets the status report and nothing else: when
    authenticated, the report alone, with nothing sent after the
    authentication check; when not, the report followed by the
    authorization URL, or by the "Error initiating OAuth" line when the
    flow fails with [TransportQueryError].  No handler runs. *)
Theorem status_operation_reports :
  forall tc mpa op args err st (authenticated : bool) st1,
    mpa <> [] ->
    dict_get mpa "op" (VStr "") = VStr op ->
    op = "" \/ contains "status" op = true ->
    GTM.sanitize_args E mpa = (args, err) -> has_error err = false ->
    GTM._ensure_service E st = (Ret authenticated, st1) ->
    (authenticated = true ->
       GTM.called_by_model E tc (Some mpa) st = (Ret (GTM.status_head E true), st1))
    /\ (authenticated = false ->
        (forall auth_url w,
            GTM.start_external_auth_flow E (GTM.world st1) = (Ret auth_url, w) ->
            GTM.called_by_model E tc (Some mpa) st
            = (Ret (GTM.status_head E false ++ NL ++ GTM.CROSS
                      ++ " Not authenticated. Ask user to authorize at:" ++ NL
                      ++ auth_url ++ NL),
               GTM.logged st1 GTM.EvStartAuthFlow w))
        /\ (forall text w,
              GTM.start_external_auth_flow E (GTM.world st1)
              = (Raise (TransportQueryError text), w) ->
              GTM.called_by_model E tc (Some mpa) st
              = (Ret (GTM.status_head E false ++ NL ++ GTM.CROSS
                        ++ " Error initiating OAuth: " ++ text ++ NL),
                 GTM.logged st1 GTM.EvStartAuthFlow w))).
Proof.
  intros tc mpa op args err st authenticated st1 Hm Hop Hst Hsan Herr Hauth.
  assert (R : GTM.called_by_model E tc (Some mpa) st
              = GTM.status_report E authenticated st1).
  { destruct mpa as [|kv mpa]; [contradiction|].
    unfold GTM.called_by_model. rewrite Hop, Hsan, Herr. unfold GTM.serve.
    assert (Hps : empty_or_contains "status" (VStr op) = Ret true).
    { destruct Hst as [-> | Hc]; [reflexivity|].
      rewrite empty_or_contains_str; [now rewrite Hc|].
      intros ->. discriminate Hc. }
    assert (Hph : exists b, empty_or_contains "help" (VStr op) = Ret b).
    { unfold empty_or_contains. destruct (negb (truthy (VStr op))); simpl; eauto. }
    destruct Hph as [b Hph]. rewrite Hph, Hps.
    unfold lift at 1 2. unfold bind at 1 2.
    now rewrite (bind_Ret _ _ _ _ _ Hauth). }
  rewrite R. split.
  - intros ->. reflexivity.
  - intros ->. unfold GTM.status_report, try_except, bind, GTM.call, GTM.logged.
    cbn [negb]. split; intros x w ->; reflexivity.
Qed.

Lemma gtm_sanitizer_error tc mpa args err st :
  mpa <> [] -> GTM.sanitize_args E mpa = (args, Some err) -> err <> "" ->
  GTM.called_by_model E tc (Some mpa) st = (Ret err, st).
Proof.
  intros Hm Hsan Hne. destruct mpa as [|kv mpa]; [contradiction|].
  unfold GTM.called_by_model. rewrite Hsan. simpl.
  destruct (String.eqb_spec err ""); [contradiction | reflexivity].
Qed.

End GtmFrontDoor.

Lemma gae_sanitizer_error {B} (E : GAE.env B) tc mpa args err st :
  mpa <> [] -> GAE.sanitize_args E mpa = (args, Some err) -> err <> "" ->
  GAE.called_by_model E tc (Some mpa) st = (Ret err, st).
Proof.
  intros Hm Hsan Hne. destruct mpa as [|kv mpa]; [contradiction|].
  unfold GAE.called_by_model. rewrite Hsan. simpl.
  destruct (String.eqb_spec err ""); [contradiction | reflexivity].
Qed.

(** X6.  In both adapters, an argument object the sanitizer objects to is
    answered with the sanitizer's message, whatever the operation (help and
    status included), and the instance is left exactly as it was: no
    authentication is attempted and nothing is sent. *)
Theorem sanitizer_error_is_returned_first :
  forall (W B : Type) (G : GTM.env W) (A : GAE.env B) tc mpa err,
    mpa <> [] -> err <> "" ->
    (forall args gst,
        GTM.sanitize_args G mpa = (args, Some err) ->
        GTM.called_by_model G tc (Some mpa) gst = (Ret err, gst))
    /\ (forall args ast,
          GAE.sanitize_args A mpa = (args, Some err) ->
          GAE.called_by_model A tc (Some mpa) ast = (Ret err, ast)).
Proof.
  intros W B G A tc mpa err Hm Hne. split; intros.
  - eapply gtm_sanitizer_error; eassumption.
  - eapply gae_sanitizer_error; eassumption.
Qed.

Lemma unauthenticated_call_witness :
  GTM.called_by_model
    (Stub.gtm (Ret None) (Raise (TransportQueryError "gateway down")) (Stub.respond_triggers []))
    Stub.confirmed (Stub.request "listAccounts" []) (GTM.init tt)
  = (Ret (GTM.CROSS ++ " Failed to initiate OAuth: gateway down"),
     {| GTM.token_data := None; GTM.service := None; GTM.world := tt;
        GTM.log := [GTM.EvGetToken; GTM.EvStartAuthFlow] |}).
Proof.
  assert (Hne : "listAccounts" <> "") by discriminate.
  exact (proj2 (unauthenticated_call_gets_prompt
                  (Stub.gtm (Ret None) (Raise (TransportQueryError "gateway down"))
                     (Stub.respond_triggers []))
                  Stub.confirmed [("op", VStr "listAccounts"); ("args", VDict [])]
                  "listAccounts" [] None (GTM.init tt)
                  {| GTM.token_data := None; GTM.service := None; GTM.world := tt;
                     GTM.log := [GTM.EvGetToken] |}
                  eq_refl Hne eq_refl eq_refl eq_refl eq_refl eq_refl)
               "gateway down" tt eq_refl).
Defined.

Lemma status_operation_witness :
  GTM.called_by_model
    (Stub.gtm (Ret None) (Ret "https://auth") (Stub.respond_triggers []))
    Stub.unconfirmed (Some [("args", VDict [("accountId", VStr "1")])]) (GTM.init tt)
  = (Ret (GTM.status_head (Stub.gtm (Ret None) (Ret "https://auth") (Stub.respond_triggers []))
            false
            ++ NL ++ GTM.CROSS ++ " Not authenticated. Ask user to authorize at:" ++ NL
            ++ "https://auth" ++ NL),
     {| GTM.token_data := None; GTM.service := None; GTM.world := tt;
        GTM.log := [GTM.EvGetToken; GTM.EvStartAuthFlow] |}).
Proof.
  assert (Hm : [("args", VDict [("accountId", VStr "1")])] <> []) by discriminate.
  exact (proj1 (proj2 (status_operation_reports
                  (Stub.gtm (Ret None) (Ret "https://auth") (Stub.respond_triggers []))
                  Stub.unconfirmed [("args", VDict [("accountId", VStr "1")])]
                  "" [("accountId", VStr "1")] None (GTM.init tt) false
                  {| GTM.token_data := None; GTM.service := None; GTM.world := tt;
                     GTM.log := [GTM.EvGetToken] |}
                  Hm eq_refl (or_introl eq_refl) eq_refl eq_refl eq_refl) eq_refl)
               "https://auth" tt eq_refl).
Defined.

Lemma sanitizer_error_witness :
  GTM.called_by_model Stub.gtm_rejecting Stub.confirmed (Stub.request "help" [])
    (GTM.init tt)
  = (Ret "args must be an object", GTM.init tt)
  /\ GAE.called_by_model Stub.gae_rejecting Stub.confirmed (Stub.request "status" [])
       Stub.gae_ready
     = (Ret "args must be an object", Stub.gae_ready).
Proof.
  assert (Hm : [("op", VStr "help"); ("args", VDict [])] <> []) by discriminate.
  assert (Hs : [("op", VStr "status"); ("args", VDict [])] <> []) by discriminate.
  assert (He : "args must be an object" <> "") by discriminate.
  split.
  - exact (proj1 (sanitizer_error_is_returned_first unit bool Stub.gtm_rejecting
                    Stub.gae_rejecting Stub.confirmed _ _ Hm He) [] (GTM.init tt) eq_refl).
  - exact (proj2 (sanitizer_error_is_returned_first unit bool Stub.gtm_rejecting
                    Stub.gae_rejecting Stub.confirmed _ _ Hs He) [] Stub.gae_ready eq_refl).
Defined.

(** *** Validation, and what is never sent *)

Section GtmValidation.
Context {W : Type} (E : GTM.env W).

Ltac unfold_all_handlers :=
  unfold GTM._list_accounts, GTM._list_containers, GTM._get_container,
    GTM._create_container, GTM._list_tags, GTM._list_triggers, GTM._list_variables,
    GTM.list_items, GTM._create_tag, GTM._create_trigger, GTM._create_variable,
    GTM._create_version, GTM._publish_version, GTM._link_ga4.

(** X7.  Every GTM handler checks its required parameters before it sends
    anything: a call (confirmed, where the operation is a mutating one) that
    lacks one of them, or gives it empty, is answered with the operation's
    "Missing required parameter" string, and the instance is left exactly as
    it was. *)
Theorem missing_parameter_is_refused :
  forall tc op required message args st,
    In (op, (required, message)) GTM.validation ->
    confirmed_by_human tc = true \/ ~ In op GTM.mutating_operations ->
    GTM.all_given args required = false ->
    GTM.dispatch E tc (VStr op) args st = (Ret (GTM.CROSS ++ message), st).
Proof.
  intros tc op required message args st Hin Hconf Hg. simpl in Hin.
  repeat destruct Hin as [Hin|Hin]; try contradiction; injection Hin as <- <- <-;
    cbv [GTM.all_given forallb] in Hg;
    cbv [GTM.dispatch eq_str String.eqb Ascii.eqb Bool.eqb];
    unfold_all_handlers;
    try (rewrite gate_open
           by (destruct Hconf as [Hc|Hn];
               [exact Hc | exfalso; apply Hn; simpl; tauto]));
    cbv zeta; revert Hg;
    repeat match goal with
           | |- context [truthy (dict_get args ?k ?d)] =>
               destruct (truthy (dict_get args k d))
           end;
    cbn [negb orb andb]; intros Hg; try discriminate Hg; reflexivity.
Qed.

(** X8.  [getContainer] turns a 404 from the API into an answer of its own,
    the "Container not found" string, and so keeps it from the dispatcher's
    error handling; an HTTP error with any other status leaves the handler
    as the exception it was. *)
Theorem get_container_not_found :
  forall args st svc status text w,
    truthy (dict_get args "accountId" (VStr "")) = true ->
    truthy (dict_get args "containerId" (VStr "")) = true ->
    GTM.service st = Some svc ->
    let a := dict_get args "accountId" (VStr "") in
    let c := dict_get args "containerId" (VStr "") in
    let request := GTM.ContainersGet (GTM.container_path E a c) in
    GTM.execute E svc request (GTM.world st) = (Raise (HttpError status text), w) ->
    (status = 404%Z ->
       GTM._get_container E args st
       = (Ret (GTM.CROSS ++ " Container not found: " ++ GTM.fmt E a ++ "/" ++ GTM.fmt E c),
          GTM.logged st (GTM.EvApi request) w))
    /\ (status <> 404%Z ->
          GTM._get_container E args st
          = (Raise (HttpError status text), GTM.logged st (GTM.EvApi request) w)).
Proof.
  intros args st svc status text w Ha Hc Hs a c request X.
  assert (Hapi : GTM.api E request st
                 = (Raise (HttpError status text), GTM.logged st (GTM.EvApi request) w)).
  { unfold GTM.api. rewrite Hs. unfold GTM.call. now rewrite X. }
  unfold GTM._get_container. cbv zeta. rewrite Ha, Hc. cbn [negb orb].
  unfold try_except. fold a c request.
  rewrite (bind_Raise (GTM.api E request) _ st _ _ Hapi). split.
  - intros ->. reflexivity.
  - intros Hne. destruct status as [|p|p]; try reflexivity.
    repeat (destruct p as [p|p|]; try reflexivity; try (now elim Hne)).
Qed.

End GtmValidation.

Lemma missing_parameter_witness :
  GTM.dispatch (Stub.gtm (Ret None) (Ret "https://auth") (Stub.respond_triggers []))
    Stub.confirmed (VStr "createTag")
    [("accountId", VStr "1"); ("containerId", VStr "2"); ("tagName", VStr "")]
    Stub.gtm_ready
  = (Ret (GTM.CROSS
            ++ " Missing required parameters: 'accountId', 'containerId', 'tagName', 'tagType'"),
     Stub.gtm_ready).
Proof.
  apply (missing_parameter_is_refused
           (Stub.gtm (Ret None) (Ret "https://auth") (Stub.respond_triggers []))
           Stub.confirmed "createTag" ["accountId"; "containerId"; "tagName"; "tagType"]).
  - simpl. tauto.
  - left. reflexivity.
  - reflexivity.
Defined.

Lemma get_container_not_found_witness :
  GTM._get_container (Stub.gtm (Ret None) (Ret "https://auth") (Stub.respond_status 404))
    [("accountId", VStr "1"); ("containerId", VStr "2")] Stub.gtm_ready
  = (Ret (GTM.CROSS ++ " Container not found: 1/2"),
     {| GTM.token_data := Some Stub.token0; GTM.service := Some "ya29.stub";
        GTM.world := tt;
        GTM.log := [GTM.EvApi (GTM.ContainersGet "accounts/1/containers/2")] |}).
Proof.
  exact (proj1 (get_container_not_found
                  (Stub.gtm (Ret None) (Ret "https://auth") (Stub.respond_status 404))
                  [("accountId", VStr "1"); ("containerId", VStr "2")] Stub.gtm_ready
                  "ya29.stub" 404%Z "denied" tt eq_refl eq_refl eq_refl eq_refl) eq_refl).
Defined.

(** *** The hard gate, as an invariant of the log *)

Section GtmNeverSent.
Context {W : Type} (E : GTM.env W).

Lemma preserves_bind_raise {S A B} (R : S -> S -> Prop) `{!PreOrder R}
    (e : exn) (k : A -> M S B) :
  preserves R (bind (raise e) k).
Proof. intros st. reflexivity. Qed.

Lemma filter_nil_weaken {A} (p q : A -> bool) (l : list A) :
  (forall x, q x = true -> p x = true) -> filter p l = [] -> filter q l = [].
Proof.
  intros Hpq. induction l as [|x l IH]; simpl; [reflexivity|].
  destruct (p x) eqn:Px; [discriminate|]. intros H.
  destruct (q x) eqn:Qx; [apply Hpq in Qx; congruence | auto].
Qed.

Lemma quiet_weaken p q (m : M (GTM.state W) string) :
  (forall ev, q ev = true -> p ev = true) ->
  preserves (@GTM.quiet W p) m -> preserves (@GTM.quiet W q) m.
Proof.
  intros Hpq Hm st. destruct (Hm st) as (added & HL & F).
  exists added. split; [exact HL | eapply filter_nil_weaken; eassumption].
Qed.

Lemma quiet_weaken_bool p q (m : M (GTM.state W) bool) :
  (forall ev, q ev = true -> p ev = true) ->
  preserves (@GTM.quiet W p) m -> preserves (@GTM.quiet W q) m.
Proof.
  intros Hpq Hm st. destruct (Hm st) as (added & HL & F).
  exists added. split; [exact HL | eapply filter_nil_weaken; eassumption].
Qed.

Lemma mutating_is_api ev : GTM.is_mutating_request ev = true -> GTM.is_api ev = true.
Proof. destruct ev as [| | |c]; try discriminate. reflexivity. Qed.

Ltac unfold_every_handler :=
  unfold GTM.dispatch, GTM._list_accounts, GTM._list_containers, GTM._get_container,
    GTM._create_container, GTM._list_tags, GTM._list_triggers, GTM._list_variables,
    GTM.list_items, GTM._create_tag, GTM._create_trigger, GTM._create_variable,
    GTM._create_version, GTM._publish_version, GTM._link_ga4,
    GTM.resolve_workspace, GTM.require_confirmation.

Lemma dispatch_unconfirmed_never_mutates tc op args :
  confirmed_by_human tc = false ->
  preserves (@GTM.quiet W GTM.is_mutating_request) (GTM.dispatch E tc op args).
Proof.
  intros Hc. unfold_every_handler. rewrite Hc. cbv beta iota zeta.
  repeat first [ apply preserves_bind_raise; exact _
               | apply (quiet_api E); reflexivity
               | preserve_step ].
Qed.

Lemma dispatch_read_only_never_mutates tc op args :
  forallb (fun m => negb (eq_str op m)) GTM.mutating_operations = true ->
  preserves (@GTM.quiet W GTM.is_mutating_request) (GTM.dispatch E tc op args).
Proof.
  intros H. cbv [GTM.mutating_operations forallb] in H.
  repeat match type of H with
         | (_ && _)%bool = true =>
             let H1 := fresh "Hn" in apply andb_prop in H; destruct H as [H1 H];
             apply negb_true_iff in H1
         end.
  unfold GTM.dispatch.
  repeat match goal with
         | Hn : eq_str op ?m = false |- _ => rewrite Hn; clear Hn
         end.
  unfold GTM._list_accounts, GTM._list_containers, GTM._get_container,
    GTM._list_tags, GTM._list_triggers, GTM._list_variables, GTM.list_items,
    GTM.resolve_workspace.
  cbv beta zeta.
  repeat first [ apply (quiet_api E); reflexivity | preserve_step ].
Qed.

(** From the handlers to the whole call: what no handler sends, the
    dispatcher around them does not send either. *)
Lemma called_by_model_never_sends tc mpa q :
  (forall ev, q ev = true -> GTM.is_api ev = true) ->
  (forall op args, op = dict_get mpa "op" (VStr "") ->
                   preserves (@GTM.quiet W q) (GTM.dispatch E tc op args)) ->
  preserves (@GTM.quiet W q) (GTM.called_by_model E tc (Some mpa)).
Proof.
  intros Hq Hd. unfold GTM.called_by_model.
  destruct mpa as [|kv mpa]; [apply preserves_ret; exact _|].
  destruct (GTM.sanitize_args E (kv :: mpa)) as [args err].
  destruct (has_error err); [apply preserves_ret; exact _|].
  unfold GTM.serve.
  repeat first
    [ apply (quiet_weaken_bool GTM.is_api q _ Hq), quiet_ensure_service
    | apply (quiet_weaken GTM.is_api q _ Hq), quiet_status_report
    | apply (quiet_weaken GTM.is_api q _ Hq), quiet_authorization_prompt
    | apply preserves_try_except;
      [exact _ | apply Hd; reflexivity
      | intros e k Hk; apply (quiet_weaken GTM.is_api q _ Hq);
        eapply quiet_on_http_error; exact Hk]
    | preserve_step ].
Qed.

(** X9.  The hard gate, whatever is asked: a call whose confirmed-by-human
    flag is unset sends no create, version or publish request, for any
    argument object at all, any operation value and any state of the
    instance, and however the call ends. *)
Theorem unconfirmed_call_never_mutates :
  forall tc model_produced_args st,
    confirmed_by_human tc = false ->
    GTM.quiet GTM.is_mutating_request st
      (snd (GTM.called_by_model E tc model_produced_args st)).
Proof.
  intros tc mpa st Hc. destruct mpa as [mpa|].
  - apply called_by_model_never_sends.
    + apply mutating_is_api.
    + intros op args _. apply dispatch_unconfirmed_never_mutates. exact Hc.
  - exists []. split; [simpl; now rewrite app_nil_r | reflexivity].
Qed.

(** X10.  Reading is only reading: a call whose operation is none of the
    seven mutating names (a listing, [getContainer], an unknown name, no
    string at all) sends no create, version or publish request, confirmed
    or not. *)
Theorem read_only_operation_never_mutates :
  forall tc mpa st,
    forallb (fun m => negb (eq_str (dict_get mpa "op" (VStr "")) m))
      GTM.mutating_operations = true ->
    GTM.quiet GTM.is_mutating_request st
      (snd (GTM.called_by_model E tc (Some mpa) st)).
Proof.
  intros tc mpa st H. apply called_by_model_never_sends.
  - apply mutating_is_api.
  - intros op args ->. apply dispatch_read_only_never_mutates. exact H.
Qed.

(** X11.  No handler touches the cached credentials: whatever operation is
    dispatched and however it ends, [token_data] and [service] are what
    they were (only [_ensure_service] and the dispatcher's 401/403 branch
    write them). *)
Theorem handlers_keep_credentials :
  forall tc op args st,
    GTM.token_data (snd (GTM.dispatch E tc op args st)) = GTM.token_data st
    /\ GTM.service (snd (GTM.dispatch E tc op args st)) = GTM.service st.
Proof.
  intros tc op args st. exact (same_credentials_dispatch E tc op args st).
Qed.

End GtmNeverSent.

Lemma unconfirmed_call_never_mutates_witness :
  GTM.quiet GTM.is_mutating_request Stub.gtm_ready
    (snd (GTM.called_by_model
            (Stub.gtm (Ret None) (Ret "https://auth") (Stub.respond_triggers []))
            Stub.unconfirmed
            (Stub.request "linkGA4"
               [("accountId", VStr "1"); ("containerId", VStr "2");
                ("measurementId", VStr "G-1")])
            Stub.gtm_ready)).
Proof.
  exact (unconfirmed_call_never_mutates
           (Stub.gtm (Ret None) (Ret "https://auth") (Stub.respond_triggers []))
           Stub.unconfirmed _ Stub.gtm_ready eq_refl).
Defined.

Lemma read_only_operation_witness :
  GTM.quiet GTM.is_mutating_request Stub.gtm_ready
    (snd (GTM.called_by_model
            (Stub.gtm (Ret None) (Ret "https://auth") Stub.respond_tags)
            Stub.confirmed
            (Stub.request "listTags" [("accountId", VStr "1"); ("containerId", VStr "2")])
            Stub.gtm_ready)).
Proof.
  exact (read_only_operation_never_mutates
           (Stub.gtm (Ret None) (Ret "https://auth") Stub.respond_tags)
           Stub.confirmed
           [("op", VStr "listTags");
            ("args", VDict [("accountId", VStr "1"); ("containerId", VStr "2")])]
           Stub.gtm_ready eq_refl).
Defined.

(** *** Edges of the workspace default, of the error handler and of the listings *)

Section GtmEdges.
Context {W : Type} (E : GTM.env W).

Lemma resolve_no_workspace a c w st svc ws w1 :
  truthy w = false -> GTM.service st = Some svc ->
  GTM.execute E svc (GTM.WorkspacesList (GTM.container_path E a c)) (GTM.world st)
  = (Ret ws, w1) ->
  dict_get ws "workspace" (VList [VDict []]) = VList [] ->
  GTM.resolve_workspace E a c w st
  = (Raise (RuntimeError "IndexError" "list index out of range"),
     GTM.logged st (GTM.EvApi (GTM.WorkspacesList (GTM.container_path E a c))) w1).
Proof.
  intros Hw Hs X D. unfold GTM.resolve_workspace. rewrite Hw.
  unfold bind at 1. unfold GTM.api. rewrite Hs. unfold GTM.call. rewrite X.
  unfold bind, lift. now rewrite D.
Qed.

(** X12.  The workspace default has no answer for a container without
    workspaces: when the workspace ID is omitted and the listing comes back
    with an empty ["workspace"] list, each of the eight workspace-scoped
    operations ends in [IndexError] after that one listing, and the
    dispatcher, which only catches HTTP errors, lets it through to the
    caller. *)
Theorem empty_workspace_list_raises :
  forall tc op args st svc ws w1,
    In op GTM.workspace_operations ->
    confirmed_by_human tc = true ->
    GTM.all_given args (GTM.required_parameters op) = true ->
    truthy (dict_get args "workspaceId" (VStr "")) = false ->
    GTM.service st = Some svc ->
    let a := dict_get args "accountId" (VStr "") in
    let c := dict_get args "containerId" (VStr "") in
    let listing := GTM.EvApi (GTM.WorkspacesList (GTM.container_path E a c)) in
    GTM.execute E svc (GTM.WorkspacesList (GTM.container_path E a c)) (GTM.world st)
    = (Ret ws, w1) ->
    dict_get ws "workspace" (VList [VDict []]) = VList [] ->
    try_except (GTM.dispatch E tc (VStr op) args) (GTM.on_http_error E) st
    = (Raise (RuntimeError "IndexError" "list index out of range"),
       GTM.logged st listing w1).
Proof.
  intros tc op args st svc ws w1 Hin Hc Hg Hw Hs a c listing X D.
  destruct (gtm_workspace_shape E tc op args Hin Hc Hg) as (C & K & Heq & _).
  unfold try_except. rewrite Heq.
  rewrite (bind_Raise _ _ _ _ _ (resolve_no_workspace a c _ st svc ws w1 Hw Hs X D)).
  reflexivity.
Qed.

(** X13.  The 401/403 branch is not guarded the way the two other
    authorization prompts are: when the handler raised an HTTP error with
    status 401 or 403 and the authorization flow itself then raises, that
    exception leaves [called_by_model], with the cached token and service
    already cleared. *)
Theorem unauthorized_with_failing_flow :
  forall tc mpa op args err st st1 st2 status text e w,
    dict_get mpa "op" (VStr "") = VStr op -> op <> "" ->
    contains "help" op = false -> contains "status" op = false ->
    GTM.sanitize_args E mpa = (args, err) -> has_error err = false ->
    GTM._ensure_service E st = (Ret true, st1) ->
    GTM.dispatch E tc (VStr op) args st1 = (Raise (HttpError status text), st2) ->
    status = 401%Z \/ status = 403%Z ->
    GTM.start_external_auth_flow E (GTM.world st2) = (Raise e, w) ->
    GTM.called_by_model E tc (Some mpa) st
    = (Raise e, {| GTM.token_data := None; GTM.service := None; GTM.world := w;
                   GTM.log := (GTM.log st2 ++ [GTM.EvStartAuthFlow])%list |}).
Proof.
  intros tc mpa op args err st st1 st2 status text e w
         Hop Hne Hh Hs Hsan Herr Hauth D Hst F.
  rewrite (gtm_reaches_dispatch E tc _ _ _ _ _ _ Hop Hne Hh Hs Hsan Herr Hauth).
  unfold try_except. rewrite D. unfold GTM.on_http_error.
  replace (Z.eqb status 401 || Z.eqb status 403) with true
    by (destruct Hst as [-> | ->]; reflexivity).
  unfold bind, GTM.set_token_data, GTM.set_service, GTM.call. simpl. now rewrite F.
Qed.

Lemma for_lines_items id_key (items : list dict) :
  GTM.for_lines (map VDict items) (GTM.item_line E id_key)
  = Ret (map (GTM.item_text E id_key) items).
Proof.
  induction items as [|item items IH]; [reflexivity|].
  cbn [map GTM.for_lines]. rewrite IH. reflexivity.
Qed.

Lemma truthy_of_list_answer (d : dict) (k : string) (l : list value) :
  dict_get d k (VList []) = VList l ->
  truthy (dict_get d k VNone) = match l with [] => false | _ => true end.
Proof.
  unfold dict_get. destruct (lookup d k) as [v|].
  - intros ->. reflexivity.
  - intros [= <-]. reflexivity.
Qed.

(** X14.  What a listing prints: [listTags], [listTriggers] and
    [listVariables], with the workspace given and the API answering with
    [n] items, return the "No ... found in workspace" line when [n] is 0
    (the key missing included), and otherwise a header followed by exactly
    one bullet line per item, in the API's order, carrying the item's name,
    ID and type ("Unknown" and empty text standing in for what an item
    lacks); one request is sent. *)
Theorem listing_prints_one_line_per_item :
  forall tc op L args st svc found w1 (items : list dict),
    In (op, L) GTM.listings ->
    truthy (dict_get args "accountId" (VStr "")) = true ->
    truthy (dict_get args "containerId" (VStr "")) = true ->
    truthy (dict_get args "workspaceId" (VStr "")) = true ->
    GTM.service st = Some svc ->
    let wid := dict_get args "workspaceId" (VStr "") in
    let request :=
      GTM.l_request L
        (GTM.workspace_path E (dict_get args "accountId" (VStr ""))
           (dict_get args "containerId" (VStr "")) wid) in
    GTM.execute E svc request (GTM.world st) = (Ret found, w1) ->
    dict_get found (GTM.l_key L) (VList []) = VList (map VDict items) ->
    GTM.dispatch E tc (VStr op) args st
    = (Ret (match items with
            | [] => GTM.l_glyph L ++ " No " ++ GTM.l_noun_lc L ++ " found in workspace "
                      ++ GTM.fmt E wid
            | _ => String.concat NL
                     ((GTM.l_glyph L ++ " " ++ GTM.l_noun_uc L ++ " in Workspace "
                         ++ GTM.fmt E wid ++ ":" ++ NL)
                        :: map (GTM.item_text E (GTM.l_id_key L)) items)
            end),
       GTM.logged st (GTM.EvApi request) w1).
Proof.
  intros tc op L args st svc found w1 items Hin Ha Hc Hw Hs wid request X D.
  assert (Hapi : GTM.api E request st = (Ret found, GTM.logged st (GTM.EvApi request) w1)).
  { unfold GTM.api. rewrite Hs. unfold GTM.call. now rewrite X. }
  pose proof (truthy_of_list_answer _ _ _ D) as T.
  simpl in Hin.
  repeat destruct Hin as [Hin|Hin]; try contradiction; injection Hin as <- <-;
    cbv [GTM.dispatch eq_str String.eqb Ascii.eqb Bool.eqb];
    unfold GTM._list_tags, GTM._list_triggers, GTM._list_variables, GTM.list_items;
    cbv zeta; rewrite Ha, Hc; cbn [negb orb];
    unfold bind at 1; rewrite (resolve_supplied E _ _ _ _ Hw);
    cbn [GTM.l_request GTM.l_key GTM.l_id_key GTM.l_glyph GTM.l_noun_lc GTM.l_noun_uc] in *;
    fold wid; subst request; rewrite (bind_Ret _ _ _ _ _ Hapi);
    rewrite T, D;
    (destruct items as [|item items];
     [ reflexivity
     | cbn [negb py_iter]; unfold bind, lift; rewrite for_lines_items; reflexivity ]).
Qed.

End GtmEdges.

Lemma empty_workspace_list_witness :
  try_except
    (GTM.dispatch (Stub.gtm (Ret None) (Ret "https://auth") Stub.respond_no_workspace)
       Stub.confirmed (VStr "listTags") [("accountId", VStr "1"); ("containerId", VStr "2")])
    (GTM.on_http_error (Stub.gtm (Ret None) (Ret "https://auth") Stub.respond_no_workspace))
    Stub.gtm_ready
  = (Raise (RuntimeError "IndexError" "list index out of range"),
     {| GTM.token_data := Some Stub.token0; GTM.service := Some "ya29.stub";
        GTM.world := tt;
        GTM.log := [GTM.EvApi (GTM.WorkspacesList "accounts/1/containers/2")] |}).
Proof.
  exact (empty_workspace_list_raises
           (Stub.gtm (Ret None) (Ret "https://auth") Stub.respond_no_workspace)
           Stub.confirmed "listTags" [("accountId", VStr "1"); ("containerId", VStr "2")]
           Stub.gtm_ready "ya29.stub" [("workspace", VList [])] tt
           (or_introl eq_refl) eq_refl eq_refl eq_refl eq_refl eq_refl eq_refl).
Defined.

Lemma unauthorized_with_failing_flow_witness :
  GTM.called_by_model
    (Stub.gtm (Ret None) (Raise (TransportQueryError "gateway down")) (Stub.respond_status 401))
    Stub.confirmed (Stub.request "listAccounts" []) Stub.gtm_ready
  = (Raise (TransportQueryError "gateway down"),
     {| GTM.token_data := None; GTM.service := None; GTM.world := tt;
        GTM.log := [GTM.EvApi GTM.AccountsList; GTM.EvStartAuthFlow] |}).
Proof.
  assert (Hne : "listAccounts" <> "") by discriminate.
  exact (unauthorized_with_failing_flow
           (Stub.gtm (Ret None) (Raise (TransportQueryError "gateway down"))
              (Stub.respond_status 401))
           Stub.confirmed [("op", VStr "listAccounts"); ("args", VDict [])] "listAccounts"
           [] None Stub.gtm_ready Stub.gtm_ready
           {| GTM.token_data := Some Stub.token0; GTM.service := Some "ya29.stub";
              GTM.world := tt; GTM.log := [GTM.EvApi GTM.AccountsList] |}
           401%Z "denied" (TransportQueryError "gateway down") tt
           eq_refl Hne eq_refl eq_refl eq_refl eq_refl eq_refl eq_refl
           (or_introl eq_refl) eq_refl).
Defined.

Lemma listing_prints_witness :
  GTM.dispatch (Stub.gtm (Ret None) (Ret "https://auth") Stub.respond_tags)
    Stub.confirmed (VStr "listTags")
    [("accountId", VStr "1"); ("containerId", VStr "2"); ("workspaceId", VStr "7")]
    Stub.gtm_ready
  = (Ret (String.concat NL
            [GTM.LABEL ++ " Tags in Workspace 7:" ++ NL;
             GTM.BULLET ++ " GA4 (ID: 1, Type: gaawe)";
             GTM.BULLET ++ " Unknown (ID: 2, Type: )"]),
     {| GTM.token_data := Some Stub.token0; GTM.service := Some "ya29.stub";
        GTM.world := tt;
        GTM.log := [GTM.EvApi (GTM.TagsList "accounts/1/containers/2/workspaces/7")] |}).
Proof.
  exact (listing_prints_one_line_per_item
           (Stub.gtm (Ret None) (Ret "https://auth") Stub.respond_tags)
           Stub.confirmed "listTags"
           {| GTM.l_request := GTM.TagsList; GTM.l_key := "tag"; GTM.l_id_key := "tagId";
              GTM.l_glyph := GTM.LABEL; GTM.l_noun_lc := "tags"; GTM.l_noun_uc := "Tags" |}
           [("accountId", VStr "1"); ("containerId", VStr "2"); ("workspaceId", VStr "7")]
           Stub.gtm_ready "ya29.stub"
           [("tag", VList [VDict [("name", VStr "GA4"); ("tagId", VStr "1");
                                  ("type", VStr "gaawe")];
                           VDict [("tagId", VStr "2")]])]
           tt
           [[("name", VStr "GA4"); ("tagId", VStr "1"); ("type", VStr "gaawe")];
            [("tagId", VStr "2")]]
           (or_introl eq_refl) eq_refl eq_refl eq_refl eq_refl eq_refl eq_refl).
Defined.

(** ** Further properties of the GA4-Enhanced adapter *)

Section GaeFurther.
Context {B : Type} (E : GAE.env B).

Local Opaque GAE.HELP.

Lemma truthy_default (args : dict) (k : string) (d1 d2 : value) :
  truthy d1 = false -> truthy d2 = false ->
  truthy (dict_get args k d1) = truthy (dict_get args k d2).
Proof.
  intros H1 H2. unfold dict_get. destruct (lookup args k); congruence.
Qed.

(** X15.  Every GA4-Enhanced handler checks its required parameters before
    it asks the base integration for anything: a call that lacks one of
    them, or gives it empty, is answered with the operation's "Missing
    required parameter" string and no report is requested. *)
Theorem ga_missing_parameter_is_refused :
  forall op required message args st,
    In (op, (required, message)) GAE.validation ->
    GAE.all_given args required = false ->
    GAE.dispatch E (VStr op) args st = (Ret (GAE.CROSS ++ message), st).
Proof.
  intros op required message args st Hin Hg. simpl in Hin.
  repeat destruct Hin as [Hin|Hin]; try contradiction; injection Hin as <- <- <-;
    cbv [GAE.all_given forallb] in Hg;
    cbv [GAE.dispatch eq_str String.eqb Ascii.eqb Bool.eqb];
    unfold GAE._get_event_config, GAE._list_events, GAE._get_event_report,
      GAE._get_conversions, GAE._get_ecommerce_report, GAE._get_user_journey,
      GAE._get_funnel_report, GAE._custom_query;
    cbv zeta;
    rewrite ?(truthy_default args "funnelSteps" (VList []) (VStr "") eq_refl eq_refl);
    revert Hg;
    repeat match goal with
           | |- context [truthy (dict_get args ?k ?d)] =>
               destruct (truthy (dict_get args k d))
           end;
    cbn [negb orb andb]; intros Hg; try discriminate Hg; reflexivity.
Qed.

(** X16.  Past authentication no [Exception] leaves the GA4-Enhanced
    dispatcher: for any operation string, known or not, an authenticated
    call either answers with a string, or ends in an exception that is not
    an [Exception] ([asyncio.CancelledError] and the like), which is then
    the very exception the handler ended in, in the state it ended in. *)
Theorem ga_authenticated_call_raises_no_exception :
  forall tc mpa op args err st b1,
    mpa <> [] ->
    dict_get mpa "op" (VStr "") = VStr op ->
    GAE.sanitize_args E mpa = (args, err) -> has_error err = false ->
    GAE.base_ensure_services E (GAE.base st) = (Ret true, b1) ->
    (exists out st',
       GAE.called_by_model E tc (Some mpa) st = (Ret out, st'))
    \/ (exists e st',
          GAE.called_by_model E tc (Some mpa) st = (Raise e, st')
          /\ is_exception e = false
          /\ GAE.dispatch E (VStr op) args (GAE.asked st b1) = (Raise e, st')).
Proof.
  intros tc mpa op args err st b1 Hm Hop Hsan Herr Hauth.
  destruct mpa as [|kv mpa]; [contradiction|].
  assert (Hh : exists b, empty_or_contains "help" (VStr op) = Ret b)
    by (unfold empty_or_contains; destruct (negb (truthy (VStr op))); simpl; eauto).
  assert (Hs : exists b, empty_or_contains "status" (VStr op) = Ret b)
    by (unfold empty_or_contains; destruct (negb (truthy (VStr op))); simpl; eauto).
  destruct Hh as [ph Hh]. destruct Hs as [ps Hs].
  pose (status_answer :=
          ret ("Google Analytics Enhanced integration status:" ++ NL
                 ++ "  Authenticated: " ++ (GAE.CHECK ++ " Yes") ++ NL
                 ++ "  User: " ++ GAE.owner_fuser_id E ++ NL)
          : M (GAE.state B) string).
  assert (Hrun : GAE.called_by_model E tc (Some (kv :: mpa)) st
                 = (if ps then status_answer
                    else if ph then ret GAE.HELP
                    else try_except (GAE.dispatch E (VStr op) args) (GAE.on_exception E))
                     (GAE.asked st b1)).
  { unfold GAE.called_by_model. rewrite Hop, Hsan, Herr. unfold GAE.serve.
    rewrite Hh, Hs. unfold lift at 1 2. unfold bind at 1 2.
    unfold bind at 1, GAE.call at 1. rewrite Hauth. reflexivity. }
  rewrite Hrun. destruct ps; [left; unfold status_answer, ret; eauto|].
  destruct ph; [left; unfold ret; eauto|].
  unfold try_except.
  destruct (GAE.dispatch E (VStr op) args (GAE.asked st b1)) as [[out|e] st'];
    [left; eauto|].
  unfold GAE.on_exception, ret.
  destruct (is_exception e) eqn:He; [left; eauto|].
  right. exists e, st'. auto.
Qed.

(** X17.  Not authenticated, the adapter steps aside: unless the operation
    asks for help alone, a call for which the base integration's
    [_ensure_services] answers [False] is handed, with its tool call and
    its original argument object, to the base integration's own
    [called_by_model], whose answer (or exception) is the answer; the
    status text is dropped and no report is requested. *)
Theorem ga_unauthenticated_call_is_delegated :
  forall tc mpa op args err st b1,
    mpa <> [] ->
    dict_get mpa "op" (VStr "") = VStr op ->
    op = "" \/ contains "status" op = true \/ contains "help" op = false ->
    GAE.sanitize_args E mpa = (args, err) -> has_error err = false ->
    GAE.base_ensure_services E (GAE.base st) = (Ret false, b1) ->
    GAE.called_by_model E tc (Some mpa) st
    = (fst (GAE.base_called_by_model E tc mpa b1),
       GAE.logged (GAE.asked st b1) (GAE.EvBaseCalledByModel mpa)
         (snd (GAE.base_called_by_model E tc mpa b1))).
Proof.
  intros tc mpa op args err st b1 Hm Hop Hcase Hsan Herr Hauth.
  destruct mpa as [|kv mpa]; [contradiction|].
  unfold GAE.called_by_model. rewrite Hop, Hsan, Herr. unfold GAE.serve.
  assert (Hd : GAE.call (GAE.EvBaseCalledByModel (kv :: mpa))
                 (GAE.base_called_by_model E tc (kv :: mpa)) (GAE.asked st b1)
               = (fst (GAE.base_called_by_model E tc (kv :: mpa) b1),
                  GAE.logged (GAE.asked st b1) (GAE.EvBaseCalledByModel (kv :: mpa))
                    (snd (GAE.base_called_by_model E tc (kv :: mpa) b1)))).
  { unfold GAE.call, GAE.logged. cbn [GAE.base GAE.asked].
    now destruct (GAE.base_called_by_model E tc (kv :: mpa) b1). }
  destruct (String.eqb_spec op "") as [->|Hne].
  - cbn [empty_or_contains truthy String.eqb negb].
    unfold lift at 1 2. unfold bind at 1 2. unfold bind at 1, GAE.call at 1.
    rewrite Hauth. cbn [negb]. exact Hd.
  - rewrite !empty_or_contains_str by assumption.
    unfold lift at 1 2. unfold bind at 1 2. unfold bind at 1, GAE.call at 1.
    rewrite Hauth. cbn [negb].
    destruct (contains "status" op) eqn:Cs; [exact Hd|].
    destruct Hcase as [-> | [Hc | Hc]]; [contradiction | discriminate | ].
    rewrite Hc. exact Hd.
Qed.

Lemma get_report_logged base_args st :
  GAE._get_report E base_args st
  = (fst (GAE.base_get_report E base_args (GAE.base st)),
     GAE.logged st (GAE.EvGetReport base_args)
       (snd (GAE.base_get_report E base_args (GAE.base st)))).
Proof.
  unfold GAE._get_report, GAE.call, GAE.logged.
  now destruct (GAE.base_get_report E base_args (GAE.base st)).
Qed.

(** X18.  Four operations are the base report under another name:
    [listEvents], [getEventReport], [getConversions] and
    [getEcommerceReport], given a propertyId, request exactly one report,
    for that propertyId and for the caller's date range when one is given,
    and hand back what the base returns, string or exception, untouched. *)
Theorem ga_pass_through_operations :
  forall op args st,
    In op GAE.pass_through_operations ->
    truthy (dict_get args "propertyId" (VStr "")) = true ->
    exists base_args,
      GAE.dispatch E (VStr op) args st
      = (fst (GAE.base_get_report E base_args (GAE.base st)),
         GAE.logged st (GAE.EvGetReport base_args)
           (snd (GAE.base_get_report E base_args (GAE.base st))))
      /\ dict_get base_args "propertyId" VNone = dict_get args "propertyId" (VStr "")
      /\ (forall range, lookup args "dateRange" = Some range ->
                        dict_get base_args "dateRange" VNone = range).
Proof.
  intros op args st Hin Hp. simpl in Hin.
  repeat destruct Hin as [<-|Hin]; try contradiction;
    cbv [GAE.dispatch eq_str String.eqb Ascii.eqb Bool.eqb];
    unfold GAE._list_events, GAE._get_event_report, GAE._get_conversions,
      GAE._get_ecommerce_report;
    cbv zeta; rewrite Hp; cbn [negb];
    eexists;
    (split;
     [ apply get_report_logged
     | split;
       [ reflexivity
       | intros range Hr; unfold dict_get; cbn; now rewrite Hr ] ]).
Qed.

End GaeFurther.

Lemma ga_missing_parameter_witness :
  GAE.dispatch (Stub.gae (fun _ => Ret "report"))
    (VStr "getFunnelReport") [("propertyId", VStr "1"); ("funnelSteps", VList [])]
    Stub.gae_ready
  = (Ret (GAE.CROSS ++ " Missing required parameters: 'propertyId' and 'funnelSteps'"),
     Stub.gae_ready).
Proof.
  apply (ga_missing_parameter_is_refused (Stub.gae (fun _ => Ret "report"))
           "getFunnelReport" ["propertyId"; "funnelSteps"]).
  - simpl. tauto.
  - reflexivity.
Defined.

(** A report that fails with [ValueError] is answered with a string. *)
Lemma ga_authenticated_call_witness :
  exists out st',
    GAE.called_by_model (Stub.gae (fun _ => Raise (RuntimeError "ValueError" "boom")))
      Stub.confirmed (Stub.request "customQuery" [("propertyId", VStr "1")]) Stub.gae_ready
    = (Ret out, st').
Proof.
  assert (Hm : [("op", VStr "customQuery"); ("args", VDict [("propertyId", VStr "1")])] <> [])
    by discriminate.
  destruct (ga_authenticated_call_raises_no_exception
              (Stub.gae (fun _ => Raise (RuntimeError "ValueError" "boom")))
              Stub.confirmed _ "customQuery" [("propertyId", VStr "1")] None
              Stub.gae_ready true Hm eq_refl eq_refl eq_refl eq_refl)
    as [Hret | (e & st' & Hrun & _)].
  - exact Hret.
  - discriminate Hrun.
Defined.

(** A report that is cancelled is not: the cancellation goes through. *)
Example ga_cancelled_report_propagates :
  GAE.called_by_model
    (Stub.gae (fun _ => Raise (BaseError "CancelledError" "")))
    Stub.confirmed (Stub.request "customQuery" [("propertyId", VStr "1")]) Stub.gae_ready
  = (Raise (BaseError "CancelledError" ""),
     {| GAE.base := true;
        GAE.log := [GAE.EvEnsureServices;
                    GAE.EvGetReport
                      [("propertyId", VStr "1"); ("dateRange", VStr "last30days");
                       ("metrics", VList [VStr "sessions"]);
                       ("dimensions", VList []);
                       ("orderBy", VNone);
                       ("limit", VInt 100)]] |}).
Proof. reflexivity. Qed.

Lemma ga_unauthenticated_call_witness :
  GAE.called_by_model (Stub.gae (fun _ => Ret "report")) Stub.confirmed
    (Stub.request "status" []) Stub.gae_unauthenticated
  = (Ret "Please authorize Google Analytics",
     {| GAE.base := false;
        GAE.log := [GAE.EvEnsureServices;
                    GAE.EvBaseCalledByModel [("op", VStr "status"); ("args", VDict [])]] |}).
Proof.
  assert (Hm : [("op", VStr "status"); ("args", VDict [])] <> []) by discriminate.
  exact (ga_unauthenticated_call_is_delegated (Stub.gae (fun _ => Ret "report"))
           Stub.confirmed _ "status" [] None Stub.gae_unauthenticated false
           Hm eq_refl (or_intror (or_introl eq_refl)) eq_refl eq_refl eq_refl).
Defined.

Lemma ga_pass_through_witness :
  exists base_args,
    GAE.dispatch (Stub.gae (fun _ => Ret "report")) (VStr "getConversions")
      [("propertyId", VStr "1"); ("dateRange", VStr "yesterday")] Stub.gae_ready
    = (fst (GAE.base_get_report (Stub.gae (fun _ => Ret "report")) base_args true),
       GAE.logged Stub.gae_ready (GAE.EvGetReport base_args)
         (snd (GAE.base_get_report (Stub.gae (fun _ => Ret "report")) base_args true)))
    /\ dict_get base_args "propertyId" VNone = VStr "1"
    /\ (forall range,
          lookup [("propertyId", VStr "1"); ("dateRange", VStr "yesterday")] "dateRange"
          = Some range ->
          dict_get base_args "dateRange" VNone = range).
Proof.
  exact (ga_pass_through_operations (Stub.gae (fun _ => Ret "report")) "getConversions"
           [("propertyId", VStr "1"); ("dateRange", VStr "yesterday")] Stub.gae_ready
           (or_intror (or_intror (or_introl eq_refl))) eq_refl).
Defined.

(** *** What the reports do not look at, and where they stop *)

Section GaeEdges.
Context {B : Type} (E : GAE.env B).

Lemma snd_bind_ret_like {A C} (m : M (GAE.state B) A)
    (k1 k2 : A -> M (GAE.state B) C) st :
  (forall a s, snd (k1 a s) = s) -> (forall a s, snd (k2 a s) = s) ->
  snd (bind m k1 st) = snd (bind m k2 st).
Proof.
  intros H1 H2. unfold bind. destruct (m st) as [[a|e] s]; [|reflexivity].
  now rewrite H1, H2.
Qed.

(** X19.  Arguments that change nothing that is asked: [getEventReport]
    never looks at ["eventName"], so setting it changes neither request nor
    answer; ["startPage"] and ["endPage"] of [getUserJourney] and
    ["filters"] of [customQuery] only change the text around the report,
    the request sent to the base and the state it is left in being the
    same with any value of them. *)
Theorem ga_arguments_that_do_not_reach_the_request :
  forall args v st,
    GAE._get_event_report E (("eventName", v) :: args) st = GAE._get_event_report E args st
    /\ snd (GAE._get_user_journey E (("startPage", v) :: args) st)
       = snd (GAE._get_user_journey E args st)
    /\ snd (GAE._get_user_journey E (("endPage", v) :: args) st)
       = snd (GAE._get_user_journey E args st)
    /\ snd (GAE._custom_query E (("filters", v) :: args) st)
       = snd (GAE._custom_query E args st).
Proof.
  intros args v st. split; [|split; [|split]].
  - reflexivity.
  - unfold GAE._get_user_journey. cbv zeta.
    change (dict_get (("startPage", v) :: args) "propertyId" (VStr ""))
      with (dict_get args "propertyId" (VStr "")).
    destruct (negb (truthy (dict_get args "propertyId" (VStr "")))); [reflexivity|].
    apply snd_bind_ret_like; reflexivity.
  - unfold GAE._get_user_journey. cbv zeta.
    change (dict_get (("endPage", v) :: args) "propertyId" (VStr ""))
      with (dict_get args "propertyId" (VStr "")).
    destruct (negb (truthy (dict_get args "propertyId" (VStr "")))); [reflexivity|].
    apply snd_bind_ret_like; reflexivity.
  - unfold GAE._custom_query. cbv zeta.
    change (dict_get (("filters", v) :: args) "propertyId" (VStr ""))
      with (dict_get args "propertyId" (VStr "")).
    destruct (negb (truthy (dict_get args "propertyId" (VStr "")))); [reflexivity|].
    apply snd_bind_ret_like; intros a s;
      match goal with
      | |- context [if ?b then _ else _] => now destruct b
      end.
Qed.

(** X20.  [customQuery] switches to a custom date range only when both
    ["startDate"] and ["endDate"] are given: then the request says
    ["dateRange": "custom"] and carries both dates; with one of them
    missing or empty neither date is forwarded and the caller's date range,
    or "last30days", stands.  In no case does the request carry the
    caller's ["filters"]. *)
Theorem ga_custom_query_date_range :
  forall args st,
    truthy (dict_get args "propertyId" (VStr "")) = true ->
    let start_date := dict_get args "startDate" VNone in
    let end_date := dict_get args "endDate" VNone in
    exists base_args,
      snd (GAE._custom_query E args st)
      = GAE.logged st (GAE.EvGetReport base_args)
          (snd (GAE.base_get_report E base_args (GAE.base st)))
      /\ lookup base_args "filters" = None
      /\ (truthy start_date = true -> truthy end_date = true ->
          lookup base_args "dateRange" = Some (VStr "custom")
          /\ lookup base_args "startDate" = Some start_date
          /\ lookup base_args "endDate" = Some end_date)
      /\ (truthy start_date = false \/ truthy end_date = false ->
          lookup base_args "dateRange"
          = Some (dict_get args "dateRange" (VStr "last30days"))
          /\ lookup base_args "startDate" = None
          /\ lookup base_args "endDate" = None).
Proof.
  intros args st Hp start_date end_date.
  unfold GAE._custom_query. cbv zeta. rewrite Hp. cbn [negb].
  fold start_date end_date. eexists. split.
  - unfold bind. rewrite get_report_logged.
    destruct (fst (GAE.base_get_report E _ (GAE.base st))); [|reflexivity].
    destruct (truthy (dict_get args "filters" (VList []))); reflexivity.
  - destruct (truthy start_date), (truthy end_date); cbn;
      repeat split; intros; try reflexivity; try discriminate;
      match goal with
      | H : _ \/ _ |- _ => destruct H; discriminate
      | _ => idtac
      end.
Qed.

Lemma funnel_loop_stops args (good : list dict) bad rest :
  (forall d, bad <> VDict d) ->
  forall i st b',
    GAE.after_reports E (GAE.funnel_base_args args) (length good) (GAE.base st)
    = Some b' ->
    GAE.funnel_loop E args i (map VDict good ++ bad :: rest)%list st
    = (AttributeError bad "get",
       {| GAE.base := b';
          GAE.log := (GAE.log st
                        ++ repeat (GAE.EvGetReport (GAE.funnel_base_args args))
                             (length good))%list |}).
Proof.
  intros Hbad. induction good as [|step good IH]; intros i st b' Hrep.
  - injection Hrep as <-. cbn [map app GAE.funnel_loop length repeat].
    rewrite app_nil_r. unfold bind, lift.
    destruct bad; try (now destruct st). now destruct (Hbad d).
  - cbn [length GAE.after_reports] in Hrep.
    cbn [map app GAE.funnel_loop py_get]. unfold lift at 1 2. unfold bind at 1 2.
    unfold bind at 1. unfold GAE._get_report at 1, GAE.call at 1.
    destruct (GAE.base_get_report E (GAE.funnel_base_args args) (GAE.base st))
      as [[s|e] b1]; [|discriminate Hrep].
    unfold bind at 1.
    match goal with
    | |- context [GAE.funnel_loop E args (S i) _ ?s1] =>
        rewrite (IH (S i) s1 b' Hrep)
    end.
    cbn [length repeat GAE.log GAE.base]. now rewrite <- app_assoc.
Qed.

(** X21.  A funnel stops at the first step that is not an object: with the
    steps before it all objects and the reports for those returning, which
    leave the base integration as [b'], [getFunnelReport] requests one
    report for each of those, none for the bad step or any step after it
    (the base stays as [b']), and raises [AttributeError]; through the
    dispatcher the caller gets the "Error:" string instead of a partial
    funnel. *)
Theorem ga_funnel_stops_at_malformed_step :
  forall args (good : list dict) bad rest st b',
    GAE.after_reports E (GAE.funnel_base_args args) (length good) (GAE.base st)
    = Some b' ->
    truthy (dict_get args "propertyId" (VStr "")) = true ->
    dict_get args "funnelSteps" (VList []) = VList (map VDict good ++ bad :: rest)%list ->
    (forall d, bad <> VDict d) ->
    let stopped :=
      {| GAE.base := b';
         GAE.log := (GAE.log st
                       ++ repeat (GAE.EvGetReport (GAE.funnel_base_args args))
                            (length good))%list |} in
    GAE._get_funnel_report E args st = (AttributeError bad "get", stopped)
    /\ try_except (GAE.dispatch E (VStr "getFunnelReport") args) (GAE.on_exception E) st
       = (Ret (GAE.CROSS ++ " Error: '" ++ type_name bad
                 ++ "' object has no attribute 'get'"), stopped).
Proof.
  intros args good bad rest st b' Hrep Hp Hf Hbad.
  pose proof (funnel_loop_stops args good bad rest Hbad 1 st b' Hrep) as Hloop.
  cbv zeta.
  assert (Hrun : GAE._get_funnel_report E args st
                 = (AttributeError bad "get",
                    {| GAE.base := b';
                       GAE.log := (GAE.log st
                                     ++ repeat (GAE.EvGetReport (GAE.funnel_base_args args))
                                          (length good))%list |})).
  { unfold GAE._get_funnel_report. cbv zeta. rewrite Hp, Hf.
    replace (truthy (VList (map VDict good ++ bad :: rest)%list)) with true
      by (destruct good; reflexivity).
    cbn [negb orb py_iter]. unfold lift at 1. unfold bind at 1 2.
    rewrite Hloop. reflexivity. }
  split; [exact Hrun|].
  unfold try_except.
  change (GAE.dispatch E (VStr "getFunnelReport") args) with (GAE._get_funnel_report E args).
  rewrite Hrun. reflexivity.
Qed.

(** X22.  An event name that is not a string is found out only after the
    report has been fetched: [getEventConfig], given a propertyId and a
    non-empty, non-string ["eventName"], requests the report and then fails
    on the substring test with [TypeError], which the dispatcher turns
    into its "Error:" string. *)
Theorem ga_event_config_non_string_name :
  forall args result st b',
    truthy (dict_get args "propertyId" (VStr "")) = true ->
    truthy (dict_get args "eventName" (VStr "")) = true ->
    (forall s, dict_get args "eventName" (VStr "") <> VStr s) ->
    let request :=
      GAE.event_config_base_args (dict_get args "propertyId" (VStr "")) in
    GAE.base_get_report E request (GAE.base st) = (Ret result, b') ->
    try_except (GAE.dispatch E (VStr "getEventConfig") args) (GAE.on_exception E) st
    = (Ret (GAE.CROSS ++ " Error: 'in <string>' requires string as left operand, not "
              ++ type_name (dict_get args "eventName" (VStr ""))),
       GAE.logged st (GAE.EvGetReport request) b').
Proof.
  intros args result st b' Hp He Hns request Hrep.
  change (GAE.dispatch E (VStr "getEventConfig") args) with (GAE._get_event_config E args).
  unfold try_except, GAE._get_event_config. cbv zeta. rewrite Hp, He. cbn [negb orb].
  fold request. unfold bind at 1. rewrite get_report_logged, Hrep. cbn [fst snd].
  unfold bind, lift, GAE.in_report.
  destruct (dict_get args "eventName" (VStr "")) eqn:D; try reflexivity.
  now destruct (Hns s).
Qed.

End GaeEdges.

Lemma ga_custom_query_date_range_witness :
  exists base_args,
    snd (GAE._custom_query (Stub.gae (fun _ => Ret "report"))
           [("propertyId", VStr "1"); ("startDate", VStr "2024-01-01")] Stub.gae_ready)
    = GAE.logged Stub.gae_ready (GAE.EvGetReport base_args) true
    /\ lookup base_args "startDate" = None
    /\ lookup base_args "dateRange" = Some (VStr "last30days").
Proof.
  destruct (ga_custom_query_date_range (Stub.gae (fun _ => Ret "report"))
              [("propertyId", VStr "1"); ("startDate", VStr "2024-01-01")] Stub.gae_ready
              eq_refl) as (base_args & Hrun & _ & _ & Hlone).
  destruct (Hlone (or_intror eq_refl)) as (Hrange & Hstart & _).
  exists base_args. repeat split; assumption.
Defined.

Lemma ga_funnel_stops_witness :
    GAE._get_funnel_report Stub.gae_counting
      [("propertyId", VStr "1");
       ("funnelSteps", VList [VDict [("name", VStr "Home")]; VStr "/cart";
                              VDict [("name", VStr "Checkout")]])]
      Stub.gae_fresh
    = (Raise (RuntimeError "AttributeError" "'str' object has no attribute 'get'"),
       {| GAE.base := 1;
          GAE.log := [GAE.EvGetReport
                        (GAE.funnel_base_args
                           [("propertyId", VStr "1");
                            ("funnelSteps",
                             VList [VDict [("name", VStr "Home")]; VStr "/cart";
                                    VDict [("name", VStr "Checkout")]])])] |}).
Proof.
  assert (Hbad : forall d, VStr "/cart" <> VDict d) by discriminate.
  exact (proj1 (ga_funnel_stops_at_malformed_step Stub.gae_counting
                  [("propertyId", VStr "1");
                   ("funnelSteps", VList [VDict [("name", VStr "Home")]; VStr "/cart";
                                          VDict [("name", VStr "Checkout")]])]
                  [[("name", VStr "Home")]] (VStr "/cart")
                  [VDict [("name", VStr "Checkout")]]
                  Stub.gae_fresh 1 eq_refl eq_refl eq_refl Hbad)).
Defined.

Lemma ga_event_config_non_string_witness :
  try_except
    (GAE.dispatch (Stub.gae (fun _ => Ret "purchase  12")) (VStr "getEventConfig")
       [("propertyId", VStr "1"); ("eventName", VInt 7)])
    (GAE.on_exception (Stub.gae (fun _ => Ret "purchase  12"))) Stub.gae_ready
  = (Ret (GAE.CROSS ++ " Error: 'in <string>' requires string as left operand, not int"),
     {| GAE.base := true;
        GAE.log := [GAE.EvGetReport (GAE.event_config_base_args (VStr "1"))] |}).
Proof.
  assert (Hns : forall s, VInt 7 <> VStr s) by discriminate.
  exact (ga_event_config_non_string_name (Stub.gae (fun _ => Ret "purchase  12"))
           [("propertyId", VStr "1"); ("eventName", VInt 7)] "purchase  12"
           Stub.gae_ready true eq_refl eq_refl Hns eq_refl).
Defined.

(** *** One request per call *)

Section GtmOneRequest.
Context {W : Type} (E : GTM.env W).

Lemma one_request_then c (K : dict -> M (GTM.state W) string) st svc :
  GTM.service st = Some svc ->
  (forall r, preserves (@GTM.quiet W GTM.is_api) (K r)) ->
  filter GTM.is_api (GTM.log (snd ((r <- GTM.api E c ;; K r) st)))
  = (filter GTM.is_api (GTM.log st) ++ [GTM.EvApi c])%list.
Proof.
  intros Hs HK. destruct (api_then E GTM.is_api c K st svc Hs HK) as (later & HL & F).
  rewrite HL, filter_app. cbn [filter GTM.is_api]. now rewrite F.
Qed.

Lemma bind_ret_l {S A C} (a : A) (k : A -> M S C) : bind (ret a) k = k a.
Proof. reflexivity. Qed.

Lemma try_except_keeps_state {A} (m : M (GTM.state W) A) h st :
  (forall e k, h e = Some k -> forall s, snd (k s) = s) ->
  snd (try_except m h st) = snd (m st).
Proof.
  intros Hh. unfold try_except. destruct (m st) as [[a|e] s]; [reflexivity|].
  destruct (h e) as [k|] eqn:He; [|reflexivity]. simpl. eapply Hh. exact He.
Qed.

Ltac quiet_rest :=
  cbv zeta; intros; repeat first [ apply (quiet_api E); reflexivity | preserve_step ].

(** X23.  No retries, no hidden traffic: each operation other than
    [linkGA4], confirmed, given its required parameters and (where it has
    one) its workspace ID, and with a service built, adds exactly one
    request to the API part of the log, whatever the API answers, a
    refusal included. *)
Theorem one_request_per_call :
  forall tc op args st svc,
    In op GTM.single_request_operations ->
    confirmed_by_human tc = true ->
    GTM.all_given args (GTM.required_for op) = true ->
    (In op GTM.workspace_operations ->
     truthy (dict_get args "workspaceId" (VStr "")) = true) ->
    GTM.service st = Some svc ->
    exists request,
      filter GTM.is_api (GTM.log (snd (GTM.dispatch E tc (VStr op) args st)))
      = (filter GTM.is_api (GTM.log st) ++ [GTM.EvApi request])%list.
Proof.
  intros tc op args st svc Hin Hc Hg Hw Hs. simpl in Hin.
  repeat destruct Hin as [<-|Hin]; try contradiction;
    cbv [GTM.required_for GTM.validation find fst GTM.all_given forallb
         String.eqb Ascii.eqb Bool.eqb] in Hg;
    repeat match type of Hg with
           | (_ && _)%bool = true =>
               let H1 := fresh "Hg" in apply andb_prop in Hg; destruct Hg as [H1 Hg]
           end;
    try (assert (Hw' : truthy (dict_get args "workspaceId" (VStr "")) = true)
           by (apply Hw; simpl; tauto));
    cbv [GTM.dispatch eq_str String.eqb Ascii.eqb Bool.eqb];
    unfold GTM._list_accounts, GTM._list_containers, GTM._get_container,
      GTM._create_container, GTM._list_tags, GTM._list_triggers, GTM._list_variables,
      GTM.list_items, GTM._create_tag, GTM._create_trigger, GTM._create_variable,
      GTM._create_version, GTM._publish_version, GTM.resolve_workspace;
    rewrite ?gate_open by exact Hc;
    cbv zeta;
    repeat match goal with
           | H : truthy _ = true |- _ => rewrite ?H; clear H
           end;
    cbn [negb orb];
    rewrite ?bind_ret_l;
    try (rewrite try_except_keeps_state
           by (intros e k He s; destruct e as [status ? | | | |]; try discriminate He;
               destruct status as [|p|p]; try discriminate He;
               repeat (destruct p as [p|p|]; try discriminate He);
               injection He as <-; reflexivity));
    eexists; (eapply one_request_then; [exact Hs | quiet_rest]).
Qed.

End GtmOneRequest.

Lemma one_request_per_call_witness :
  exists request,
    filter GTM.is_api
      (GTM.log (snd (GTM.dispatch
                       (Stub.gtm (Ret None) (Ret "https://auth") (Stub.respond_status 500))
                       Stub.confirmed (VStr "publishVersion")
                       [("accountId", VStr "1"); ("containerId", VStr "2");
                        ("versionId", VStr "5")]
                       Stub.gtm_ready)))
    = [GTM.EvApi request].
Proof.
  assert (Hw : In "publishVersion" GTM.workspace_operations ->
               truthy (dict_get [("accountId", VStr "1"); ("containerId", VStr "2");
                                 ("versionId", VStr "5")] "workspaceId" (VStr "")) = true).
  { simpl. intros H. repeat destruct H as [H|H]; try discriminate H. contradiction. }
  exact (one_request_per_call
           (Stub.gtm (Ret None) (Ret "https://auth") (Stub.respond_status 500))
           Stub.confirmed "publishVersion"
           [("accountId", VStr "1"); ("containerId", VStr "2"); ("versionId", VStr "5")]
           Stub.gtm_ready "ya29.stub"
           (or_intror (or_intror (or_intror (or_intror (or_intror (or_intror
              (or_intror (or_intror (or_intror (or_intror (or_intror
                 (or_introl eq_refl))))))))))))
           eq_refl eq_refl Hw eq_refl).
Defined.
